(** * NutriSolve recommendation engine: [backend/ml/predict.py]

    A shallow embedding of the request-time prediction service and the
    properties its design document states about it.
    The functions of the offline pipeline, [backend/ml/preprocess.py], that
    generate, label and extend the training data are embedded with it, as
    far as they do not call scikit-learn.

    Modelling conventions.
    - float64 values are idealised as exact rationals ([Q]); a missing
      value of a catalog cell is [NaN], on which every comparison is false.
      Rounding and infinities are not represented.
    - A pandas [DataFrame] is a row count and a finite map from column
      names to columns; a column is the list of its cells in row order.
      Row labels are not represented: the code only addresses rows by
      position ([iloc], boolean masks, numpy indexing).
    - Python exceptions are values of [exn]; code that can raise returns a
      [result].  Code that talks to the outside world (files, standard
      streams, the fitted scikit-learn objects) runs in the monad [M],
      which reads an immutable [World] and logs every interaction as an
      [event]. *)

From Stdlib Require Import QArith Qminmax ZArith List Ascii String Sorted Permutation Lia DecimalString.
From stdpp Require Import gmap strings list.

Local Open Scope string_scope.
Local Open Scope list_scope.

(* ===================================================================== *)
(** * Exceptions and fallible computations *)
(* ===================================================================== *)

Inductive exn :=
| SystemExit (code : Z)
| FileNotFoundError (path : string)
| JSONDecodeError (msg : string)
| KeyError (key : string)
| TypeError (msg : string)
| AttributeError (msg : string)
| ValueError (msg : string)
| IndexError (msg : string)
| RecursionError (msg : string)
| UnicodeDecodeError (msg : string).

(** [str(e)] *)
Definition py_str (e : exn) : string :=
  match e with
  | SystemExit _ => ""
  | FileNotFoundError path => "[Errno 2] No such file or directory: '" ++ path ++ "'"
  | JSONDecodeError msg => msg
  | KeyError key => "'" ++ key ++ "'"
  | TypeError msg | AttributeError msg | ValueError msg | IndexError msg => msg
  | RecursionError msg | UnicodeDecodeError msg => msg
  end.

(** [SystemExit] derives from [BaseException] only, every other exception
    of the model derives from [Exception]. *)
Definition is_Exception (e : exn) : bool :=
  match e with SystemExit _ => false | _ => true end.

Inductive result (A : Type) :=
| Ok (a : A)
| Raise (e : exn).
Arguments Ok {A} a.
Arguments Raise {A} e.

Definition bindR {A B} (m : result A) (f : A → result B) : result B :=
  match m with
  | Ok a => f a
  | Raise e => Raise e
  end.

Declare Scope result_scope.
Delimit Scope result_scope with R.
Bind Scope result_scope with result.
Notation "x <- c ;; k" := (bindR c (λ x, k))
  (at level 100, c at next level, right associativity) : result_scope.
Local Open Scope result_scope.

Fixpoint mapR {A B} (f : A → result B) (l : list A) : result (list B) :=
  match l with
  | [] => Ok []
  | x :: l' => y <- f x ;; ys <- mapR f l' ;; Ok (y :: ys)
  end.

(* ===================================================================== *)
(** * Numbers, cells and JSON values *)
(* ===================================================================== *)

Definition Qlt_bool (x y : Q) : bool := negb (Qle_bool y x).

(** A float64 cell: a number or the missing value. *)
Inductive num :=
| Finite (q : Q)
| NaN.

Inductive cell :=
| CNum (x : num)
| CStr (s : string).

Definition num_add (a b : num) : num :=
  match a, b with
  | Finite x, Finite y => Finite (x + y)
  | _, _ => NaN
  end.

(** Division of floats never raises in numpy; a zero divisor is mapped to
    the missing value. *)
Definition num_div (a b : num) : num :=
  match a, b with
  | Finite x, Finite y => if Qeq_bool y 0 then NaN else Finite (x / y)
  | _, _ => NaN
  end.

Definition num_lt (a : num) (c : Q) : bool :=
  match a with Finite x => Qlt_bool x c | NaN => false end.
Definition num_gt (a : num) (c : Q) : bool :=
  match a with Finite x => Qlt_bool c x | NaN => false end.
Definition num_le (a : num) (c : Q) : bool :=
  match a with Finite x => Qle_bool x c | NaN => false end.
Definition num_eq (a : num) (c : Q) : bool :=
  match a with Finite x => Qeq_bool x c | NaN => false end.

(** [cell == c]: never raises, text is never equal to a number. *)
Definition cell_eq (c : Q) (x : cell) : bool :=
  match x with CNum a => num_eq a c | CStr _ => false end.

(** Ordering a text cell against a number raises [TypeError]. *)
Definition cell_cmp (op : num → Q → bool) (c : Q) (x : cell) : result bool :=
  match x with
  | CNum a => Ok (op a c)
  | CStr _ => Raise (TypeError "'<' not supported between instances of 'str' and 'int'")
  end.

(** [x + y] on cells: numbers add, text concatenates, a mix raises. *)
Definition cell_add (x y : cell) : result cell :=
  match x, y with
  | CNum a, CNum b => Ok (CNum (num_add a b))
  | CStr s, CStr t => Ok (CStr (s ++ t))
  | _, _ => Raise (TypeError "unsupported operand type(s) for +")
  end.

Definition cell_div (x y : cell) : result cell :=
  match x, y with
  | CNum a, CNum b => Ok (CNum (num_div a b))
  | _, _ => Raise (TypeError "unsupported operand type(s) for /")
  end.

#[local] Set Warnings "-register-all".

(** The value [json.loads] returns.  An object keeps the bindings of its
    keys in document order. *)
Inductive json :=
| JNull
| JBool (b : bool)
| JInt (z : Z)
| JFloat (q : Q)
| JStr (s : string)
| JArr (items : list json)
| JObj (fields : list (string * json)).

Fixpoint assoc (k : string) (fields : list (string * json)) : option json :=
  match fields with
  | [] => None
  | (k', v) :: rest => if String.eqb k k' then Some v else assoc k rest
  end.

(** [d.get(k, default)]: only a dict has the method. *)
Definition dict_get (d : json) (k : string) (default : json) : result json :=
  match d with
  | JObj fields => Ok (match assoc k fields with Some v => v | None => default end)
  | _ => Raise (AttributeError "object has no attribute 'get'")
  end.

(** [v == s] for a string literal [s]. *)
Definition is_str (s : string) (v : json) : bool :=
  match v with JStr t => String.eqb s t | _ => false end.

(** [s in v]: membership in a list, key membership in a dict, substring
    test in a string; anything else is not iterable. *)
Definition py_in (s : string) (v : json) : result bool :=
  match v with
  | JArr items => Ok (existsb (is_str s) items)
  | JObj fields => Ok (match assoc s fields with Some _ => true | None => false end)
  | JStr t => Ok (match index 0 s t with Some _ => true | None => false end)
  | _ => Raise (TypeError "argument is not iterable")
  end.

(** [a or b] on two membership tests: [b] is evaluated only if [a] is false. *)
Definition py_or (a b : result bool) : result bool :=
  x <- a ;; if x then Ok true else b.

(** [budget / c]: defined on numbers (a bool is an int). *)
Definition py_truediv (budget : json) (c : Q) : result Q :=
  match budget with
  | JInt z => Ok (inject_Z z / c)%Q
  | JFloat q => Ok (q / c)%Q
  | JBool b => Ok ((if b then 1 else 0) / c)%Q
  | _ => Raise (TypeError "unsupported operand type(s) for /")
  end.

(* ===================================================================== *)
(** * Data frames *)
(* ===================================================================== *)

Record DataFrame := {
  nrows : nat;
  cols : gmap string (list cell)
}.

(** Every column has one cell per row. *)
Definition wf_frame (df : DataFrame) : Prop :=
  map_Forall (λ _ l, length l = nrows df) (cols df).

(** The cell of row [i] in column [c]. *)
Definition cell_at (df : DataFrame) (c : string) (i : nat) : option cell :=
  match cols df !! c with
  | Some l => l !! i
  | None => None
  end.

Definition is_number (x : cell) : bool :=
  match x with CNum _ => true | CStr _ => false end.

(** The number in a numeric cell. *)
Definition num_of (x : cell) : num :=
  match x with CNum a => a | CStr _ => NaN end.

(** The column exists and holds numbers only. *)
Definition numeric_column (df : DataFrame) (c : string) : bool :=
  match cols df !! c with
  | Some l => forallb is_number l
  | None => false
  end.

(** The column holds numbers only, if it exists. *)
Definition numeric_if_present (df : DataFrame) (c : string) : bool :=
  match cols df !! c with
  | Some l => forallb is_number l
  | None => true
  end.

(** [c in df.columns] *)
Definition has_column (df : DataFrame) (c : string) : bool :=
  match cols df !! c with Some _ => true | None => false end.

(** [df[c]] *)
Definition getitem (df : DataFrame) (c : string) : result (list cell) :=
  match cols df !! c with
  | Some l => Ok l
  | None => Raise (KeyError c)
  end.

(** Rows of a column selected by a boolean mask. *)
Fixpoint take_rows {A} (mask : list bool) (l : list A) : list A :=
  match mask, l with
  | b :: mask', x :: l' => if b then x :: take_rows mask' l' else take_rows mask' l'
  | _, _ => []
  end.

Fixpoint count_true (mask : list bool) : nat :=
  match mask with
  | [] => 0
  | b :: mask' => (if b then 1 else 0) + count_true mask'
  end.

(** [df[mask]] *)
Definition select_rows (df : DataFrame) (mask : list bool) : DataFrame :=
  {| nrows := count_true mask; cols := take_rows mask <$> cols df |}.

(** [df[c] = column] *)
Definition setitem (df : DataFrame) (c : string) (column : list cell) : DataFrame :=
  {| nrows := nrows df; cols := <[c := column]> (cols df) |}.

(** [df[c] = scalar] *)
Definition setitem_scalar (df : DataFrame) (c : string) (v : cell) : DataFrame :=
  setitem df c (replicate (nrows df) v).

(* ===================================================================== *)
(** * Constraint filter: [filter_by_user_constraints] *)
(* ===================================================================== *)

(** [if flag in df.columns: df = df[df[flag] == 1]] *)
Definition keep_flagged (df : DataFrame) (flag : string) : DataFrame :=
  match cols df !! flag with
  | Some l => select_rows df (map (cell_eq 1) l)
  | None => df
  end.

Definition filter_by_user_constraints (df : DataFrame) (user_profile : json)
  : result DataFrame :=
  let filtered_df := df in
  restrictions <- dict_get user_profile "dietaryRestrictions" (JArr []) ;;
  budget <- dict_get user_profile "weeklyBudget" (JInt 100) ;;
  max_cost_per_serving <- py_truediv budget 21 ;;
  vegan <- py_or (py_in "Vegan" restrictions) (py_in "vegan" restrictions) ;;
  let filtered_df := if vegan then keep_flagged filtered_df "is_vegan" else filtered_df in
  glutenfree <- py_or (py_in "Gluten Free" restrictions) (py_in "gluten-free" restrictions) ;;
  let filtered_df :=
    if glutenfree then keep_flagged filtered_df "is_glutenfree" else filtered_df in
  nutfree <- py_or (py_in "Nut Allergy" restrictions) (py_in "nut-free" restrictions) ;;
  let filtered_df := if nutfree then keep_flagged filtered_df "is_nutfree" else filtered_df in
  match cols filtered_df !! "cost_per_serving" with
  | Some cost =>
      mask <- mapR (cell_cmp num_le max_cost_per_serving) cost ;;
      Ok (select_rows filtered_df mask)
  | None => Ok filtered_df
  end.

(* ===================================================================== *)
(** * Goal adjuster: [adjust_for_goals] *)
(* ===================================================================== *)

(** [mask_a & mask_b] on two boolean series of one frame. *)
Definition mask_and (a b : list bool) : list bool := zip_with andb a b.

Definition scale_where (probs : list Q) (mask : list bool) (m : Q) : list Q :=
  zip_with (λ p (b : bool), if b then p * m else p)%Q probs mask.

(** [probs[mask] *= m]: numpy rejects a mask of another length. *)
Definition imul_masked (probs : list Q) (mask : list bool) (m : Q) : result (list Q) :=
  if Nat.eqb (length mask) (length probs)
  then Ok (scale_where probs mask m)
  else Raise (IndexError "boolean index did not match indexed array").

(** [np.clip(x, lo, hi)] on one entry. *)
Definition clip (x lo hi : Q) : Q :=
  if Qlt_bool x lo then lo else if Qlt_bool hi x then hi else x.

Definition adjust_for_goals (probs : list Q) (df : DataFrame) (user_profile : json)
  : result (list Q) :=
  goal <- dict_get user_profile "primaryGoal" (JStr "") ;;
  let adjusted_probs := probs in
  adjusted_probs <-
    (if is_str "Weight Loss" goal then
       calories <- getitem df "calories" ;;
       low_cal <- mapR (cell_cmp num_lt 300) calories ;;
       protein_g <- getitem df "protein_g" ;;
       high_protein <- mapR (cell_cmp num_gt 15) protein_g ;;
       let low_cal_mask := mask_and low_cal high_protein in
       imul_masked adjusted_probs low_cal_mask 1.2
     else if is_str "Muscle Gain" goal then
       protein_g <- getitem df "protein_g" ;;
       high_protein_mask <- mapR (cell_cmp num_gt 20) protein_g ;;
       imul_masked adjusted_probs high_protein_mask 1.3
     else if is_str "Heart Health" goal then
       sodium_mg <- getitem df "sodium_mg" ;;
       low_sodium <- mapR (cell_cmp num_lt 500) sodium_mg ;;
       fiber_g <- getitem df "fiber_g" ;;
       high_fiber <- mapR (cell_cmp num_gt 5) fiber_g ;;
       let heart_healthy_mask := mask_and low_sodium high_fiber in
       imul_masked adjusted_probs heart_healthy_mask 1.2
     else Ok adjusted_probs) ;;
  Ok (map (λ p, clip p 0 1) adjusted_probs).

(* ===================================================================== *)
(** * Feature materializer (the loops of [predict_top_meals]) *)
(* ===================================================================== *)

Definition numerical_features : list string :=
  [ "calories"; "protein_g"; "fat_g"; "carbs_g"; "fiber_g"; "sugars_g";
    "sodium_mg"; "vitamin_a_iu"; "vitamin_c_mg"; "calcium_mg"; "iron_mg";
    "potassium_mg"; "magnesium_mg"; "zinc_mg"; "phosphorus_mg";
    "cost_per_serving"; "nutrient_density"; "sugar_to_carb_ratio" ].
Definition categorical_features : list string := [ "food_category" ].
Definition binary_features : list string := [ "is_glutenfree"; "is_nutfree"; "is_vegan" ].

(** What [df.get(c, default)] returns: the column, or the scalar default. *)
Inductive operand :=
| Scalar (v : cell)
| Series (l : list cell).

Definition df_get (df : DataFrame) (c : string) (default : Q) : operand :=
  match cols df !! c with
  | Some l => Series l
  | None => Scalar (CNum (Finite default))
  end.

Fixpoint zipR (op : cell → cell → result cell) (a b : list cell) : result (list cell) :=
  match a, b with
  | x :: a', y :: b' => v <- op x y ;; vs <- zipR op a' b' ;; Ok (v :: vs)
  | _, _ => Ok []
  end.

(** An arithmetic operator applied elementwise, a scalar being broadcast. *)
Definition elementwise (op : cell → cell → result cell) (a b : operand) : result operand :=
  match a, b with
  | Scalar x, Scalar y => v <- op x y ;; Ok (Scalar v)
  | Series l, Scalar y => vs <- mapR (λ x, op x y) l ;; Ok (Series vs)
  | Scalar x, Series l => vs <- mapR (λ y, op x y) l ;; Ok (Series vs)
  | Series l1, Series l2 => vs <- zipR op l1 l2 ;; Ok (Series vs)
  end.

(** [df[c] = v] *)
Definition assign (df : DataFrame) (c : string) (v : operand) : DataFrame :=
  match v with
  | Scalar x => setitem_scalar df c x
  | Series l => setitem df c l
  end.

Definition one : operand := Scalar (CNum (Finite 1)).

(** Body of the loop over [numerical_features]. *)
Definition fill_numerical (eligible_foods : DataFrame) (col : string) : result DataFrame :=
  if has_column eligible_foods col then Ok eligible_foods
  else if String.eqb col "nutrient_density" then
    good <- elementwise cell_add (df_get eligible_foods "protein_g" 0)
                                 (df_get eligible_foods "fiber_g" 0) ;;
    energy <- elementwise cell_add (df_get eligible_foods "calories" 1) one ;;
    density <- elementwise cell_div good energy ;;
    Ok (assign eligible_foods col density)
  else if String.eqb col "sugar_to_carb_ratio" then
    carbs <- elementwise cell_add (df_get eligible_foods "carbs_g" 1) one ;;
    ratio <- elementwise cell_div (df_get eligible_foods "sugars_g" 0) carbs ;;
    Ok (assign eligible_foods col ratio)
  else Ok (setitem_scalar eligible_foods col (CNum (Finite 0))).

(** Body of the loops over [categorical_features] and [binary_features]. *)
Definition fill_default (v : cell) (eligible_foods : DataFrame) (col : string) : DataFrame :=
  if has_column eligible_foods col then eligible_foods
  else setitem_scalar eligible_foods col v.

Fixpoint foldR {A B} (f : A → B → result A) (l : list B) (a : A) : result A :=
  match l with
  | [] => Ok a
  | x :: l' => a' <- f a x ;; foldR f l' a'
  end.

Definition materialize_features (eligible_foods : DataFrame) : result DataFrame :=
  eligible_foods <- foldR fill_numerical numerical_features eligible_foods ;;
  let eligible_foods :=
    fold_left (fill_default (CStr "unknown")) categorical_features eligible_foods in
  Ok (fold_left (fill_default (CNum (Finite 0))) binary_features eligible_foods).

(** [df[names]]: the named columns, in the order asked for. *)
Definition Table := list (string * list cell).

Definition select_columns (df : DataFrame) (names : list string) : result Table :=
  mapR (λ c, l <- getitem df c ;; Ok (c, l)) names.

(* ===================================================================== *)
(** * Inference adapter: the non-negative shift *)
(* ===================================================================== *)

Definition Matrix := list (list Q).

Definition epsilon : Q := 1 # 1000000000.

(** [X.min()]: the least entry; numpy refuses an array without entries. *)
Definition matrix_min (X : Matrix) : result Q :=
  match concat X with
  | [] => Raise (ValueError "zero-size array to reduction operation minimum which has no identity")
  | x :: xs => Ok (fold_left Qmin xs x)
  end.

(** [X - X.min() + 1e-9] *)
Definition nonneg_shift (X_transformed : Matrix) : result Matrix :=
  lowest <- matrix_min X_transformed ;;
  Ok (map (map (λ x, x - lowest + epsilon)%Q) X_transformed).

(* ===================================================================== *)
(** * Ranker and explainer *)
(* ===================================================================== *)

(** [l[:stop]] on a numpy array. *)
Definition slice_to {A} (l : list A) (stop : json) : result (list A) :=
  match stop with
  | JNull => Ok l
  | JInt k =>
      Ok (if (0 <=? k)%Z then firstn (Z.to_nat k) l
          else firstn (length l - Z.to_nat (- k)) l)
  | JBool b => Ok (firstn (if b then 1 else 0) l)
  | _ => Raise (TypeError "slice indices must be integers or None or have an __index__ method")
  end.

(** The explanation strings, by the f-string that produces them. *)
Inductive reason :=
| HighProtein (grams : num)
| HighFiber (grams : num)
| LowCalorie (kcal : num)
| LowSugar (grams : num)
| BudgetFriendly (dollars : num).

Record Nutrition := {
  calories : num;
  protein : num;
  carbs : num;
  fat : num;
  fiber : num;
  sugars : num
}.

Record Recommendation := {
  name : cell;
  category : cell;
  fit_score : Q;
  confidence : string;
  nutrition : Nutrition;
  cost : num;
  reasons : list reason;
  dietary_info : list string
}.

(** The two shapes of the dict [predict_top_meals] returns. *)
Inductive Response :=
| NoEligible (message : string)
| Ranked (recs : list Recommendation) (query : json) (total_eligible : nat)
         (model_version : string) (user_goal : json).

Definition recommendations (r : Response) : list Recommendation :=
  match r with
  | NoEligible _ => []
  | Ranked recs _ _ _ _ => recs
  end.

(** [df.iloc[idx]]: the row at a position, as a map from column names. *)
Definition iloc (df : DataFrame) (idx : nat) : result (gmap string cell) :=
  if (idx <? nrows df)%nat then Ok (omap (λ l : list cell, l !! idx) (cols df))
  else Raise (IndexError "single positional indexer is out-of-bounds").

(** [food[c]] and [food.get(c, default)] *)
Definition row_getitem (food : gmap string cell) (c : string) : result cell :=
  match food !! c with
  | Some v => Ok v
  | None => Raise (KeyError c)
  end.
Definition row_get (food : gmap string cell) (c : string) (default : cell) : cell :=
  match food !! c with
  | Some v => v
  | None => default
  end.

(** [float(v)]; text is not parsed. *)
Definition py_float (v : cell) : result num :=
  match v with
  | CNum x => Ok x
  | CStr _ => Raise (ValueError "could not convert string to float")
  end.

(** [if food[c] <op> bound: reasons.append(f"...{food[c]}...")] *)
Definition explain (food : gmap string cell) (c : string) (op : num → Q → bool)
    (bound : Q) (why : num → reason) (reasons : list reason) : result (list reason) :=
  v <- row_getitem food c ;;
  holds <- cell_cmp op bound v ;;
  if holds then
    v <- row_getitem food c ;;
    x <- py_float v ;;
    Ok (reasons ++ [why x])
  else Ok reasons.

(** [if food.get(flag, 0) == 1: dietary.append(label)] *)
Definition tag (food : gmap string cell) (flag label : string) (dietary : list string)
  : list string :=
  if cell_eq 1 (row_get food flag (CNum (Finite 0))) then dietary ++ [label] else dietary.

Definition confidence_of (prob : Q) : string :=
  if Qlt_bool 0.8 prob then "high" else if Qlt_bool 0.6 prob then "medium" else "moderate".

Definition float_of (food : gmap string cell) (c : string) : result num :=
  v <- row_getitem food c ;; py_float v.

(** Body of the loop over [top_indices]. *)
Definition build_recommendation (eligible_foods : DataFrame) (probs : list Q) (idx : nat)
  : result Recommendation :=
  food <- iloc eligible_foods idx ;;
  prob <- match probs !! idx with
          | Some p => Ok p
          | None => Raise (IndexError "index is out of bounds")
          end ;;
  let reasons := [] in
  reasons <- explain food "protein_g" num_gt 15 HighProtein reasons ;;
  reasons <- explain food "fiber_g" num_gt 5 HighFiber reasons ;;
  reasons <- explain food "calories" num_lt 200 LowCalorie reasons ;;
  reasons <- explain food "sugars_g" num_lt 5 LowSugar reasons ;;
  reasons <- explain food "cost_per_serving" num_lt 2 BudgetFriendly reasons ;;
  let dietary := [] in
  let dietary := tag food "is_vegan" "Vegan" dietary in
  let dietary := tag food "is_glutenfree" "Gluten-free" dietary in
  let dietary := tag food "is_nutfree" "Nut-free" dietary in
  description <- row_getitem food "description" ;;
  let food_category := row_get food "food_category" (CStr "Unknown") in
  calories <- float_of food "calories" ;;
  protein <- float_of food "protein_g" ;;
  carbs <- float_of food "carbs_g" ;;
  fat <- float_of food "fat_g" ;;
  fiber <- float_of food "fiber_g" ;;
  sugars <- float_of food "sugars_g" ;;
  cost <- float_of food "cost_per_serving" ;;
  Ok {| name := description;
        category := food_category;
        fit_score := prob;
        confidence := confidence_of prob;
        nutrition := {| calories := calories; protein := protein; carbs := carbs;
                        fat := fat; fiber := fiber; sugars := sugars |};
        cost := cost;
        reasons := reasons;
        dietary_info := dietary |}.

Section Ranking.

(** [np.argsort]: the positions of a vector in an order that sorts it
    ascending.  numpy's default sort kind promises nothing about the
    order of equal entries, so the function is left abstract here. *)
Variable argsort : list Q → list nat.

(** [np.argsort(probs)[::-1][:top_k]] *)
Definition top_indices (probs : list Q) (top_k : json) : result (list nat) :=
  slice_to (reverse (argsort probs)) top_k.

(** The last block of [predict_top_meals]: rank, explain, assemble. *)
Definition rank_and_explain (probs : list Q) (eligible_foods : DataFrame)
    (user_profile query top_k : json) : result Response :=
  top <- top_indices probs top_k ;;
  recs <- mapR (build_recommendation eligible_foods probs) top ;;
  user_goal <- dict_get user_profile "primaryGoal" (JStr "General Health") ;;
  Ok (Ranked recs query (nrows eligible_foods) "1.0" user_goal).

End Ranking.

(* ===================================================================== *)
(** * The process and its environment *)
(* ===================================================================== *)

(** The ways the decoder gives up on a text before it has a verdict on
    it, each with the message of the exception: brackets nested deeper
    than the interpreter's stack ([RecursionError]), an integer literal
    of more digits than [int] converts ([ValueError]), bytes that are
    not text in the encoding of the stream ([UnicodeDecodeError], raised
    while the text is read).  None of them is a [JSONDecodeError]. *)
Inductive decoder_abort :=
| NestedTooDeep (msg : string)
| IntegerTooLong (msg : string)
| NotUnicode (msg : string).

Definition abort_exn (failure : decoder_abort) : exn :=
  match failure with
  | NestedTooDeep msg => RecursionError msg
  | IntegerTooLong msg => ValueError msg
  | NotUnicode msg => UnicodeDecodeError msg
  end.

(** A text as [json.loads] sees it: the encoding of a value; malformed,
    in which case the decoder raises [JSONDecodeError] with a message; or
    a text the decoder gives up on, which may or may not be valid JSON. *)
Inductive document :=
| Valid (value : json)
| Malformed (decoder_msg : string)
| Aborted (failure : decoder_abort).

(** [json.loads(text)], and [json.load(f)] on the text of a file *)
Definition json_loads (text : document) : result json :=
  match text with
  | Valid value => Ok value
  | Malformed decoder_msg => Raise (JSONDecodeError decoder_msg)
  | Aborted failure => Raise (abort_exn failure)
  end.

(** The fitted scikit-learn objects, by the one method the service calls
    on each.  [Classifier] is [predict_proba] followed by the selection of
    the positive-class column. *)
Definition Preprocessor := Table → result Matrix.
Definition Selector := Matrix → result Matrix.
Definition Classifier := Matrix → result (list Q).

(** Standard input and the six files the service may open; [None] is an
    absent file. *)
Record World := {
  stdin_isatty : bool;
  stdin : document;
  rf_model_pkl : option Classifier;
  preprocessor_pkl : option Preprocessor;
  feature_selector_pkl : option Selector;
  feature_names_json : option document;
  processed_data_csv : option DataFrame;
  usda_foods_csv : option DataFrame
}.

(** A line printed to standard error. *)
Inductive err_line :=
| Notice (text : string)
| ErrorObject (error : string).

Inductive event :=
| EvIsatty
| EvStdinRead
| EvOpen (path : string)
| EvTransform
| EvFeatureSelect
| EvPredictProba
| EvStderr (line : err_line)
| EvStdout (response : Response).

Definition M (A : Type) : Type := World → result A * list event.

Definition retM {A} (a : A) : M A := λ _, (Ok a, []).

Definition bindM {A B} (m : M A) (f : A → M B) : M B :=
  λ w,
    match m w with
    | (Ok a, t) => let '(r, t') := f a w in (r, t ++ t')
    | (Raise e, t) => (Raise e, t)
    end.

Declare Scope io_scope.
Delimit Scope io_scope with io.
Notation "x <- c ;; k" := (bindM c (λ x, k))
  (at level 100, c at next level, right associativity) : io_scope.
Notation "c ;;; k" := (bindM c (λ _, k))
  (at level 100, right associativity) : io_scope.

Definition lift {A} (r : result A) : M A := λ _, (r, []).
Definition raise {A} (e : exn) : M A := lift (Raise e).
Definition emit (e : event) : M unit := λ _, (Ok tt, [e]).

(** [try: m  except: handler]; a handler that does not match re-raises. *)
Definition try_except {A} (m : M A) (handler : exn → M A) : M A :=
  λ w,
    match m w with
    | (Ok a, t) => (Ok a, t)
    | (Raise e, t) => let '(r, t') := handler e w in (r, t ++ t')
    end.

(** [sys.exit(code)] *)
Definition sys_exit {A} (code : Z) : M A := raise (SystemExit code).

(** Opening a file for reading, whatever the reader. *)
Definition open_file {A} (path : string) (content : World → option A) : M A :=
  λ w,
    (match content w with
     | Some a => Ok a
     | None => Raise (FileNotFoundError path)
     end, [EvOpen path]).

Definition isatty : M bool := λ w, (Ok (stdin_isatty w), [EvIsatty]).
Definition stdin_read : M document := λ w, (Ok (stdin w), [EvStdinRead]).

(** A call of a fitted object. *)
Definition call {X Y} (what : event) (f : X → result Y) (x : X) : M Y :=
  λ _, (f x, [what]).

(** What the process leaves behind. *)
Definition trace {A} (m : M A) (w : World) : list event := snd (m w).
Definition outcome {A} (m : M A) (w : World) : result A := fst (m w).

Fixpoint stdout_of (t : list event) : list Response :=
  match t with
  | [] => []
  | EvStdout r :: t' => r :: stdout_of t'
  | _ :: t' => stdout_of t'
  end.

Fixpoint stderr_of (t : list event) : list err_line :=
  match t with
  | [] => []
  | EvStderr l :: t' => l :: stderr_of t'
  | _ :: t' => stderr_of t'
  end.

(** The exit status of the interpreter. *)
Definition exit_status {A} (r : result A) : Z :=
  match r with
  | Ok _ => 0
  | Raise (SystemExit code) => code
  | Raise _ => 1
  end.

Definition load_models : M (Classifier * Preprocessor * Selector * json) :=
  try_except
    (model <- open_file "ml/rf_model.pkl" rf_model_pkl ;;
     preprocessor <- open_file "ml/preprocessor.pkl" preprocessor_pkl ;;
     feature_selector <- open_file "ml/feature_selector.pkl" feature_selector_pkl ;;
     f <- open_file "ml/feature_names.json" feature_names_json ;;
     feature_info <- lift (json_loads f) ;;
     retM (model, preprocessor, feature_selector, feature_info))%io
    (λ e,
       match e with
       | FileNotFoundError _ =>
           (emit (EvStderr (ErrorObject
                    ("Model files not found. Run train.py first. " ++ py_str e))) ;;;
            sys_exit 1)%io
       | _ => raise e
       end).

Definition load_food_database : M DataFrame :=
  try_except
    (open_file "ml/processed_data.csv" processed_data_csv)
    (λ e,
       match e with
       | FileNotFoundError _ =>
           try_except
             (open_file "data/usda-foods.csv" usda_foods_csv)
             (λ e,
                match e with
                | FileNotFoundError _ =>
                    (emit (EvStderr (ErrorObject
                             ("Food database not found: " ++ py_str e))) ;;;
                     sys_exit 1)%io
                | _ => raise e
                end)
       | _ => raise e
       end).

(** The request used when standard input is a terminal. *)
Definition test_input : json :=
  JObj [ ("userProfile",
          JObj [ ("age", JInt 30);
                 ("gender", JStr "Female");
                 ("primaryGoal", JStr "Weight Loss");
                 ("dietaryRestrictions", JArr [JStr "Vegan"]);
                 ("weeklyBudget", JInt 75) ]);
         ("query", JStr "healthy breakfast");
         ("top_k", JInt 5) ].

(** The first block of [main]: the request, from standard input or, at a
    terminal, the built-in one. *)
Definition read_request : M json :=
  (tty <- isatty ;;
   if tty then
     emit (EvStderr (Notice "No input provided. Using test data...")) ;;;
     retM test_input
   else
     input_json <- stdin_read ;;
     lift (json_loads input_json))%io.

(** The two [except] clauses of [main]. *)
Definition handle_failure {A} (e : exn) : M A :=
  match e with
  | JSONDecodeError _ =>
      (emit (EvStderr (ErrorObject ("Invalid JSON input: " ++ py_str e))) ;;;
       sys_exit 1)%io
  | _ =>
      if is_Exception e then
        (emit (EvStderr (ErrorObject ("Prediction failed: " ++ py_str e))) ;;;
         sys_exit 1)%io
      else raise e
  end.

Section Service.

Variable argsort : list Q → list nat.

Definition predict_top_meals (user_input top_k : json) : M Response :=
  (artifacts <- load_models ;;
   let '(model, preprocessor, feature_selector, feature_info) := artifacts in
   food_db <- load_food_database ;;
   user_profile <- lift (dict_get user_input "userProfile" (JObj [])) ;;
   query <- lift (dict_get user_input "query" (JStr "")) ;;
   eligible_foods <- lift (filter_by_user_constraints food_db user_profile) ;;
   if Nat.eqb (nrows eligible_foods) 0 then
     retM (NoEligible
       "No foods match your dietary restrictions and budget. Try relaxing some constraints.")
   else
     eligible_foods <- lift (materialize_features eligible_foods) ;;
     X <- lift (select_columns eligible_foods
                  (numerical_features ++ categorical_features ++ binary_features)) ;;
     X_transformed <- call EvTransform preprocessor X ;;
     X_nonneg <- lift (nonneg_shift X_transformed) ;;
     X_selected <- call EvFeatureSelect feature_selector X_nonneg ;;
     probs <- call EvPredictProba model X_selected ;;
     probs <- lift (adjust_for_goals probs eligible_foods user_profile) ;;
     lift (rank_and_explain argsort probs eligible_foods user_profile query top_k))%io.

Definition main : M unit :=
  try_except
    (user_input <- read_request ;;
     top_k <- lift (dict_get user_input "top_k" (JInt 5)) ;;
     result <- predict_top_meals user_input top_k ;;
     emit (EvStdout result) ;;;
     sys_exit 0)%io
    handle_failure.

End Service.

(* ===================================================================== *)
(** * A stable [argsort] and sample data *)
(* ===================================================================== *)

(** [v[i]] *)
Definition key (v : list Q) (i : nat) : Q := nth i v 0%Q.

(** The insertion sort numpy applies to short arrays: each position is
    moved left past the positions whose entry is strictly greater. *)
Fixpoint insert_index (v : list Q) (vi : nat) (sorted : list nat) : list nat :=
  match sorted with
  | [] => [vi]
  | j :: rest =>
      if Qlt_bool (key v vi) (key v j) then vi :: sorted
      else j :: insert_index v vi rest
  end.

Definition argsort_insertion (v : list Q) : list nat :=
  fold_left (λ sorted vi, insert_index v vi sorted) (seq 0 (length v)) [].

Definition numbers (l : list Q) : list cell := map (λ q, CNum (Finite q)) l.
Definition texts (l : list string) : list cell := map CStr l.

Definition sample_catalog : DataFrame :=
  {| nrows := 4;
     cols := list_to_map
       [ ("description", texts ["Tofu"; "Chicken breast"; "Lentil soup"; "Cheesecake"]);
         ("food_category", texts ["legumes"; "meat"; "legumes"; "dessert"]);
         ("calories", numbers [180; 165; 230; 420]%Q);
         ("protein_g", numbers [22; 31; 18; 6]%Q);
         ("fat_g", numbers [9; 3.6; 1; 28]%Q);
         ("carbs_g", numbers [4; 0; 40; 35]%Q);
         ("fiber_g", numbers [6; 0; 16; 1]%Q);
         ("sugars_g", numbers [3; 0; 4; 27]%Q);
         ("sodium_mg", numbers [10; 74; 480; 300]%Q);
         ("cost_per_serving", numbers [1.5; 3; 1.2; 4.5]%Q);
         ("is_vegan", numbers [1; 0; 1; 0]%Q);
         ("is_glutenfree", numbers [1; 1; 1; 0]%Q) ] |}.

Definition find_column (c : string) (X : Table) : list cell :=
  match List.find (λ kv, String.eqb c (fst kv)) X with
  | Some kv => snd kv
  | None => []
  end.

Definition finite_or_zero (x : cell) : Q :=
  match x with CNum (Finite q) => q | _ => 0%Q end.

(** Stand-ins for the fitted objects: centre two columns, keep the first,
    score by it. *)
Definition sample_preprocessor : Preprocessor :=
  λ X, Ok (zip_with (λ p f, [finite_or_zero p - 20; finite_or_zero f - 5]%Q)
             (find_column "protein_g" X) (find_column "fiber_g" X)).
Definition sample_selector : Selector := λ X, Ok (map (firstn 1) X).
Definition sample_model : Classifier :=
  λ X, Ok (map (λ row, clip (hd 0 row / 20) 0 1)%Q X).

Definition sample_request : json :=
  JObj [ ("userProfile",
          JObj [ ("primaryGoal", JStr "Muscle Gain");
                 ("dietaryRestrictions", JArr [JStr "vegan"]);
                 ("weeklyBudget", JInt 75) ]);
         ("query", JStr "dinner");
         ("top_k", JInt 5) ].

Definition sample_world : World :=
  {| stdin_isatty := false;
     stdin := Valid sample_request;
     rf_model_pkl := Some sample_model;
     preprocessor_pkl := Some sample_preprocessor;
     feature_selector_pkl := Some sample_selector;
     feature_names_json := Some (Valid (JArr []));
     processed_data_csv := Some sample_catalog;
     usda_foods_csv := None |}.

(** The same world with a request piped in. *)
Definition piped (w : World) (request : document) : World :=
  {| stdin_isatty := false;
     stdin := request;
     rf_model_pkl := rf_model_pkl w;
     preprocessor_pkl := preprocessor_pkl w;
     feature_selector_pkl := feature_selector_pkl w;
     feature_names_json := feature_names_json w;
     processed_data_csv := processed_data_csv w;
     usda_foods_csv := usda_foods_csv w |}.

(** The same world seen from a terminal. *)
Definition at_terminal (w : World) : World :=
  {| stdin_isatty := true;
     stdin := stdin w;
     rf_model_pkl := rf_model_pkl w;
     preprocessor_pkl := preprocessor_pkl w;
     feature_selector_pkl := feature_selector_pkl w;
     feature_names_json := feature_names_json w;
     processed_data_csv := processed_data_csv w;
     usda_foods_csv := usda_foods_csv w |}.

(** A deployment from which the classifier has been removed. *)
Definition world_without_model : World :=
  {| stdin_isatty := false;
     stdin := Valid sample_request;
     rf_model_pkl := None;
     preprocessor_pkl := Some sample_preprocessor;
     feature_selector_pkl := Some sample_selector;
     feature_names_json := Some (Valid (JArr []));
     processed_data_csv := Some sample_catalog;
     usda_foods_csv := None |}.

(** A profile nothing in the sample catalog can satisfy. *)
Definition frugal_request : json :=
  JObj [ ("userProfile", JObj [ ("weeklyBudget", JInt 1) ]) ].

(* ===================================================================== *)
(** * Vocabulary of the design document *)
(* ===================================================================== *)

(** The restrictions the filter knows: human label, slug, flag column. *)
Definition recognized : list (string * string * string) :=
  [ ("Vegan", "vegan", "is_vegan");
    ("Gluten Free", "gluten-free", "is_glutenfree");
    ("Nut Allergy", "nut-free", "is_nutfree") ].

Definition lower_ascii (a : ascii) : ascii :=
  let n := nat_of_ascii a in
  if ((65 <=? n) && (n <=? 90))%nat then ascii_of_nat (n + 32) else a.

Fixpoint lower (s : string) : string :=
  match s with
  | EmptyString => EmptyString
  | String a s' => String (lower_ascii a) (lower s')
  end.

(** A case-insensitive match of a restriction against a label or its slug. *)
Definition matches_caseless (r label slug : string) : bool :=
  String.eqb (lower r) (lower label) || String.eqb (lower r) (lower slug).

(** The rule table of the goal adjuster, for one item. *)
Definition multiplier (goal : json) (calories protein_g sodium_mg fiber_g : num) : Q :=
  if is_str "Weight Loss" goal then
    if num_lt calories 300 && num_gt protein_g 15 then 1.2%Q else 1%Q
  else if is_str "Muscle Gain" goal then
    if num_gt protein_g 20 then 1.3%Q else 1%Q
  else if is_str "Heart Health" goal then
    if num_lt sodium_mg 500 && num_gt fiber_g 5 then 1.2%Q else 1%Q
  else 1%Q.

(** Ascending by entry, and by position among equal entries. *)
Definition lex (v : list Q) (i j : nat) : Prop :=
  (key v i < key v j)%Q ∨ ((key v i == key v j)%Q ∧ i < j).

Definition ascending (v : list Q) (i j : nat) : Prop := (key v i <= key v j)%Q.

(** Best score first. *)
Definition descending (a b : Recommendation) : Prop := (fit_score b <= fit_score a)%Q.

(** Stages of a run, in the order the design document gives them. *)
Definition phase (e : event) : option nat :=
  match e with
  | EvIsatty | EvStdinRead => Some 0
  | EvOpen _ => Some 1
  | EvTransform | EvFeatureSelect | EvPredictProba => Some 2
  | EvStdout _ => Some 3
  | EvStderr _ => None
  end.

Definition phases (t : list event) : list nat := omap phase t.

Definition opened (t : list event) : list string :=
  omap (λ e, match e with EvOpen path => Some path | _ => None end) t.

Definition is_scoring (e : event) : bool :=
  match e with
  | EvTransform | EvFeatureSelect | EvPredictProba => true
  | _ => false
  end.

Definition absent {A} (file : option A) : bool :=
  match file with None => true | Some _ => false end.

(** A required file is absent: one of the four artifacts, or both catalogs. *)
Definition missing_file (w : World) : bool :=
  absent (rf_model_pkl w) || absent (preprocessor_pkl w)
  || absent (feature_selector_pkl w) || absent (feature_names_json w)
  || (absent (processed_data_csv w) && absent (usda_foods_csv w)).

(** What the explainer reads of an item is there: a description, and
    numbers in the nutrient and cost columns. *)
Definition explainable (df : DataFrame) : bool :=
  has_column df "description"
  && forallb (numeric_column df)
       [ "protein_g"; "fiber_g"; "calories"; "sugars_g"; "cost_per_serving";
         "carbs_g"; "fat_g" ].

(** The flag of an item is set. *)
Definition flag_set (x : cell) : Prop := cell_eq 1 x = true.

(** The cost of an item is a number within the allowance. *)
Definition within (max_cost : Q) (x : cell) : Prop :=
  ∃ q, x = CNum (Finite q) ∧ (q <= max_cost)%Q.

(** Every cell of a column, if the frame has it, satisfies [P]. *)
Definition column_all (P : cell → Prop) (df : DataFrame) (c : string) : Prop :=
  ∀ l, cols df !! c = Some l → Forall P l.

(** One restriction of the filter: applied or not. *)
Definition restrict (use : bool) (df : DataFrame) (flag : string) : DataFrame :=
  if use then keep_flagged df flag else df.

(** The sixteen numeric features that are filled with zeros. *)
Definition plain_features : list string :=
  [ "calories"; "protein_g"; "fat_g"; "carbs_g"; "fiber_g"; "sugars_g";
    "sodium_mg"; "vitamin_a_iu"; "vitamin_c_mg"; "calcium_mg"; "iron_mg";
    "potassium_mg"; "magnesium_mg"; "zinc_mg"; "phosphorus_mg";
    "cost_per_serving" ].

(** The derived columns. *)
Definition density_column (protein_g fiber_g calories : list cell) : list cell :=
  zip_with (λ good energy, CNum (num_div (num_of good) (num_of energy)))
    (zip_with (λ p f, CNum (num_add (num_of p) (num_of f))) protein_g fiber_g)
    (map (λ c, CNum (num_add (num_of c) (Finite 1))) calories).
Definition ratio_column (sugars_g carbs_g : list cell) : list cell :=
  zip_with (λ s c, CNum (num_div (num_of s) (num_of c))) sugars_g
    (map (λ c, CNum (num_add (num_of c) (Finite 1))) carbs_g).

(** [b] has the rows of [a] and every column of [a], unchanged. *)
Definition extends (a b : DataFrame) : Prop :=
  nrows b = nrows a ∧ ∀ c l, cols a !! c = Some l → cols b !! c = Some l.

(** Adding a column that is missing. *)
Definition add_missing (df : DataFrame) (c : string) (column : list cell) : DataFrame :=
  if has_column df c then df else setitem df c column.

(** The files the loaders open, in the order they open them. *)
Definition artifact_files : list string :=
  [ "ml/rf_model.pkl"; "ml/preprocessor.pkl"; "ml/feature_selector.pkl";
    "ml/feature_names.json" ].

Definition catalog_files : list string :=
  [ "ml/processed_data.csv"; "data/usda-foods.csv" ].

(** The calls of the fitted objects, in the order of the pipeline. *)
Definition scoring_calls : list event := [ EvTransform; EvFeatureSelect; EvPredictProba ].

(* ===================================================================== *)
(** * Offline pipeline: the feature functions of [preprocess.py] *)
(* ===================================================================== *)

(** The functions that label the training data and derive its ratio
    features.  The progress line each prints is not represented. *)

(** [df[c] <op> bound], as a boolean series. *)
Definition compare_column (df : DataFrame) (c : string) (op : num → Q → bool) (bound : Q)
  : result (list bool) :=
  column <- getitem df c ;;
  mapR (cell_cmp op bound) column.

(** [mask.astype(int)] *)
Definition as_int (mask : list bool) : list cell :=
  map (λ b : bool, CNum (Finite (if b then 1 else 0))) mask.

Definition compute_labels (df : DataFrame) : result DataFrame :=
  protein <- compare_column df "protein_g" num_gt 10 ;;
  sugars <- compare_column df "sugars_g" num_lt 5 ;;
  let fit := mask_and protein sugars in
  fiber <- compare_column df "fiber_g" num_gt 3 ;;
  let fit := mask_and fit fiber in
  cost <- compare_column df "cost_per_serving" num_lt 2 ;;
  let fit := mask_and fit cost in
  Ok (setitem df "fit" (as_int fit)).

(** [df[a] <op> df[b]] and [df[a] + 1] *)
Definition columns_op (op : cell → cell → result cell) (df : DataFrame) (a b : string)
  : result (list cell) :=
  x <- getitem df a ;;
  y <- getitem df b ;;
  zipR op x y.
Definition column_plus_one (df : DataFrame) (a : string) : result (list cell) :=
  x <- getitem df a ;;
  mapR (λ v, cell_add v (CNum (Finite 1))) x.

Definition compute_derived_features (df : DataFrame) : result DataFrame :=
  good <- columns_op cell_add df "protein_g" "fiber_g" ;;
  energy <- column_plus_one df "calories" ;;
  density <- zipR cell_div good energy ;;
  let df := setitem df "nutrient_density" density in
  sugars <- getitem df "sugars_g" ;;
  carbs <- column_plus_one df "carbs_g" ;;
  ratio <- zipR cell_div sugars carbs ;;
  Ok (setitem df "sugar_to_carb_ratio" ratio).

(* ===================================================================== *)
(** * Vocabulary of the further properties *)
(* ===================================================================== *)

(** The mask that keeps, of the rows a first mask keeps, those a second
    mask keeps. *)
Fixpoint compose_masks (first second : list bool) : list bool :=
  match first with
  | [] => []
  | true :: first' =>
      match second with
      | b :: second' => b :: compose_masks first' second'
      | [] => false :: compose_masks first' []
      end
  | false :: first' => false :: compose_masks first' second
  end.

(** [out] consists of rows of [df], in their order, under the same columns. *)
Definition selection_of (df out : DataFrame) : Prop :=
  ∃ mask, length mask = nrows df ∧ out = select_rows df mask.

(** What the filter reads of the profile, in the order it reads it: whether
    each restriction is asked for, and the allowance per serving. *)
Definition requested (user_profile : json) : result (bool * bool * bool * Q) :=
  restrictions <- dict_get user_profile "dietaryRestrictions" (JArr []) ;;
  budget <- dict_get user_profile "weeklyBudget" (JInt 100) ;;
  max_cost_per_serving <- py_truediv budget 21 ;;
  vegan <- py_or (py_in "Vegan" restrictions) (py_in "vegan" restrictions) ;;
  glutenfree <- py_or (py_in "Gluten Free" restrictions) (py_in "gluten-free" restrictions) ;;
  nutfree <- py_or (py_in "Nut Allergy" restrictions) (py_in "nut-free" restrictions) ;;
  Ok (vegan, glutenfree, nutfree, max_cost_per_serving).

(** What the filter does to the catalog once the profile is read. *)
Definition apply_constraints (df : DataFrame) (asked : bool * bool * bool * Q)
  : result DataFrame :=
  let '(vegan, glutenfree, nutfree, max_cost_per_serving) := asked in
  let filtered_df :=
    restrict nutfree
      (restrict glutenfree (restrict vegan df "is_vegan") "is_glutenfree") "is_nutfree" in
  match cols filtered_df !! "cost_per_serving" with
  | Some cost =>
      mask <- mapR (cell_cmp num_le max_cost_per_serving) cost ;;
      Ok (select_rows filtered_df mask)
  | None => Ok filtered_df
  end.

(** An operand that can be stored as a column of [n] rows. *)
Definition operand_fits (n : nat) (v : operand) : Prop :=
  match v with
  | Scalar _ => True
  | Series l => length l = n
  end.

(** The column [df[c] = v] stores. *)
Definition stored (df : DataFrame) (v : operand) : list cell :=
  match v with
  | Scalar x => replicate (nrows df) x
  | Series l => l
  end.

(** The columns the preprocessor is given, in its order. *)
Definition feature_columns : list string :=
  numerical_features ++ categorical_features ++ binary_features.

(** The label of one item: the four thresholds of [compute_labels]. *)
Definition fit_of (protein_g sugars_g fiber_g cost_per_serving : num) : bool :=
  num_gt protein_g 10 && num_lt sugars_g 5 && num_gt fiber_g 3 && num_lt cost_per_serving 2.

(** Two matrices of the same shape whose entries are equal as rationals. *)
Definition matrix_eq (X Y : Matrix) : Prop := Forall2 (Forall2 Qeq) X Y.

(** The reasons an item with these nutrients and this cost is given, in
    the order the explainer tests the thresholds. *)
Definition reasons_for (n : Nutrition) (cost : num) : list reason :=
  (if num_gt (protein n) 15 then [HighProtein (protein n)] else []) ++
  (if num_gt (fiber n) 5 then [HighFiber (fiber n)] else []) ++
  (if num_lt (calories n) 200 then [LowCalorie (calories n)] else []) ++
  (if num_lt (sugars n) 5 then [LowSugar (sugars n)] else []) ++
  (if num_lt cost 2 then [BudgetFriendly cost] else []).

(** The dietary flag of an item is present and set. *)
Definition flagged (df : DataFrame) (flag : string) (idx : nat) : bool :=
  match cell_at df flag idx with
  | Some x => cell_eq 1 x
  | None => false
  end.

(** The dietary tags of an item, by its three flags. *)
Definition tags_for (vegan glutenfree nutfree : bool) : list string :=
  (if vegan then ["Vegan"] else []) ++
  (if glutenfree then ["Gluten-free"] else []) ++
  (if nutfree then ["Nut-free"] else []).

(** How many positions [l[:top_k]] keeps of [n]. *)
Definition kept (top_k : json) (n : nat) : nat :=
  match top_k with
  | JInt k => if (0 <=? k)%Z then Nat.min (Z.to_nat k) n else n - Z.to_nat (- k)
  | JBool b => Nat.min (if b then 1 else 0) n
  | _ => n
  end.

(** The restrictions the service honours: label, slug, flag column, and
    the tag a recommendation carries for the flag. *)
Definition tagged : list (string * string * string * string) :=
  [ ("Vegan", "vegan", "is_vegan", "Vegan");
    ("Gluten Free", "gluten-free", "is_glutenfree", "Gluten-free");
    ("Nut Allergy", "nut-free", "is_nutfree", "Nut-free") ].


(** The messages of the error objects printed to standard error. *)
Definition error_objects (t : list event) : list string :=
  omap (λ e, match e with EvStderr (ErrorObject error) => Some error | _ => None end) t.

(** The same deployment with other catalog files. *)
Definition with_catalogs (w : World) (processed usda : option DataFrame) : World :=
  {| stdin_isatty := stdin_isatty w;
     stdin := stdin w;
     rf_model_pkl := rf_model_pkl w;
     preprocessor_pkl := preprocessor_pkl w;
     feature_selector_pkl := feature_selector_pkl w;
     feature_names_json := feature_names_json w;
     processed_data_csv := processed;
     usda_foods_csv := usda |}.

(** An artifact of the model is absent. *)
Definition missing_artifact (w : World) : bool :=
  absent (rf_model_pkl w) || absent (preprocessor_pkl w)
  || absent (feature_selector_pkl w) || absent (feature_names_json w).

(** A file the loaders may open is there. *)
Definition on_disk (w : World) (path : string) : bool :=
  if String.eqb path "ml/rf_model.pkl" then negb (absent (rf_model_pkl w))
  else if String.eqb path "ml/preprocessor.pkl" then negb (absent (preprocessor_pkl w))
  else if String.eqb path "ml/feature_selector.pkl" then negb (absent (feature_selector_pkl w))
  else if String.eqb path "ml/feature_names.json" then negb (absent (feature_names_json w))
  else if String.eqb path "ml/processed_data.csv" then negb (absent (processed_data_csv w))
  else if String.eqb path "data/usda-foods.csv" then negb (absent (usda_foods_csv w))
  else false.

(* ===================================================================== *)
(** * Offline pipeline: the data generators of [preprocess.py] *)
(* ===================================================================== *)

(** The generators draw from numpy's global random state.  The state is
    passed explicitly; what is drawn is left to the source of randomness,
    of which only the documented ranges are assumed.  The progress lines
    the functions print, and the copy of the base catalog that
    [create_sample_usda_data] saves, are not represented. *)
Definition Rand (Gen A : Type) : Type := Gen → result A * Gen.

Definition retG {Gen A} (a : A) : Rand Gen A := λ g, (Ok a, g).

Definition bindG {Gen A B} (m : Rand Gen A) (f : A → Rand Gen B) : Rand Gen B :=
  λ g,
    match m g with
    | (Ok a, g') => f a g'
    | (Raise e, g') => (Raise e, g')
    end.

Declare Scope rand_scope.
Delimit Scope rand_scope with rand.
Notation "x <- c ;; k" := (bindG c (λ x, k))
  (at level 100, c at next level, right associativity) : rand_scope.

(** One draw, and a step that does not draw. *)
Definition draw {Gen A} (f : Gen → A * Gen) : Rand Gen A := λ g, let '(a, g') := f g in (Ok a, g').
Definition liftG {Gen A} (r : result A) : Rand Gen A := λ g, (r, g).

(** [for i in l: rows.append(f(i))] *)
Fixpoint mapG {Gen A B} (f : A → Rand Gen B) (l : list A) : Rand Gen (list B) :=
  match l with
  | [] => retG []
  | x :: l' => (y <- f x ;; ys <- mapG f l' ;; retG (y :: ys))%rand
  end.

(** A record as a Python dict: the keys in insertion order. *)
Definition Row := list (string * cell).

Fixpoint field (c : string) (row : Row) : option cell :=
  match row with
  | [] => None
  | (k, v) :: rest => if String.eqb c k then Some v else field c rest
  end.

(** [pd.DataFrame(rows)]: one column for every key of some record, with a
    missing value where a record lacks the key. *)
Definition DataFrame_of (rows : list Row) : DataFrame :=
  {| nrows := length rows;
     cols := list_to_map
               (map (λ c, (c, map (λ row, default (CNum NaN) (field c row)) rows))
                  (concat (map (map fst) rows))) |}.

Definition integer (z : Z) : cell := CNum (Finite (inject_Z z)).
Definition float (q : Q) : cell := CNum (Finite q).

(** [int(cond)] *)
Definition indicator (b : bool) : cell := integer (if b then 1 else 0).

(** [f'{i}'] *)
Definition decimal (i : nat) : string := NilEmpty.string_of_uint (Nat.to_uint i).

(** [range(n)] *)
Definition range (n : Z) : list nat := seq 0 (Z.to_nat n).

(** [max(a, b)] on numbers: [b] when it is greater, else [a]. *)
Definition py_max (a b : Q) : Q := if Qlt_bool a b then b else a.

Definition is_upper (a : ascii) : bool :=
  let n := nat_of_ascii a in ((65 <=? n) && (n <=? 90))%nat.
Definition is_lower (a : ascii) : bool :=
  let n := nat_of_ascii a in ((97 <=? n) && (n <=? 122))%nat.
Definition upper_ascii (a : ascii) : ascii :=
  if is_lower a then ascii_of_nat (nat_of_ascii a - 32) else a.

(** [s.title()] on ASCII text: a letter is capitalised when no letter
    precedes it and lowered otherwise. *)
Fixpoint title_from (after_letter : bool) (s : string) : string :=
  match s with
  | EmptyString => EmptyString
  | String a s' =>
      let letter := is_upper a || is_lower a in
      String (if letter then if after_letter then lower_ascii a else upper_ascii a else a)
        (title_from letter s')
  end.
Definition title (s : string) : string := title_from false s.

Definition categories : list string :=
  [ "vegetables"; "fruits"; "grains"; "proteins"; "dairy";
    "nuts_seeds"; "legumes"; "beverages"; "oils"; "snacks" ].

(** The nutritional profile of a category: calories, protein, fat,
    carbohydrates, fiber, sugars. *)
Definition category_profile (cat : string) : Q * Q * Q * Q * Q * Q :=
  if String.eqb cat "vegetables" then (25, 2, 0.3, 5, 2.5, 2)%Q
  else if String.eqb cat "fruits" then (60, 0.8, 0.2, 15, 2, 10)%Q
  else if String.eqb cat "grains" then (120, 4, 1, 25, 3, 1)%Q
  else if String.eqb cat "proteins" then (180, 25, 8, 0, 0, 0)%Q
  else if String.eqb cat "dairy" then (100, 8, 5, 12, 0, 10)%Q
  else if String.eqb cat "nuts_seeds" then (180, 6, 16, 6, 3, 1)%Q
  else if String.eqb cat "legumes" then (110, 8, 0.5, 20, 8, 2)%Q
  else if String.eqb cat "beverages" then (40, 0.5, 0, 10, 0, 9)%Q
  else if String.eqb cat "oils" then (120, 0, 14, 0, 0, 0)%Q
  else (150, 3, 8, 18, 1, 8)%Q.

(** [cat in names] *)
Definition among (cat : string) (names : list string) : bool :=
  existsb (String.eqb cat) names.

(** [int(n_synthetic * target_fit_ratio)], the product taken exactly. *)
Definition n_fit_of (n_synthetic : Z) : Z := Z.quot (n_synthetic * 64) 100.

Section Generators.

(** numpy's random state and the draws the generators make from it:
    [np.random.uniform(low, high)], [np.random.random()],
    [np.random.choice(names)] and the position of the row that
    [df.sample(1)] draws. *)
Variable Gen : Type.
Variable uniform : Q → Q → Gen → Q * Gen.
Variable random : Gen → Q * Gen.
Variable choice : list string → Gen → string * Gen.
Variable sample_position : DataFrame → Gen → result nat * Gen.

(** Body of the loop of [create_sample_usda_data]. *)
Definition base_food (i : nat) : Rand Gen Row :=
  (cat <- draw (choice categories) ;;
   let '(cal, prot, fat, carb, fib, sug) := category_profile cat in
   calories <- draw (uniform 0.8 1.2) ;;
   protein_g <- draw (uniform 0.8 1.2) ;;
   fat_g <- draw (uniform 0.8 1.2) ;;
   carbs_g <- draw (uniform 0.8 1.2) ;;
   fiber_g <- draw (uniform 0.8 1.2) ;;
   sugars_g <- draw (uniform 0.8 1.2) ;;
   sodium_mg <- draw (uniform 0 800) ;;
   vitamin_a_iu <- draw (uniform 0 5000) ;;
   vitamin_c_mg <- draw (uniform 0 50) ;;
   calcium_mg <- draw (uniform 0 300) ;;
   iron_mg <- draw (uniform 0 5) ;;
   potassium_mg <- draw (uniform 100 800) ;;
   magnesium_mg <- draw (uniform 10 100) ;;
   zinc_mg <- draw (uniform 0 5) ;;
   phosphorus_mg <- draw (uniform 50 300) ;;
   cost_per_serving <- draw (uniform 0.5 5) ;;
   retG
     [ ("fdc_id", integer (100000 + Z.of_nat i));
       ("description", CStr (title cat ++ " Item " ++ decimal (i mod 30)));
       ("food_category", CStr cat);
       ("calories", float (py_max 10 (cal * calories)));
       ("protein_g", float (py_max 0 (prot * protein_g)));
       ("fat_g", float (py_max 0 (fat * fat_g)));
       ("carbs_g", float (py_max 0 (carb * carbs_g)));
       ("fiber_g", float (py_max 0 (fib * fiber_g)));
       ("sugars_g", float (py_max 0 (sug * sugars_g)));
       ("sodium_mg", float sodium_mg);
       ("vitamin_a_iu", float vitamin_a_iu);
       ("vitamin_c_mg", float vitamin_c_mg);
       ("calcium_mg", float calcium_mg);
       ("iron_mg", float iron_mg);
       ("potassium_mg", float potassium_mg);
       ("magnesium_mg", float magnesium_mg);
       ("zinc_mg", float zinc_mg);
       ("phosphorus_mg", float phosphorus_mg);
       ("cost_per_serving", float cost_per_serving);
       ("is_glutenfree",
        integer (if among cat [ "vegetables"; "fruits"; "proteins"; "dairy" ] then 1 else 0));
       ("is_nutfree", integer (if String.eqb cat "nuts_seeds" then 0 else 1));
       ("is_vegan",
        integer (if among cat [ "vegetables"; "fruits"; "grains"; "nuts_seeds"; "legumes" ]
                 then 1 else 0)) ])%rand.

Definition create_sample_usda_data : Rand Gen DataFrame :=
  (foods <- mapG base_food (range 288) ;;
   retG (DataFrame_of foods))%rand.

(** [base_df.sample(1).iloc[0]['food_category']] *)
Definition sampled_category (base_df : DataFrame) : Rand Gen cell :=
  (position <- sample_position base_df ;;
   base <- liftG (iloc base_df position) ;;
   liftG (row_getitem base "food_category"))%rand.

(** Body of the first loop of [generate_synthetic_augmentation]. *)
Definition healthy_row (base_df : DataFrame) (i : nat) : Rand Gen Row :=
  (food_category <- sampled_category base_df ;;
   calories <- draw (uniform 100 300) ;;
   protein_g <- draw (uniform 12 30) ;;
   fat_g <- draw (uniform 2 15) ;;
   carbs_g <- draw (uniform 10 40) ;;
   fiber_g <- draw (uniform 4 12) ;;
   sugars_g <- draw (uniform 0 4) ;;
   sodium_mg <- draw (uniform 50 600) ;;
   vitamin_a_iu <- draw (uniform 500 5000) ;;
   vitamin_c_mg <- draw (uniform 5 50) ;;
   calcium_mg <- draw (uniform 50 300) ;;
   iron_mg <- draw (uniform 1 5) ;;
   potassium_mg <- draw (uniform 200 800) ;;
   magnesium_mg <- draw (uniform 30 100) ;;
   zinc_mg <- draw (uniform 1 5) ;;
   phosphorus_mg <- draw (uniform 100 300) ;;
   cost_per_serving <- draw (uniform 0.5 1.8) ;;
   is_glutenfree <- draw random ;;
   is_nutfree <- draw random ;;
   is_vegan <- draw random ;;
   retG
     [ ("fdc_id", integer (200000 + Z.of_nat i));
       ("description", CStr ("Synthetic Healthy " ++ decimal i));
       ("food_category", food_category);
       ("calories", float calories);
       ("protein_g", float protein_g);
       ("fat_g", float fat_g);
       ("carbs_g", float carbs_g);
       ("fiber_g", float fiber_g);
       ("sugars_g", float sugars_g);
       ("sodium_mg", float sodium_mg);
       ("vitamin_a_iu", float vitamin_a_iu);
       ("vitamin_c_mg", float vitamin_c_mg);
       ("calcium_mg", float calcium_mg);
       ("iron_mg", float iron_mg);
       ("potassium_mg", float potassium_mg);
       ("magnesium_mg", float magnesium_mg);
       ("zinc_mg", float zinc_mg);
       ("phosphorus_mg", float phosphorus_mg);
       ("cost_per_serving", float cost_per_serving);
       ("is_glutenfree", indicator (Qlt_bool 0.3 is_glutenfree));
       ("is_nutfree", indicator (Qlt_bool 0.2 is_nutfree));
       ("is_vegan", indicator (Qlt_bool 0.5 is_vegan)) ])%rand.

(** Body of its second loop. *)
Definition unhealthy_row (base_df : DataFrame) (i : nat) : Rand Gen Row :=
  (food_category <- sampled_category base_df ;;
   calories <- draw (uniform 200 600) ;;
   protein_g <- draw (uniform 0 8) ;;
   fat_g <- draw (uniform 10 40) ;;
   carbs_g <- draw (uniform 30 80) ;;
   fiber_g <- draw (uniform 0 2) ;;
   sugars_g <- draw (uniform 10 40) ;;
   sodium_mg <- draw (uniform 400 2000) ;;
   vitamin_a_iu <- draw (uniform 0 1000) ;;
   vitamin_c_mg <- draw (uniform 0 10) ;;
   calcium_mg <- draw (uniform 0 100) ;;
   iron_mg <- draw (uniform 0 2) ;;
   potassium_mg <- draw (uniform 50 300) ;;
   magnesium_mg <- draw (uniform 5 50) ;;
   zinc_mg <- draw (uniform 0 2) ;;
   phosphorus_mg <- draw (uniform 30 150) ;;
   cost_per_serving <- draw (uniform 2.5 5) ;;
   is_glutenfree <- draw random ;;
   is_nutfree <- draw random ;;
   is_vegan <- draw random ;;
   retG
     [ ("fdc_id", integer (300000 + Z.of_nat i));
       ("description", CStr ("Synthetic Unhealthy " ++ decimal i));
       ("food_category", food_category);
       ("calories", float calories);
       ("protein_g", float protein_g);
       ("fat_g", float fat_g);
       ("carbs_g", float carbs_g);
       ("fiber_g", float fiber_g);
       ("sugars_g", float sugars_g);
       ("sodium_mg", float sodium_mg);
       ("vitamin_a_iu", float vitamin_a_iu);
       ("vitamin_c_mg", float vitamin_c_mg);
       ("calcium_mg", float calcium_mg);
       ("iron_mg", float iron_mg);
       ("potassium_mg", float potassium_mg);
       ("magnesium_mg", float magnesium_mg);
       ("zinc_mg", float zinc_mg);
       ("phosphorus_mg", float phosphorus_mg);
       ("cost_per_serving", float cost_per_serving);
       ("is_glutenfree", indicator (Qlt_bool 0.7 is_glutenfree));
       ("is_nutfree", indicator (Qlt_bool 0.6 is_nutfree));
       ("is_vegan", indicator (Qlt_bool 0.7 is_vegan)) ])%rand.

Definition generate_synthetic_augmentation (base_df : DataFrame) (n_synthetic : Z)
  : Rand Gen DataFrame :=
  let n_fit := n_fit_of n_synthetic in
  let n_unfit := (n_synthetic - n_fit)%Z in
  (fit_rows <- mapG (healthy_row base_df) (range n_fit) ;;
   unfit_rows <- mapG (unhealthy_row base_df) (range n_unfit) ;;
   let synthetic_rows := fit_rows ++ unfit_rows in
   retG (DataFrame_of synthetic_rows))%rand.

End Generators.

(** A source of randomness for the sample runs: a counter, every draw in
    the middle of its range, the choices taken in turn. *)
Definition turn_uniform (low high : Q) (g : nat) : Q * nat := (((low + high) / 2)%Q, S g).
Definition turn_random (g : nat) : Q * nat := ((1 # 2)%Q, S g).
Definition turn_choice (names : list string) (g : nat) : string * nat :=
  (nth (g mod length names) names "", S g).
Definition turn_position (df : DataFrame) (g : nat) : result nat * nat :=
  (if (nrows df =? 0)%nat
   then Raise (ValueError "a must be greater than 0 unless no samples are taken")
   else Ok (g mod nrows df), S g).

(** The columns of a generated record. *)
Definition generated_columns : list string :=
  [ "fdc_id"; "description"; "food_category"; "calories"; "protein_g"; "fat_g";
    "carbs_g"; "fiber_g"; "sugars_g"; "sodium_mg"; "vitamin_a_iu"; "vitamin_c_mg";
    "calcium_mg"; "iron_mg"; "potassium_mg"; "magnesium_mg"; "zinc_mg";
    "phosphorus_mg"; "cost_per_serving"; "is_glutenfree"; "is_nutfree"; "is_vegan" ].

(** A generated record: the columns in their order, numbers in all but
    the description and the category. *)
Definition generated (row : Row) : Prop :=
  map fst row = generated_columns ∧
  (∃ s, field "description" row = Some (CStr s)) ∧
  ∀ c, c ∈ generated_columns → c ≠ "description" → c ≠ "food_category" →
       ∃ q, field c row = Some (CNum (Finite q)).

(** The label [compute_labels] gives a record. *)
Definition label_of (row : Row) : bool :=
  fit_of (num_of (default (CNum NaN) (field "protein_g" row)))
         (num_of (default (CNum NaN) (field "sugars_g" row)))
         (num_of (default (CNum NaN) (field "fiber_g" row)))
         (num_of (default (CNum NaN) (field "cost_per_serving" row))).

(** [pd.concat([a, b], ignore_index=True)]: the rows of [a], then those of
    [b], under every column of either, with missing values where a frame
    lacks the column. *)
Definition pd_concat (a b : DataFrame) : DataFrame :=
  {| nrows := nrows a + nrows b;
     cols := merge (λ x y : option (list cell),
                      match x, y with
                      | None, None => None
                      | _, _ => Some (default (replicate (nrows a) (CNum NaN)) x ++
                                      default (replicate (nrows b) (CNum NaN)) y)
                      end) (cols a) (cols b) |}.

Section Dataset.

Variable Gen : Type.
Variable uniform : Q → Q → Gen → Q * Gen.
Variable random : Gen → Q * Gen.
Variable choice : list string → Gen → string * Gen.
Variable sample_position : DataFrame → Gen → result nat * Gen.

(** Steps 1 to 4 of [preprocess_data]: the base catalog, read from
    [usda-foods.csv] if the file exists and generated otherwise; 500
    synthetic records; both labelled, with the derived features.  The later
    steps fit scikit-learn objects and are not represented. *)
Definition labelled_dataset (usda_foods_csv : option DataFrame) : Rand Gen DataFrame :=
  (base_df <- match usda_foods_csv with
              | Some df => retG df
              | None => create_sample_usda_data Gen uniform choice
              end ;;
   synthetic_df <- generate_synthetic_augmentation Gen uniform random sample_position
                     base_df 500 ;;
   let df := pd_concat base_df synthetic_df in
   df <- liftG (compute_labels df) ;;
   liftG (compute_derived_features df))%rand.

End Dataset.

(* ===================================================================== *)
(** * Sample runs *)
(* ===================================================================== *)

Definition sample_profile : list (string * json) :=
  [ ("primaryGoal", JStr "Muscle Gain");
    ("dietaryRestrictions", JArr [JStr "vegan"]);
    ("weeklyBudget", JInt 75) ].

(** One raw score per item of the sample catalog. *)
Definition sample_scores : list Q := [ 0.5; 0.9; 0.2; 0.7 ]%Q.

(** Two items with the same score. *)
Definition tied_scores : list Q := [ 0.5; 0.5 ]%Q.

Definition sample_matrix : Matrix := [ [ 0; 1.5 ]; [ -2; 3 ] ]%Q.

(** A profile that spells its restriction in capitals. *)
Definition shouting_profile : json :=
  JObj [ ("dietaryRestrictions", JArr [JStr "VEGAN"]) ].

(** The sample deployment, asked for more than one unit of currency a week
    can buy. *)
Definition frugal_world : World := piped sample_world (Valid frugal_request).



(** The sample catalog as the three loops leave it. *)
Definition sample_features : DataFrame :=
  match materialize_features sample_catalog with
  | Ok out => out
  | Raise _ => sample_catalog
  end.

(** A catalog with every column the offline pipeline reads. *)
Definition sample_training_frame : DataFrame :=
  {| nrows := 3;
     cols := list_to_map
       [ ("calories", numbers [180; 0; 420]%Q);
         ("protein_g", numbers [22; 31; 6]%Q);
         ("carbs_g", numbers [4; 0; 35]%Q);
         ("fiber_g", numbers [6; 0; 1]%Q);
         ("sugars_g", numbers [3; 0; 27]%Q);
         ("cost_per_serving", numbers [1.5; 3; 4.5]%Q) ] |}.

(** The sample deployment with a corrupt feature list. *)
Definition corrupt_world : World :=
  {| stdin_isatty := false;
     stdin := Valid sample_request;
     rf_model_pkl := Some sample_model;
     preprocessor_pkl := Some sample_preprocessor;
     feature_selector_pkl := Some sample_selector;
     feature_names_json := Some (Malformed "Expecting ',' delimiter: line 3 column 5 (char 40)");
     processed_data_csv := Some sample_catalog;
     usda_foods_csv := None |}.

(** The sample deployment with a feature list that starts with bytes
    that are not UTF-8. *)
Definition undecodable_world : World :=
  {| stdin_isatty := false;
     stdin := Valid sample_request;
     rf_model_pkl := Some sample_model;
     preprocessor_pkl := Some sample_preprocessor;
     feature_selector_pkl := Some sample_selector;
     feature_names_json :=
       Some (Aborted (NotUnicode
         "'utf-8' codec can't decode byte 0xff in position 0: invalid start byte"));
     processed_data_csv := Some sample_catalog;
     usda_foods_csv := None |}.

(** The sample deployment, sent a list instead of an object. *)
Definition list_world : World := piped sample_world (Valid (JArr [JStr "dinner"])).

(** The sample request without [top_k], with one more key in the profile. *)
Definition padded_profile : list (string * json) := ("age", JInt 30) :: sample_profile.
Definition terse_request : list (string * json) :=
  [ ("userProfile", JObj padded_profile); ("query", JStr "dinner") ].
Definition sample_request_fields : list (string * json) :=
  [ ("userProfile", JObj sample_profile); ("query", JStr "dinner"); ("top_k", JInt 5) ].

(** Synthetic records drawn in turn from the sample catalog. *)
Definition sample_synthetic : DataFrame :=
  match (generate_synthetic_augmentation nat turn_uniform turn_random turn_position
           sample_catalog 25 0).1 with
  | Ok df => df
  | Raise _ => sample_catalog
  end.

(* ===================================================================== *)
(** * Properties *)
(* ===================================================================== *)

(** ** Lists, masks and fallible maps *)

Lemma bindR_Ok {A B} (m : result A) (f : A → result B) b :
  bindR m f = Ok b → ∃ a, m = Ok a ∧ f a = Ok b.
Proof. destruct m as [a|e]; simpl; [eauto | discriminate]. Qed.

Lemma mapR_Forall2 {A B} (f : A → result B) l ys :
  mapR f l = Ok ys → Forall2 (λ x y, f x = Ok y) l ys.
Proof.
  revert ys. induction l as [|x l IH]; simpl; intros ys H.
  - injection H as <-. constructor.
  - apply bindR_Ok in H as (y & Hy & H).
    apply bindR_Ok in H as (ys' & Hys & H).
    injection H as <-. constructor; auto.
Qed.

Lemma mapR_total {A B} (f : A → result B) (g : A → B) l :
  Forall (λ x, f x = Ok (g x)) l → mapR f l = Ok (map g l).
Proof.
  induction 1 as [|x l Hx _ IH]; simpl; [done|]. by rewrite Hx, IH.
Qed.

Lemma take_rows_length {A} (mask : list bool) (l : list A) :
  length mask = length l → length (take_rows mask l) = count_true mask.
Proof.
  revert l. induction mask as [|b mask IH]; intros [|x l]; simpl; try done.
  intros [= H]. destruct b; simpl; auto.
Qed.

Lemma Forall_take_rows {A} (P : A → Prop) mask (l : list A) :
  Forall P l → Forall P (take_rows mask l).
Proof.
  intros H. revert mask. induction H as [|x l Hx _ IH]; intros [|b mask]; simpl;
    try constructor.
  destruct b; auto.
Qed.

Lemma take_rows_by_test {A} (f : A → bool) (l : list A) :
  Forall (λ x, f x = true) (take_rows (map f l) l).
Proof.
  induction l as [|x l IH]; simpl; [constructor|].
  destruct (f x) eqn:E; auto.
Qed.

Lemma take_rows_by_mask {A} (f : A → result bool) (P : A → Prop) (l : list A) mask :
  (∀ x, f x = Ok true → P x) →
  Forall2 (λ x b, f x = Ok b) l mask →
  Forall P (take_rows mask l).
Proof.
  intros HP H. induction H as [|x b l mask Hx _ IH]; simpl; [constructor|].
  destruct b; auto.
Qed.

Lemma existsb_is_str s (l : list json) : existsb (is_str s) l = true ↔ JStr s ∈ l.
Proof.
  rewrite existsb_exists. split.
  - intros (v & Hin & Hv). destruct v; simpl in Hv; try discriminate.
    apply String.eqb_eq in Hv as <-. by apply list_elem_of_In.
  - intros Hin. exists (JStr s). split; [by apply list_elem_of_In|].
    simpl. apply String.eqb_refl.
Qed.

(** ** Row selection *)

Lemma wf_lookup df c l : wf_frame df → cols df !! c = Some l → length l = nrows df.
Proof. intros Hwf H. exact (Hwf c l H). Qed.

Lemma select_rows_lookup df mask c :
  cols (select_rows df mask) !! c = take_rows mask <$> cols df !! c.
Proof. unfold select_rows; simpl. apply lookup_fmap. Qed.

Lemma select_rows_wf df mask :
  wf_frame df → length mask = nrows df → wf_frame (select_rows df mask).
Proof.
  intros Hwf Hlen c l. rewrite select_rows_lookup.
  destruct (cols df !! c) as [l0|] eqn:E; simpl; [|done].
  intros [= <-]. apply take_rows_length.
  rewrite Hlen. symmetry. eapply wf_lookup; eauto.
Qed.

Lemma select_rows_has_column df mask c :
  has_column (select_rows df mask) c = has_column df c.
Proof. unfold has_column. rewrite select_rows_lookup. by destruct (cols df !! c). Qed.

Lemma select_rows_column_all P df mask c :
  column_all P df c → column_all P (select_rows df mask) c.
Proof.
  intros H l. rewrite select_rows_lookup.
  destruct (cols df !! c) as [l0|] eqn:E; simpl; [|done].
  intros [= <-]. apply Forall_take_rows. by apply H.
Qed.

(** ** The constraint filter *)

Lemma keep_flagged_wf df flag : wf_frame df → wf_frame (keep_flagged df flag).
Proof.
  intros Hwf. unfold keep_flagged. destruct (cols df !! flag) as [l|] eqn:E; [|done].
  apply select_rows_wf; [done|]. rewrite length_map. eapply wf_lookup; eauto.
Qed.

Lemma keep_flagged_has_column df flag c :
  has_column (keep_flagged df flag) c = has_column df c.
Proof.
  unfold keep_flagged. destruct (cols df !! flag); [|done].
  apply select_rows_has_column.
Qed.

Lemma keep_flagged_column_all P df flag c :
  column_all P df c → column_all P (keep_flagged df flag) c.
Proof.
  unfold keep_flagged. destruct (cols df !! flag); [|done].
  apply select_rows_column_all.
Qed.

Lemma keep_flagged_flag_set df flag : column_all flag_set (keep_flagged df flag) flag.
Proof.
  unfold keep_flagged. destruct (cols df !! flag) as [l0|] eqn:E.
  - intros l. rewrite select_rows_lookup, E. simpl. intros [= <-].
    apply take_rows_by_test.
  - intros l Hl. congruence.
Qed.

Lemma restrict_wf use df flag : wf_frame df → wf_frame (restrict use df flag).
Proof. destruct use; simpl; [apply keep_flagged_wf | done]. Qed.

Lemma restrict_has_column use df flag c :
  has_column (restrict use df flag) c = has_column df c.
Proof. destruct use; simpl; [apply keep_flagged_has_column | done]. Qed.

Lemma restrict_column_all P use df flag c :
  column_all P df c → column_all P (restrict use df flag) c.
Proof. destruct use; simpl; [apply keep_flagged_column_all | done]. Qed.

Lemma restrict_flag_set df flag : column_all flag_set (restrict true df flag) flag.
Proof. apply keep_flagged_flag_set. Qed.

Lemma py_or_in_list a b (restrictions : list json) :
  py_or (py_in a (JArr restrictions)) (py_in b (JArr restrictions))
  = Ok (existsb (is_str a) restrictions || existsb (is_str b) restrictions).
Proof. unfold py_or; simpl. by destruct (existsb (is_str a) restrictions). Qed.

(** The filter on a profile whose restrictions are a list and whose budget
    is a number. *)
Lemma filter_by_user_constraints_eq df fields restrictions budget max_cost :
  dict_get (JObj fields) "dietaryRestrictions" (JArr []) = Ok (JArr restrictions) →
  dict_get (JObj fields) "weeklyBudget" (JInt 100) = Ok budget →
  py_truediv budget 21 = Ok max_cost →
  let asked label slug :=
    existsb (is_str label) restrictions || existsb (is_str slug) restrictions in
  let df1 := restrict (asked "Vegan" "vegan") df "is_vegan" in
  let df2 := restrict (asked "Gluten Free" "gluten-free") df1 "is_glutenfree" in
  let df3 := restrict (asked "Nut Allergy" "nut-free") df2 "is_nutfree" in
  filter_by_user_constraints df (JObj fields)
  = match cols df3 !! "cost_per_serving" with
    | Some cost =>
        mask <- mapR (cell_cmp num_le max_cost) cost ;; Ok (select_rows df3 mask)
    | None => Ok df3
    end.
Proof.
  intros Hr Hb Hm. unfold filter_by_user_constraints.
  rewrite Hr; cbn [bindR]. rewrite Hb; cbn [bindR]. rewrite Hm; cbn [bindR].
  rewrite !py_or_in_list; cbn [bindR]. reflexivity.
Qed.

Lemma forallb_Forall {A} (f : A → bool) (l : list A) :
  forallb f l = true ↔ Forall (λ x, f x = true) l.
Proof.
  induction l as [|x l IH]; simpl.
  - split; [constructor | done].
  - rewrite andb_true_iff, IH, Forall_cons. tauto.
Qed.

Lemma numeric_if_present_lookup df c l :
  numeric_if_present df c = true → cols df !! c = Some l →
  Forall (λ x, is_number x = true) l.
Proof.
  unfold numeric_if_present. intros H E. rewrite E in H. by apply forallb_Forall.
Qed.

Lemma restrict_numeric use df flag c :
  numeric_if_present df c = true → numeric_if_present (restrict use df flag) c = true.
Proof.
  intros H. unfold numeric_if_present.
  destruct (cols (restrict use df flag) !! c) as [l|] eqn:E; [|done].
  apply forallb_Forall.
  eapply (restrict_column_all (λ x, is_number x = true)); [|exact E].
  intros l0 E0. eapply numeric_if_present_lookup; eauto.
Qed.

Lemma cmp_mask_total op c (cost : list cell) :
  Forall (λ x, is_number x = true) cost →
  ∃ mask, mapR (cell_cmp op c) cost = Ok mask ∧ length mask = length cost.
Proof.
  induction 1 as [|x l Hx _ (mask & IH & Hlen)]; simpl; [by exists []|].
  destruct x as [a|s]; [|discriminate]. simpl. rewrite IH. simpl.
  eexists; split; [reflexivity|]. simpl. by rewrite Hlen.
Qed.

Lemma cell_at_Forall P df c i :
  wf_frame df → column_all P df c → has_column df c = true → i < nrows df →
  ∃ x, cell_at df c i = Some x ∧ P x.
Proof.
  intros Hwf Hall Hc Hi. unfold has_column, cell_at in *.
  destruct (cols df !! c) as [l|] eqn:E; [|discriminate].
  pose proof (wf_lookup _ _ _ Hwf E) as Hlen.
  destruct (lookup_lt_is_Some_2 l i) as [x Hx]; [lia|].
  exists x. split; [done|].
  specialize (Hall l E). rewrite Forall_lookup in Hall. eauto.
Qed.

Lemma asked_true label slug (restrictions : list json) :
  JStr label ∈ restrictions ∨ JStr slug ∈ restrictions →
  existsb (is_str label) restrictions || existsb (is_str slug) restrictions = true.
Proof.
  intros [H|H]; apply existsb_is_str in H; rewrite H; [done|]. apply orb_true_r.
Qed.

Lemma cost_within max_cost x : cell_cmp num_le max_cost x = Ok true → within max_cost x.
Proof.
  destruct x as [[q|]|s]; simpl; try discriminate.
  intros [= H]. exists q. split; [done|]. by apply Qle_bool_iff.
Qed.

(** C1 (as amended).  On a profile whose restrictions are a list and whose
    budget is a number, the constraint filter returns a frame with the
    columns of the catalog in which, for every item: each restriction that
    the list contains literally, as its label or as its slug ("Vegan" or
    "vegan", "Gluten Free" or "gluten-free", "Nut Allergy" or "nut-free"),
    has its flag equal to 1 whenever the catalog has the flag column; and
    the cost per serving is a number not above weeklyBudget / 21 whenever
    the catalog has a cost column, the budget being 100 when the profile
    gives none. *)
Theorem filter_keeps_only_allowed_items
    (df : DataFrame) (fields : list (string * json)) (restrictions : list json)
    (budget : json) (max_cost : Q) :
  wf_frame df →
  numeric_if_present df "cost_per_serving" = true →
  dict_get (JObj fields) "dietaryRestrictions" (JArr []) = Ok (JArr restrictions) →
  dict_get (JObj fields) "weeklyBudget" (JInt 100) = Ok budget →
  py_truediv budget 21 = Ok max_cost →
  ∃ out,
    filter_by_user_constraints df (JObj fields) = Ok out ∧
    wf_frame out ∧
    (∀ c, has_column out c = has_column df c) ∧
    (assoc "weeklyBudget" fields = None → max_cost = (inject_Z 100 / 21)%Q) ∧
    ∀ i, i < nrows out →
      (∀ label slug flag,
         (label, slug, flag) ∈ recognized →
         JStr label ∈ restrictions ∨ JStr slug ∈ restrictions →
         has_column df flag = true →
         ∃ x, cell_at out flag i = Some x ∧ cell_eq 1 x = true) ∧
      (has_column df "cost_per_serving" = true →
       ∃ q, cell_at out "cost_per_serving" i = Some (CNum (Finite q)) ∧ (q <= max_cost)%Q).
Proof.
  intros Hwf Hnum Hr Hb Hm.
  rewrite (filter_by_user_constraints_eq df fields restrictions budget max_cost Hr Hb Hm).
  cbv zeta.
  set (df1 := restrict _ df "is_vegan").
  set (df2 := restrict _ df1 "is_glutenfree").
  set (df3 := restrict _ df2 "is_nutfree").
  assert (Hwf3 : wf_frame df3) by (by do 3 apply restrict_wf).
  assert (Hcol3 : ∀ c, has_column df3 c = has_column df c).
  { intros c. unfold df3, df2, df1. by rewrite !restrict_has_column. }
  assert (Hnum3 : numeric_if_present df3 "cost_per_serving" = true)
    by (by do 3 apply restrict_numeric).
  assert (Hflags : ∀ label slug flag,
             (label, slug, flag) ∈ recognized →
             JStr label ∈ restrictions ∨ JStr slug ∈ restrictions →
             column_all flag_set df3 flag).
  { intros label slug flag Hin Hask. apply asked_true in Hask.
    unfold recognized in Hin. rewrite !elem_of_cons in Hin.
    destruct Hin as [[= -> -> ->]|[[= -> -> ->]|[[= -> -> ->]|Hin]]].
    - do 2 apply restrict_column_all. unfold df1. rewrite Hask.
      apply restrict_flag_set.
    - apply restrict_column_all. unfold df2. rewrite Hask.
      apply restrict_flag_set.
    - unfold df3. rewrite Hask. apply restrict_flag_set.
    - by apply elem_of_nil in Hin. }
  assert (Hdefault : assoc "weeklyBudget" fields = None →
                     max_cost = (inject_Z 100 / 21)%Q).
  { intros Hnone. simpl in Hb. rewrite Hnone in Hb. injection Hb as <-.
    simpl in Hm. by injection Hm as <-. }
  destruct (cols df3 !! "cost_per_serving") as [cost|] eqn:Ecost.
  - destruct (cmp_mask_total num_le max_cost cost) as (mask & Hmask & Hlen).
    { eapply numeric_if_present_lookup; eauto. }
    rewrite Hmask. cbn [bindR].
    assert (Hlen3 : length mask = nrows df3).
    { rewrite Hlen. eapply wf_lookup; eauto. }
    exists (select_rows df3 mask). split; [done|].
    assert (Hwfo : wf_frame (select_rows df3 mask)) by (by apply select_rows_wf).
    split; [done|]. split.
    { intros c. by rewrite select_rows_has_column. }
    split; [done|].
    intros i Hi. split.
    + intros label slug flag Hin Hask Hc.
      apply (cell_at_Forall flag_set); try done.
      * apply select_rows_column_all. eauto.
      * by rewrite select_rows_has_column, Hcol3.
    + intros Hc.
      destruct (cell_at_Forall (within max_cost) (select_rows df3 mask)
                  "cost_per_serving" i) as (x & Hx & q & -> & Hq); try done.
      * intros l. rewrite select_rows_lookup, Ecost. simpl. intros [= <-].
        eapply take_rows_by_mask; [apply cost_within|]. by apply mapR_Forall2.
      * by rewrite select_rows_has_column, Hcol3.
      * eauto.
  - exists df3. split; [done|]. split; [done|]. split; [done|]. split; [done|].
    intros i Hi. split.
    + intros label slug flag Hin Hask Hc.
      apply (cell_at_Forall flag_set); try done; [eauto|]. by rewrite Hcol3.
    + intros Hc. rewrite <- Hcol3 in Hc. unfold has_column in Hc.
      by rewrite Ecost in Hc.
Qed.

(** ** The goal adjuster *)

Lemma Qlt_bool_iff x y : Qlt_bool x y = true ↔ (x < y)%Q.
Proof.
  unfold Qlt_bool. rewrite negb_true_iff. split.
  - intros H. apply Qnot_le_lt. intros Hle. apply Qle_bool_iff in Hle. congruence.
  - intros H. destruct (Qle_bool y x) eqn:E; [|done].
    apply Qle_bool_iff in E. exfalso. by apply (Qlt_not_le x y).
Qed.

Lemma Qlt_bool_false x y : Qlt_bool x y = false ↔ (y <= x)%Q.
Proof.
  unfold Qlt_bool. rewrite negb_false_iff. apply Qle_bool_iff.
Qed.

Lemma clip_bounds x lo hi : (lo <= hi)%Q → (lo <= clip x lo hi <= hi)%Q.
Proof.
  intros Hlh. unfold clip.
  destruct (Qlt_bool x lo) eqn:E1; [split; [apply Qle_refl | done]|].
  destruct (Qlt_bool hi x) eqn:E2; [split; [done | apply Qle_refl]|].
  apply Qlt_bool_false in E1, E2. done.
Qed.

Lemma clip_Qeq x y lo hi : (x == y)%Q → (clip x lo hi == clip y lo hi)%Q.
Proof.
  intros Hxy. unfold clip.
  assert (H1 : Qlt_bool x lo = Qlt_bool y lo).
  { unfold Qlt_bool. f_equal. apply eq_true_iff_eq.
    rewrite !Qle_bool_iff. by rewrite Hxy. }
  assert (H2 : Qlt_bool hi x = Qlt_bool hi y).
  { unfold Qlt_bool. f_equal. apply eq_true_iff_eq.
    rewrite !Qle_bool_iff. by rewrite Hxy. }
  rewrite H1, H2. destruct (Qlt_bool y lo); [reflexivity|].
  destruct (Qlt_bool hi y); [reflexivity | done].
Qed.

(** Above zero the two-sided clamp is the minimum with the upper bound. *)
Lemma clip_nonneg x : (0 <= x)%Q → (clip x 0 1 == Qmin x 1)%Q.
Proof.
  intros Hx. unfold clip.
  destruct (Qlt_bool x 0) eqn:E1.
  { apply Qlt_bool_iff in E1. exfalso. by apply (Qlt_not_le x 0). }
  destruct (Qlt_bool 1 x) eqn:E2.
  - apply Qlt_bool_iff in E2. symmetry. apply Q.min_r. by apply Qlt_le_weak.
  - apply Qlt_bool_false in E2. symmetry. by apply Q.min_l.
Qed.

Lemma numeric_column_lookup df c :
  wf_frame df → numeric_column df c = true →
  ∃ l, cols df !! c = Some l ∧ length l = nrows df ∧ Forall (λ x, is_number x = true) l.
Proof.
  unfold numeric_column. intros Hwf H.
  destruct (cols df !! c) as [l|] eqn:E; [|discriminate].
  exists l. split; [done|]. split; [by eapply wf_lookup | by apply forallb_Forall].
Qed.

Lemma cmp_mask_numeric op c (l : list cell) :
  Forall (λ x, is_number x = true) l →
  mapR (cell_cmp op c) l = Ok (map (λ x, op (num_of x) c) l).
Proof.
  intros H. apply mapR_total. eapply Forall_impl; [exact H|].
  intros [a|s]; simpl; [done | discriminate].
Qed.

Lemma numeric_cell (l : list cell) i x :
  Forall (λ x, is_number x = true) l → l !! i = Some x → x = CNum (num_of x).
Proof.
  intros H Hx. rewrite Forall_lookup in H. specialize (H i x Hx).
  by destruct x.
Qed.

Lemma imul_masked_eq probs mask m :
  length mask = length probs → imul_masked probs mask m = Ok (scale_where probs mask m).
Proof. intros H. unfold imul_masked. by rewrite H, Nat.eqb_refl. Qed.

Lemma clipped_scale_lookup (probs : list Q) (mask : list bool) (m : Q) i p (b : bool) :
  probs !! i = Some p → mask !! i = Some b →
  map (λ p, clip p 0 1) (scale_where probs mask m) !! i
  = Some (clip (if b then p * m else p) 0 1)%Q.
Proof.
  intros Hp Hb. unfold scale_where.
  rewrite list_lookup_fmap, lookup_zip_with, Hp, Hb. done.
Qed.

Lemma scaled_Qeq (b : bool) p m :
  ((if b then p * m else p) == p * (if b then m else 1))%Q.
Proof. destruct b; [reflexivity|]. by rewrite Qmult_1_r. Qed.

Lemma is_str_inj a b v : is_str a v = true → is_str b v = true → a = b.
Proof.
  destruct v; simpl; try discriminate.
  intros H1%String.eqb_eq H2%String.eqb_eq. congruence.
Qed.

(** C2.  On a materialized catalog with one probability per item, the goal
    adjuster returns a vector of the same length whose entry for every item
    is clip(p × m, 0, 1), m being the multiplier of the rule table for the
    profile's goal and the item's nutrients; every entry lies in [0, 1]
    whatever the input; and for a Muscle-Gain item with 22 g of protein and
    a raw score that is not negative the entry is min(p × 1.3, 1). *)
Theorem adjust_for_goals_rule_table
    (probs : list Q) (df : DataFrame) (fields : list (string * json)) :
  wf_frame df →
  length probs = nrows df →
  numeric_column df "calories" = true →
  numeric_column df "protein_g" = true →
  numeric_column df "sodium_mg" = true →
  numeric_column df "fiber_g" = true →
  ∃ goal out,
    dict_get (JObj fields) "primaryGoal" (JStr "") = Ok goal ∧
    adjust_for_goals probs df (JObj fields) = Ok out ∧
    length out = length probs ∧
    ∀ i p, probs !! i = Some p →
      ∃ kcal prot sod fib o,
        cell_at df "calories" i = Some (CNum kcal) ∧
        cell_at df "protein_g" i = Some (CNum prot) ∧
        cell_at df "sodium_mg" i = Some (CNum sod) ∧
        cell_at df "fiber_g" i = Some (CNum fib) ∧
        out !! i = Some o ∧
        (o == clip (p * multiplier goal kcal prot sod fib) 0 1)%Q ∧
        (0 <= o <= 1)%Q ∧
        (is_str "Muscle Gain" goal = true → num_eq prot 22 = true → (0 <= p)%Q →
         (o == Qmin (p * 1.3) 1)%Q).
Proof.
  intros Hwf Hlen Hc Hp Hs Hf.
  destruct (numeric_column_lookup _ _ Hwf Hc) as (lc & Ec & Lc & Nc).
  destruct (numeric_column_lookup _ _ Hwf Hp) as (lp & Ep & Lp & Np).
  destruct (numeric_column_lookup _ _ Hwf Hs) as (ls & Es & Ls & Ns).
  destruct (numeric_column_lookup _ _ Hwf Hf) as (lf & Ef & Lf & Nf).
  set (goal := match assoc "primaryGoal" fields with Some v => v | None => JStr "" end).
  assert (Hgoal : dict_get (JObj fields) "primaryGoal" (JStr "") = Ok goal) by done.
  exists goal.
  assert (Hrow : ∀ i (p : Q), probs !! i = Some p →
            ∃ a b c d, lc !! i = Some a ∧ lp !! i = Some b ∧
                       ls !! i = Some c ∧ lf !! i = Some d).
  { intros i p Hi. apply lookup_lt_Some in Hi.
    destruct (lookup_lt_is_Some_2 lc i) as [a Ha]; [lia|].
    destruct (lookup_lt_is_Some_2 lp i) as [b Hb]; [lia|].
    destruct (lookup_lt_is_Some_2 ls i) as [c Hc']; [lia|].
    destruct (lookup_lt_is_Some_2 lf i) as [d Hd]; [lia|].
    by exists a, b, c, d. }
  assert (Hfinish : ∀ (mask : list bool) (m : Q),
            length mask = length probs →
            (∀ i p a b c d, probs !! i = Some p → lc !! i = Some a → lp !! i = Some b →
               ls !! i = Some c → lf !! i = Some d →
               ∃ t : bool, mask !! i = Some t ∧
                 multiplier goal (num_of a) (num_of b) (num_of c) (num_of d)
                 = (if t then m else 1%Q) ∧
                 (t = true → is_str "Muscle Gain" goal = true → m = 1.3%Q) ∧
                 (is_str "Muscle Gain" goal = true → num_eq (num_of b) 22 = true →
                  t = true)) →
            ∃ out,
              bindR (imul_masked probs mask m) (λ adjusted, Ok (map (λ p, clip p 0 1) adjusted))
              = Ok out ∧
              length out = length probs ∧
              ∀ i p, probs !! i = Some p →
                ∃ kcal prot sod fib o,
                  cell_at df "calories" i = Some (CNum kcal) ∧
                  cell_at df "protein_g" i = Some (CNum prot) ∧
                  cell_at df "sodium_mg" i = Some (CNum sod) ∧
                  cell_at df "fiber_g" i = Some (CNum fib) ∧
                  out !! i = Some o ∧
                  (o == clip (p * multiplier goal kcal prot sod fib) 0 1)%Q ∧
                  (0 <= o <= 1)%Q ∧
                  (is_str "Muscle Gain" goal = true → num_eq prot 22 = true → (0 <= p)%Q →
                   (o == Qmin (p * 1.3) 1)%Q)).
  { intros mask m Hmlen Hmask. rewrite imul_masked_eq by done. cbn [bindR].
    eexists. split; [reflexivity|]. split.
    { unfold scale_where. rewrite length_map, length_zip_with. lia. }
    intros i p Hi. destruct (Hrow i p Hi) as (a & b & c & d & Ha & Hb & Hc' & Hd).
    destruct (Hmask i p a b c d Hi Ha Hb Hc' Hd) as (t & Ht & Hmul & Hm13 & Ht22).
    exists (num_of a), (num_of b), (num_of c), (num_of d).
    eexists. unfold cell_at. rewrite Ec, Ep, Es, Ef.
    rewrite <- (numeric_cell lc i a Nc Ha), <- (numeric_cell lp i b Np Hb),
            <- (numeric_cell ls i c Ns Hc'), <- (numeric_cell lf i d Nf Hd).
    do 4 (split; [done|]).
    split; [by apply clipped_scale_lookup|].
    assert (Heq : (clip (if t then p * m else p) 0 1
                   == clip (p * multiplier goal (num_of a) (num_of b) (num_of c) (num_of d))
                        0 1)%Q).
    { apply clip_Qeq. rewrite Hmul. apply scaled_Qeq. }
    split; [exact Heq|]. split; [by apply clip_bounds|].
    intros Hmg H22 Hp0. rewrite (Ht22 Hmg H22) in *. rewrite (Hm13 eq_refl Hmg).
    apply clip_nonneg. apply Qmult_le_0_compat; done. }
  enough (∃ out, adjust_for_goals probs df (JObj fields) = Ok out ∧ length out = length probs ∧
            ∀ i p, probs !! i = Some p →
              ∃ kcal prot sod fib o,
                cell_at df "calories" i = Some (CNum kcal) ∧
                cell_at df "protein_g" i = Some (CNum prot) ∧
                cell_at df "sodium_mg" i = Some (CNum sod) ∧
                cell_at df "fiber_g" i = Some (CNum fib) ∧
                out !! i = Some o ∧
                (o == clip (p * multiplier goal kcal prot sod fib) 0 1)%Q ∧
                (0 <= o <= 1)%Q ∧
                (is_str "Muscle Gain" goal = true → num_eq prot 22 = true → (0 <= p)%Q →
                 (o == Qmin (p * 1.3) 1)%Q)) as (out & Hout & Hrest).
  { exists out. split; [done|]. split; done. }
  unfold adjust_for_goals. rewrite Hgoal. cbn [bindR].
  assert (Hnone : ∀ i (p : Q), probs !! i = Some p → replicate (length probs) false !! i = Some false).
  { intros i p Hi. apply lookup_replicate_2. by eapply lookup_lt_Some. }
  destruct (is_str "Weight Loss" goal) eqn:G1; [|destruct (is_str "Muscle Gain" goal) eqn:G2;
    [|destruct (is_str "Heart Health" goal) eqn:G3]].
  - unfold getitem. rewrite Ec, Ep. cbn [bindR].
    rewrite !cmp_mask_numeric by done. cbn [bindR].
    apply Hfinish.
    { unfold mask_and. rewrite length_zip_with, !length_map. lia. }
    intros i p a b c d Hi Ha Hb Hc' Hd.
    exists (num_lt (num_of a) 300 && num_gt (num_of b) 15).
    split.
    { unfold mask_and. rewrite lookup_zip_with, !list_lookup_fmap, Ha, Hb. done. }
    unfold multiplier. rewrite G1. split; [done|].
    split; intros; by pose proof (is_str_inj _ _ _ G1 ltac:(eassumption)).
  - unfold getitem. rewrite Ep. cbn [bindR].
    rewrite !cmp_mask_numeric by done. cbn [bindR].
    apply Hfinish.
    { rewrite length_map. lia. }
    intros i p a b c d Hi Ha Hb Hc' Hd.
    exists (num_gt (num_of b) 20).
    split.
    { rewrite list_lookup_fmap, Hb. done. }
    unfold multiplier. rewrite G1, G2. split; [done|]. split; [done|].
    intros _ H22. destruct (num_of b) as [q|]; simpl in *; [|discriminate].
    apply Qeq_bool_iff in H22. apply Qlt_bool_iff. rewrite H22. reflexivity.
  - unfold getitem. rewrite Es, Ef. cbn [bindR].
    rewrite !cmp_mask_numeric by done. cbn [bindR].
    apply Hfinish.
    { unfold mask_and. rewrite length_zip_with, !length_map. lia. }
    intros i p a b c d Hi Ha Hb Hc' Hd.
    exists (num_lt (num_of c) 500 && num_gt (num_of d) 5).
    split.
    { unfold mask_and. rewrite lookup_zip_with, !list_lookup_fmap, Hc', Hd. done. }
    unfold multiplier. rewrite G1, G2, G3. split; [done|]. split; intros; congruence.
  - cbn [bindR].
    destruct (Hfinish (replicate (length probs) false) 1%Q) as (out & Hout & Hrest).
    { apply length_replicate. }
    { intros i p a b c d Hi Ha Hb Hc' Hd. exists false.
      split; [by eapply Hnone|]. unfold multiplier. rewrite G1, G2, G3.
      split; [done|]. split; intros; congruence. }
    rewrite imul_masked_eq in Hout by apply length_replicate. cbn [bindR] in Hout.
    exists out. split; [|exact Hrest]. rewrite <- Hout. do 2 f_equal.
    unfold scale_where. clear. induction probs as [|p probs IH]; simpl; [done|].
    by rewrite <- IH.
Qed.

(** ** The ranker *)

Lemma StronglySorted_lookup {A} (R : A → A → Prop) (l : list A) :
  StronglySorted R l ↔
  ∀ i j x y, i < j → l !! i = Some x → l !! j = Some y → R x y.
Proof.
  split.
  - induction 1 as [|a l _ IH Hall]; intros i j x y Hij Hi Hj.
    + by rewrite lookup_nil in Hi.
    + destruct j as [|j]; [lia|]. destruct i as [|i]; simpl in *.
      * injection Hi as <-. rewrite Forall_lookup in Hall. eauto.
      * apply (IH i j); [lia|done..].
  - induction l as [|a l IH]; intros H; constructor.
    + apply IH. intros i j x y Hij Hi Hj. apply (H (S i) (S j)); [lia|done..].
    + apply Forall_lookup. intros j y Hj. apply (H 0 (S j)); [lia|done..].
Qed.

Lemma StronglySorted_take {A} (R : A → A → Prop) (l : list A) n :
  StronglySorted R l → StronglySorted R (take n l).
Proof.
  rewrite !StronglySorted_lookup. intros H i j x y Hij Hi Hj.
  apply lookup_take_Some in Hi as [Hi _], Hj as [Hj _]. eauto.
Qed.

Lemma StronglySorted_reverse {A} (R : A → A → Prop) (l : list A) :
  StronglySorted R l → StronglySorted (flip R) (reverse l).
Proof.
  rewrite !StronglySorted_lookup. intros H i j x y Hij Hi Hj.
  pose proof (lookup_lt_Some _ _ _ Hi) as Li.
  pose proof (lookup_lt_Some _ _ _ Hj) as Lj.
  rewrite length_reverse in Li, Lj.
  rewrite reverse_lookup in Hi, Hj by done.
  apply (H (length l - S j) (length l - S i)); [lia|done..].
Qed.

Lemma StronglySorted_map {A B} (R : B → B → Prop) (f : A → B) (l : list A) :
  StronglySorted R (map f l) ↔ StronglySorted (λ a b, R (f a) (f b)) l.
Proof.
  rewrite !StronglySorted_lookup. split.
  - intros H i j x y Hij Hi Hj. apply (H i j); [done|..];
      rewrite list_lookup_fmap; [by rewrite Hi | by rewrite Hj].
  - intros H i j x y Hij Hi Hj.
    apply list_lookup_fmap_Some in Hi as (a & -> & Ha), Hj as (b & -> & Hb). eauto.
Qed.

Lemma mapR_ok {A B} (f : A → result B) (P : A → B → Prop) (l : list A) :
  (∀ x, x ∈ l → ∃ y, f x = Ok y ∧ P x y) →
  ∃ ys, mapR f l = Ok ys ∧ Forall2 P l ys.
Proof.
  induction l as [|x l IH]; intros H; simpl.
  - exists []. split; [done | constructor].
  - destruct (H x) as (y & Hy & Py); [left|].
    destruct IH as (ys & Hys & Pys); [intros z Hz; apply H; by right|].
    rewrite Hy, Hys. simpl. exists (y :: ys). split; [done | by constructor].
Qed.

(** *** One recommendation *)

Ltac in_list := apply list_elem_of_In; simpl; tauto.

Lemma iloc_lookup df idx c :
  omap (λ l : list cell, l !! idx) (cols df) !! c = cell_at df c idx.
Proof. unfold cell_at. rewrite lookup_omap. by destruct (cols df !! c). Qed.

Lemma explain_numeric food c op bound why reasons a :
  food !! c = Some (CNum a) → ∃ reasons', explain food c op bound why reasons = Ok reasons'.
Proof.
  intros H. unfold explain, row_getitem. rewrite H. simpl.
  destruct (op a bound); simpl; eauto.
Qed.

Lemma float_of_numeric food c a : food !! c = Some (CNum a) → float_of food c = Ok a.
Proof. intros H. unfold float_of, row_getitem. by rewrite H. Qed.

Lemma explainable_numeric df c :
  explainable df = true →
  c ∈ [ "protein_g"; "fiber_g"; "calories"; "sugars_g"; "cost_per_serving";
        "carbs_g"; "fat_g" ] →
  numeric_column df c = true.
Proof.
  unfold explainable. rewrite andb_true_iff. intros [_ H] Hc.
  rewrite forallb_forall in H. apply H. by apply list_elem_of_In.
Qed.

Lemma numeric_cell_at df c idx :
  wf_frame df → numeric_column df c = true → idx < nrows df →
  ∃ a, cell_at df c idx = Some (CNum a).
Proof.
  intros Hwf Hc Hidx. destruct (numeric_column_lookup _ _ Hwf Hc) as (l & E & Hlen & Hnum).
  destruct (lookup_lt_is_Some_2 l idx) as [x Hx]; [lia|].
  exists (num_of x). unfold cell_at. rewrite E, Hx. f_equal.
  by eapply numeric_cell.
Qed.

Lemma build_recommendation_ok df probs idx p :
  wf_frame df → explainable df = true → idx < nrows df → probs !! idx = Some p →
  ∃ r, build_recommendation df probs idx = Ok r ∧ fit_score r = p ∧
       cell_at df "description" idx = Some (name r).
Proof.
  intros Hwf Hex Hidx Hp.
  assert (Hnum : ∀ c, c ∈ [ "protein_g"; "fiber_g"; "calories"; "sugars_g";
                            "cost_per_serving"; "carbs_g"; "fat_g" ] →
                      ∃ a, omap (λ l : list cell, l !! idx) (cols df) !! c = Some (CNum a)).
  { intros c Hc. rewrite iloc_lookup. apply numeric_cell_at; [done| |done].
    by apply explainable_numeric. }
  assert (Hdesc : ∃ d, omap (λ l : list cell, l !! idx) (cols df) !! "description" = Some d).
  { rewrite iloc_lookup. unfold explainable in Hex. apply andb_true_iff in Hex as [Hd _].
    unfold has_column, cell_at in *. destruct (cols df !! "description") as [l|] eqn:E;
      [|discriminate].
    apply lookup_lt_is_Some_2. erewrite wf_lookup; eauto. }
  unfold build_recommendation, iloc.
  apply Nat.ltb_lt in Hidx. rewrite Hidx. cbn [bindR].
  set (food := omap (λ l : list cell, l !! idx) (cols df)) in *.
  rewrite Hp. cbn [bindR].
  destruct (Hnum "protein_g") as [a1 H1]; [in_list|].
  destruct (Hnum "fiber_g") as [a2 H2]; [in_list|].
  destruct (Hnum "calories") as [a3 H3]; [in_list|].
  destruct (Hnum "sugars_g") as [a4 H4]; [in_list|].
  destruct (Hnum "cost_per_serving") as [a5 H5]; [in_list|].
  destruct (Hnum "carbs_g") as [a6 H6]; [in_list|].
  destruct (Hnum "fat_g") as [a7 H7]; [in_list|].
  destruct Hdesc as [d Hd].
  destruct (explain_numeric food "protein_g" num_gt 15 HighProtein [] a1 H1) as [r1 E1].
  rewrite E1. cbn [bindR].
  destruct (explain_numeric food "fiber_g" num_gt 5 HighFiber r1 a2 H2) as [r2 E2].
  rewrite E2. cbn [bindR].
  destruct (explain_numeric food "calories" num_lt 200 LowCalorie r2 a3 H3) as [r3 E3].
  rewrite E3. cbn [bindR].
  destruct (explain_numeric food "sugars_g" num_lt 5 LowSugar r3 a4 H4) as [r4 E4].
  rewrite E4. cbn [bindR].
  destruct (explain_numeric food "cost_per_serving" num_lt 2 BudgetFriendly r4 a5 H5)
    as [r5 E5].
  rewrite E5. cbn [bindR].
  unfold row_getitem at 1. rewrite Hd. cbn [bindR].
  rewrite (float_of_numeric food "calories" a3 H3),
          (float_of_numeric food "protein_g" a1 H1),
          (float_of_numeric food "carbs_g" a6 H6),
          (float_of_numeric food "fat_g" a7 H7),
          (float_of_numeric food "fiber_g" a2 H2),
          (float_of_numeric food "sugars_g" a4 H4),
          (float_of_numeric food "cost_per_serving" a5 H5).
  cbn [bindR]. eexists. split; [reflexivity|]. simpl. split; [done|].
  by rewrite <- iloc_lookup.
Qed.

Lemma key_lookup (v : list Q) i : i < length v → v !! i = Some (key v i).
Proof.
  intros Hi. unfold key. destruct (nth_lookup_or_length v i 0%Q); [done | lia].
Qed.

Lemma map_nth_positions {A} (l : list A) d : map (λ i, nth i l d) (seq 0 (length l)) = l.
Proof.
  apply list_eq. intros i. rewrite list_lookup_fmap.
  destruct (decide (i < length l)) as [Hi|Hi].
  - rewrite lookup_seq_lt by done. simpl.
    destruct (nth_lookup_or_length l i d); [done | lia].
  - rewrite lookup_seq_ge by lia. simpl. symmetry. apply lookup_ge_None. lia.
Qed.

Lemma Forall2_map_eq {A B C} (f : A → C) (g : B → C) (l : list A) (k : list B) :
  Forall2 (λ x y, g y = f x) l k → map g k = map f l.
Proof. induction 1; simpl; congruence. Qed.

Lemma lex_asym v i j : lex v i j → lex v j i → False.
Proof.
  unfold lex. intros [H1|[H1 L1]] [H2|[H2 L2]].
  - apply (Qlt_irrefl (key v i)). by etrans.
  - rewrite H2 in H1. by apply Qlt_irrefl in H1.
  - rewrite H1 in H2. by apply Qlt_irrefl in H2.
  - lia.
Qed.

Lemma lex_ascending v i j : lex v i j → ascending v i j.
Proof.
  unfold lex, ascending. intros [H|[H _]]; [by apply Qlt_le_weak|].
  rewrite H. apply Qle_refl.
Qed.

Lemma StronglySorted_impl {A} (R S : A → A → Prop) (l : list A) :
  (∀ x y, R x y → S x y) → StronglySorted R l → StronglySorted S l.
Proof. rewrite !StronglySorted_lookup. eauto. Qed.

(** In a list sorted by an asymmetric relation, related elements stand in
    the order of the relation. *)
Lemma StronglySorted_position {A} (R : A → A → Prop) (l : list A) p q x y :
  (∀ a b, R a b → R b a → False) →
  StronglySorted R l → l !! p = Some x → l !! q = Some y → R x y → p < q.
Proof.
  intros Hasym Hs Hp Hq Hxy. rewrite StronglySorted_lookup in Hs.
  destruct (lt_eq_lt_dec p q) as [[Hlt|Heq]|Hgt]; [done|..].
  - subst q. rewrite Hp in Hq. injection Hq as <-. destruct (Hasym x x); done.
  - destruct (Hasym x y); [done|]. eauto.
Qed.

Lemma slice_to_prefix {A} (l : list A) (stop : json) t :
  slice_to l stop = Ok t → ∃ m, t = take m l.
Proof.
  destruct stop; simpl; try discriminate.
  - intros [= <-]. exists (length l). by rewrite take_ge.
  - intros [= <-]. eauto.
  - intros [= <-]. destruct (0 <=? z)%Z; eauto.
Qed.

Section RankerContract.

Variable argsort : list Q → list nat.

(** What numpy promises of [argsort]: the positions of the vector, each
    once, in an order that sorts it ascending. *)
Hypothesis argsort_perm : ∀ v, argsort v ≡ₚ seq 0 (length v).
Hypothesis argsort_ascending : ∀ v, StronglySorted (ascending v) (argsort v).

Lemma argsort_length v : length (argsort v) = length v.
Proof. rewrite (Permutation_length (argsort_perm v)). apply length_seq. Qed.

Lemma argsort_in_range v idx : idx ∈ argsort v → idx < length v.
Proof. rewrite (argsort_perm v), elem_of_seq. lia. Qed.

Lemma top_indices_positive probs k :
  (0 < k)%Z →
  top_indices argsort probs (JInt k) = Ok (take (Z.to_nat k) (reverse (argsort probs))).
Proof.
  intros Hk. unfold top_indices, slice_to.
  destruct (Z.leb_spec 0 k); [done | lia].
Qed.

(** C3.  For a positive [top_k] and a catalog of scored eligible items,
    the last block of [predict_top_meals] returns a response whose
    recommendations are sorted by fit score, best first, and number
    exactly min(top_k, number of eligible items); [total_eligible] is
    the number of eligible items; and when [top_k] is not below that
    number the recommendations are exactly the eligible items, each
    once. *)
Theorem ranking_sorted_and_truncated
    (probs : list Q) (eligible_foods : DataFrame) (fields : list (string * json))
    (query : json) (k : Z) :
  wf_frame eligible_foods →
  explainable eligible_foods = true →
  length probs = nrows eligible_foods →
  (0 < k)%Z →
  ∃ recs user_goal,
    rank_and_explain argsort probs eligible_foods (JObj fields) query (JInt k)
    = Ok (Ranked recs query (nrows eligible_foods) "1.0" user_goal) ∧
    StronglySorted descending recs ∧
    length recs = Nat.min (Z.to_nat k) (nrows eligible_foods) ∧
    ((nrows eligible_foods ≤ Z.to_nat k)%nat →
     length recs = nrows eligible_foods ∧
     ∀ descriptions, cols eligible_foods !! "description" = Some descriptions →
                     map name recs ≡ₚ descriptions).
Proof.
  intros Hwf Hex Hlen Hk.
  unfold rank_and_explain. rewrite top_indices_positive by done. cbn [bindR].
  set (top := take (Z.to_nat k) (reverse (argsort probs))).
  assert (Hrange : ∀ idx, idx ∈ top → idx < length probs).
  { intros idx Hin. apply argsort_in_range.
    apply elem_of_reverse. by apply (subseteq_take (Z.to_nat k)). }
  assert (Hltop : length top = Nat.min (Z.to_nat k) (nrows eligible_foods)).
  { unfold top. by rewrite length_take, length_reverse, argsort_length, Hlen. }
  assert (Hsorted : StronglySorted (flip (ascending probs)) top).
  { apply StronglySorted_take, StronglySorted_reverse, argsort_ascending. }
  destruct (mapR_ok (build_recommendation eligible_foods probs)
              (λ idx r, fit_score r = key probs idx ∧
                        cell_at eligible_foods "description" idx = Some (name r)) top)
    as (recs & Hrecs & Hall).
  { intros idx Hin. specialize (Hrange idx Hin).
    destruct (build_recommendation_ok eligible_foods probs idx (key probs idx))
      as (r & Hr & Hfit & Hname); try done; [lia | by apply key_lookup | eauto]. }
  rewrite Hrecs. cbn [bindR]. simpl.
  eexists recs, _. split; [reflexivity|].
  split; [|split].
  - apply StronglySorted_lookup. intros i j r1 r2 Hij H1 H2.
    destruct (Forall2_lookup_r _ _ _ _ _ Hall H1) as (i1 & Hi1 & Hf1 & _).
    destruct (Forall2_lookup_r _ _ _ _ _ Hall H2) as (i2 & Hi2 & Hf2 & _).
    rewrite StronglySorted_lookup in Hsorted.
    specialize (Hsorted i j i1 i2 Hij Hi1 Hi2).
    unfold descending, flip, ascending in *. by rewrite Hf1, Hf2.
  - by rewrite <- (Forall2_length _ _ _ Hall).
  - intros Hall_in. split.
    { rewrite <- (Forall2_length _ _ _ Hall), Hltop. lia. }
    intros descriptions Hd.
    assert (Htop : top ≡ₚ seq 0 (length descriptions)).
    { unfold top. rewrite take_ge by (rewrite length_reverse, argsort_length; lia).
      rewrite reverse_Permutation, argsort_perm.
      by rewrite Hlen, (wf_lookup _ _ _ Hwf Hd). }
    rewrite (Forall2_map_eq (λ idx, nth idx descriptions (CStr "")) name top recs).
    + etrans; [apply Permutation_map, Htop|]. by rewrite map_nth_positions.
    + eapply Forall2_impl; [exact Hall|]. intros idx r [_ Hname]. simpl.
      unfold cell_at in Hname. rewrite Hd in Hname. symmetry.
      by apply nth_lookup_Some.
Qed.

(** C6 (as amended).  The ranker lists item positions by adjusted
    probability, best first, whichever way [argsort] orders equal
    entries.  The list is the reversal of the ascending [argsort], so the
    items stand in the reverse of the order [argsort] leaves them in,
    those of equal score included.  Where [argsort] is stable on the
    scores, that is, leaves equal entries in the order of their
    positions, an item later in the filtered catalog stands before every
    earlier item with the same score. *)
Theorem ranker_reverses_ties (probs : list Q) (top_k : json) (top : list nat) :
  top_indices argsort probs top_k = Ok top →
  StronglySorted (flip (ascending probs)) top ∧
  (∀ p q i j b,
     p < q →
     argsort probs !! p = Some i →
     argsort probs !! q = Some j →
     top !! b = Some i →
     ∃ a, a < b ∧ top !! a = Some j) ∧
  (StronglySorted (lex probs) (argsort probs) →
   ∀ i j b,
     i < j < length probs →
     (key probs i == key probs j)%Q →
     top !! b = Some i →
     ∃ a, a < b ∧ top !! a = Some j).
Proof.
  intros Htop. unfold top_indices in Htop.
  apply slice_to_prefix in Htop as [m ->].
  assert (Hreversed : ∀ p q i j b,
            p < q →
            argsort probs !! p = Some i →
            argsort probs !! q = Some j →
            take m (reverse (argsort probs)) !! b = Some i →
            ∃ a, a < b ∧ take m (reverse (argsort probs)) !! a = Some j).
  { intros p q i j b Hpq Hp Hq Hb.
    apply lookup_take_Some in Hb as [Hb Hbm].
    pose proof (lookup_lt_Some _ _ _ Hb) as Hbn. rewrite length_reverse in Hbn.
    rewrite reverse_lookup in Hb by done.
    pose proof (lookup_lt_Some _ _ _ Hq) as Hqn.
    assert (Hnodup : NoDup (argsort probs)).
    { rewrite (argsort_perm probs). apply NoDup_seq. }
    pose proof (NoDup_lookup _ _ _ _ Hnodup Hp Hb) as ->.
    exists (length (argsort probs) - S q). split; [lia|].
    rewrite lookup_take_lt by lia.
    rewrite reverse_lookup by lia. rewrite <- Hq. f_equal. lia. }
  split.
  { apply StronglySorted_take, StronglySorted_reverse, argsort_ascending. }
  split; [exact Hreversed|].
  intros Hstable i j b [Hij Hj] Hkey Hb.
  assert (Hi : ∃ p, argsort probs !! p = Some i).
  { apply lookup_take_Some in Hb as [Hb _].
    apply list_elem_of_lookup. apply elem_of_reverse. by eapply list_elem_of_lookup_2. }
  destruct Hi as [p Hp].
  assert (Hin : j ∈ argsort probs).
  { rewrite (argsort_perm probs), elem_of_seq. lia. }
  apply list_elem_of_lookup in Hin as [q Hq].
  apply (Hreversed p q i j b); [|done..].
  eapply (StronglySorted_position (lex probs));
    [apply lex_asym | exact Hstable | exact Hp | exact Hq |].
  right. done.
Qed.

End RankerContract.

(** *** The insertion sort meets both contracts *)

Lemma insert_index_perm v vi sorted : insert_index v vi sorted ≡ₚ vi :: sorted.
Proof.
  induction sorted as [|j rest IH]; simpl; [done|].
  destruct (Qlt_bool (key v vi) (key v j)); [done|].
  rewrite IH. apply Permutation_swap.
Qed.

Lemma insert_index_sorted v vi sorted :
  StronglySorted (lex v) sorted → Forall (λ j, j < vi) sorted →
  StronglySorted (lex v) (insert_index v vi sorted).
Proof.
  induction 1 as [|j rest Hrest IH Hj]; intros Hlt; simpl.
  - repeat constructor.
  - apply Forall_cons in Hlt as [Hjvi Hlt].
    destruct (Qlt_bool (key v vi) (key v j)) eqn:E.
    + apply Qlt_bool_iff in E. constructor; [by constructor|].
      constructor; [by left|].
      eapply Forall_impl; [exact Hj|]. intros x Hx. left.
      apply lex_ascending in Hx. unfold ascending in Hx.
      by eapply Qlt_le_trans.
    + apply Qlt_bool_false in E. constructor; [by apply IH|].
      rewrite insert_index_perm. constructor; [|done].
      apply Qle_lteq in E as [E|E]; [by left | by right].
Qed.

Lemma insertion_fold_perm v l acc :
  fold_left (λ sorted vi, insert_index v vi sorted) l acc ≡ₚ acc ++ l.
Proof.
  revert acc. induction l as [|x l IH]; intros acc; simpl; [by rewrite app_nil_r|].
  rewrite IH, insert_index_perm. simpl. apply Permutation_middle.
Qed.

Lemma insertion_fold_sorted v len start acc :
  StronglySorted (lex v) acc → Forall (λ j, j < start) acc →
  StronglySorted (lex v)
    (fold_left (λ sorted vi, insert_index v vi sorted) (seq start len) acc).
Proof.
  revert start acc. induction len as [|len IH]; intros start acc Hs Hlt; simpl; [done|].
  apply IH; [by apply insert_index_sorted|].
  rewrite insert_index_perm. constructor; [lia|].
  eapply Forall_impl; [exact Hlt|]. simpl. lia.
Qed.

Lemma argsort_insertion_perm v : argsort_insertion v ≡ₚ seq 0 (length v).
Proof. unfold argsort_insertion. by rewrite insertion_fold_perm. Qed.

Lemma argsort_insertion_stable v : StronglySorted (lex v) (argsort_insertion v).
Proof. apply insertion_fold_sorted; constructor. Qed.

Lemma argsort_insertion_ascending v : StronglySorted (ascending v) (argsort_insertion v).
Proof.
  eapply StronglySorted_impl; [apply lex_ascending | apply argsort_insertion_stable].
Qed.

(** ** The non-negative shift *)

Lemma Qmin_cases x y : Qmin x y = x ∨ Qmin x y = y.
Proof.
  unfold Qmin, GenericMinMax.gmin. destruct (x ?= y)%Q; auto.
Qed.

Lemma fold_Qmin_lower xs x :
  (fold_left Qmin xs x <= x)%Q ∧ Forall (λ y, fold_left Qmin xs x <= y)%Q xs.
Proof.
  revert x. induction xs as [|y xs IH]; intros x; simpl.
  - split; [apply Qle_refl | constructor].
  - destruct (IH (Qmin x y)) as [H1 H2]. split.
    + eapply Qle_trans; [exact H1 | apply Q.le_min_l].
    + constructor; [|done]. eapply Qle_trans; [exact H1 | apply Q.le_min_r].
Qed.

Lemma fold_Qmin_attained xs x : fold_left Qmin xs x ∈ x :: xs.
Proof.
  revert x. induction xs as [|y xs IH]; intros x; simpl; [by left|].
  specialize (IH (Qmin x y)). apply elem_of_cons in IH as [IH|IH].
  - rewrite IH. destruct (Qmin_cases x y) as [->| ->]; [by left | by right; left].
  - by do 2 right.
Qed.

Lemma matrix_min_spec X :
  concat X ≠ [] →
  ∃ lowest, matrix_min X = Ok lowest ∧ lowest ∈ concat X ∧
            Forall (λ x, lowest <= x)%Q (concat X).
Proof.
  intros Hne. unfold matrix_min. destruct (concat X) as [|x xs]; [done|].
  eexists. split; [reflexivity|]. split; [apply fold_Qmin_attained|].
  destruct (fold_Qmin_lower xs x). by constructor.
Qed.

Lemma epsilon_positive : (0 < epsilon)%Q.
Proof. reflexivity. Qed.

Lemma shifted_entry lowest x :
  (lowest <= x)%Q → (epsilon <= x - lowest + epsilon)%Q ∧ (0 < x - lowest + epsilon)%Q.
Proof.
  intros H.
  assert (H0 : (0 <= x - lowest)%Q).
  { unfold Qminus. rewrite <- (Qplus_opp_r lowest). by apply Qplus_le_l. }
  split.
  - rewrite <- (Qplus_0_l epsilon) at 1. by apply Qplus_le_l.
  - apply Qlt_le_trans with (0 + epsilon)%Q; [by rewrite Qplus_0_l|].
    by apply Qplus_le_l.
Qed.

(** C9.  The shift subtracts the least entry of the matrix it is given,
    the transformed matrix of the current request, and adds epsilon, 1e-9:
    afterwards every entry is at least epsilon, hence positive, and the
    entry that was least is epsilon exactly.  What is subtracted is an
    entry of this batch, not a constant from training. *)
Theorem nonneg_shift_is_batch_relative (X_transformed : Matrix) :
  concat X_transformed ≠ [] →
  ∃ lowest X_nonneg,
    matrix_min X_transformed = Ok lowest ∧
    nonneg_shift X_transformed = Ok X_nonneg ∧
    lowest ∈ concat X_transformed ∧
    Forall (λ x, lowest <= x)%Q (concat X_transformed) ∧
    X_nonneg = map (map (λ x, x - lowest + epsilon)%Q) X_transformed ∧
    epsilon = (1 # 1000000000)%Q ∧
    Forall (λ y, epsilon <= y ∧ 0 < y)%Q (concat X_nonneg) ∧
    Exists (λ y, y == epsilon)%Q (concat X_nonneg).
Proof.
  intros Hne. destruct (matrix_min_spec X_transformed Hne) as (lowest & Hmin & Hin & Hlow).
  exists lowest. eexists. split; [done|]. unfold nonneg_shift. rewrite Hmin. cbn [bindR].
  split; [reflexivity|]. do 4 (split; [done|]).
  assert (Hconcat : concat (map (map (λ x, x - lowest + epsilon)%Q) X_transformed)
                    = map (λ x, x - lowest + epsilon)%Q (concat X_transformed)).
  { clear. induction X_transformed as [|row X IH]; simpl; [done|].
    by rewrite map_app, IH. }
  rewrite Hconcat. split.
  - apply Forall_fmap. eapply Forall_impl; [exact Hlow|].
    intros x Hx. by apply shifted_entry.
  - apply Exists_exists. exists (lowest - lowest + epsilon)%Q. split.
    + exact (list_elem_of_fmap_2 (λ x, x - lowest + epsilon)%Q _ lowest Hin).
    + unfold Qminus. by rewrite Qplus_opp_r, Qplus_0_l.
Qed.

(** ** The feature materializer *)

Lemma extends_refl a : extends a a.
Proof. by split. Qed.

Lemma extends_trans a b c : extends a b → extends b c → extends a c.
Proof. intros [N1 H1] [N2 H2]. split; [congruence | eauto]. Qed.

Lemma foldR_app {A B} (f : A → B → result A) l1 l2 a :
  foldR f (l1 ++ l2) a = (a' <- foldR f l1 a ;; foldR f l2 a').
Proof.
  revert a. induction l1 as [|x l1 IH]; intros a; simpl; [done|].
  destruct (f a x); simpl; [apply IH | done].
Qed.

Lemma fill_default_nrows v df x : nrows (fill_default v df x) = nrows df.
Proof. unfold fill_default. by destruct (has_column df x). Qed.

Lemma fill_default_lookup v df x c :
  cols (fill_default v df x) !! c
  = match cols df !! c with
    | Some l => Some l
    | None => if decide (c = x) then Some (replicate (nrows df) v) else None
    end.
Proof.
  unfold fill_default, has_column.
  destruct (cols df !! x) as [lx|] eqn:Ex.
  - destruct (cols df !! c) as [l|] eqn:Ec; [done|].
    destruct (decide (c = x)) as [->|]; [congruence | done].
  - unfold setitem_scalar, setitem; simpl. rewrite lookup_insert.
    destruct (decide (x = c)) as [<-|Hne].
    + rewrite Ex. by rewrite decide_True.
    + destruct (cols df !! c); [done|]. by rewrite decide_False.
Qed.

Lemma fold_fill_default_nrows v cs df :
  nrows (fold_left (fill_default v) cs df) = nrows df.
Proof.
  revert df. induction cs as [|x cs IH]; intros df; simpl; [done|].
  by rewrite IH, fill_default_nrows.
Qed.

Lemma fold_fill_default_lookup v cs df c :
  cols (fold_left (fill_default v) cs df) !! c
  = match cols df !! c with
    | Some l => Some l
    | None => if decide (c ∈ cs) then Some (replicate (nrows df) v) else None
    end.
Proof.
  revert df. induction cs as [|x cs IH]; intros df; cbn [fold_left].
  - destruct (cols df !! c); [done|]. rewrite decide_False; [done|]. apply not_elem_of_nil.
  - rewrite IH, fill_default_lookup, fill_default_nrows.
    destruct (cols df !! c) as [l|]; [done|].
    destruct (decide (c = x)) as [->|Hne].
    + rewrite decide_True; [done | by left].
    + destruct (decide (c ∈ cs)) as [Hin|Hnin].
      * rewrite decide_True; [done | by right].
      * rewrite decide_False; [done|]. rewrite elem_of_cons. tauto.
Qed.

Lemma fold_fill_default_extends v cs df : extends df (fold_left (fill_default v) cs df).
Proof.
  split; [apply fold_fill_default_nrows|].
  intros c l H. by rewrite fold_fill_default_lookup, H.
Qed.

Lemma fold_fill_default_wf v cs df :
  wf_frame df → wf_frame (fold_left (fill_default v) cs df).
Proof.
  intros Hwf c l. rewrite fold_fill_default_lookup, fold_fill_default_nrows.
  destruct (cols df !! c) as [l0|] eqn:E.
  - intros [= <-]. by eapply wf_lookup.
  - destruct (decide (c ∈ cs)); [|done]. intros [= <-]. apply length_replicate.
Qed.

(** The zero-filled features. *)
Lemma fill_numerical_plain df col :
  col ≠ "nutrient_density" → col ≠ "sugar_to_carb_ratio" →
  fill_numerical df col = Ok (fill_default (CNum (Finite 0)) df col).
Proof.
  intros H1 H2. unfold fill_numerical, fill_default.
  destruct (has_column df col); [done|].
  apply String.eqb_neq in H1, H2. by rewrite H1, H2.
Qed.

Lemma foldR_fill_numerical_plain cs df :
  Forall (λ col, col ≠ "nutrient_density" ∧ col ≠ "sugar_to_carb_ratio") cs →
  foldR fill_numerical cs df = Ok (fold_left (fill_default (CNum (Finite 0))) cs df).
Proof.
  intros H. revert df. induction H as [|x cs [H1 H2] _ IH]; intros df; simpl; [done|].
  rewrite fill_numerical_plain by done. simpl. apply IH.
Qed.

Lemma plain_features_plain :
  Forall (λ col, col ≠ "nutrient_density" ∧ col ≠ "sugar_to_carb_ratio") plain_features.
Proof. unfold plain_features. repeat constructor; discriminate. Qed.

Lemma numerical_features_split :
  numerical_features = plain_features ++ [ "nutrient_density"; "sugar_to_carb_ratio" ].
Proof. reflexivity. Qed.

Ltac decide_list := apply (bool_decide_unpack _); vm_compute; exact I.

Lemma zipR_add_numeric (a b : list cell) :
  Forall (λ x, is_number x = true) a → Forall (λ x, is_number x = true) b →
  zipR cell_add a b = Ok (zip_with (λ p f, CNum (num_add (num_of p) (num_of f))) a b).
Proof.
  intros Ha. revert b. induction Ha as [|x a Hx _ IH]; intros b Hb; [done|].
  destruct Hb as [|y b Hy Hb]; [done|]. simpl.
  destruct x; [|discriminate]. destruct y; [|discriminate]. simpl.
  by rewrite IH.
Qed.

Lemma zipR_div_numeric (a b : list cell) :
  Forall (λ x, is_number x = true) a → Forall (λ x, is_number x = true) b →
  zipR cell_div a b = Ok (zip_with (λ s c, CNum (num_div (num_of s) (num_of c))) a b).
Proof.
  intros Ha. revert b. induction Ha as [|x a Hx _ IH]; intros b Hb; [done|].
  destruct Hb as [|y b Hy Hb]; [done|]. simpl.
  destruct x; [|discriminate]. destruct y; [|discriminate]. simpl.
  by rewrite IH.
Qed.

Lemma mapR_add_one (l : list cell) :
  Forall (λ x, is_number x = true) l →
  mapR (λ x, cell_add x (CNum (Finite 1))) l
  = Ok (map (λ c, CNum (num_add (num_of c) (Finite 1))) l).
Proof.
  intros H. apply mapR_total. eapply Forall_impl; [exact H|].
  intros [a|s]; simpl; [done | discriminate].
Qed.

Lemma zip_with_numeric {A B} (g : A → B → num) (a : list A) (b : list B) :
  Forall (λ x, is_number x = true) (zip_with (λ x y, CNum (g x y)) a b).
Proof.
  revert b. induction a as [|x a IH]; intros [|y b]; simpl; constructor; auto.
Qed.

Lemma map_numeric {A} (g : A → num) (a : list A) :
  Forall (λ x, is_number x = true) (map (λ x, CNum (g x)) a).
Proof. induction a; simpl; constructor; auto. Qed.

Lemma replicate_numeric n a :
  Forall (λ x, is_number x = true) (replicate n (CNum a)).
Proof. induction n; simpl; constructor; auto. Qed.

(** The two derived features, on a frame that has their inputs. *)
Lemma fill_numerical_density df lp lf lc :
  cols df !! "protein_g" = Some lp →
  cols df !! "fiber_g" = Some lf →
  cols df !! "calories" = Some lc →
  Forall (λ x, is_number x = true) lp →
  Forall (λ x, is_number x = true) lf →
  Forall (λ x, is_number x = true) lc →
  fill_numerical df "nutrient_density"
  = Ok (add_missing df "nutrient_density" (density_column lp lf lc)).
Proof.
  intros Ep Ef Ec Np Nf Nc. unfold fill_numerical, add_missing.
  destruct (has_column df "nutrient_density"); [done|].
  cbn [String.eqb Ascii.eqb Bool.eqb]. unfold df_get. rewrite Ep, Ef, Ec.
  unfold one. cbn [elementwise]. rewrite zipR_add_numeric by done. cbn [bindR].
  rewrite mapR_add_one by done. cbn [bindR elementwise].
  rewrite zipR_div_numeric by (apply zip_with_numeric || apply map_numeric).
  reflexivity.
Qed.

Lemma fill_numerical_ratio df ls lc :
  cols df !! "sugars_g" = Some ls →
  cols df !! "carbs_g" = Some lc →
  Forall (λ x, is_number x = true) ls →
  Forall (λ x, is_number x = true) lc →
  fill_numerical df "sugar_to_carb_ratio"
  = Ok (add_missing df "sugar_to_carb_ratio" (ratio_column ls lc)).
Proof.
  intros Es Ec Ns Nc. unfold fill_numerical, add_missing.
  destruct (has_column df "sugar_to_carb_ratio"); [done|].
  cbn [String.eqb Ascii.eqb Bool.eqb]. unfold df_get. rewrite Es, Ec.
  unfold one. cbn [elementwise]. rewrite mapR_add_one by done. cbn [bindR elementwise].
  rewrite zipR_div_numeric by (done || apply map_numeric).
  reflexivity.
Qed.

Lemma add_missing_lookup df x column c :
  cols (add_missing df x column) !! c
  = match cols df !! c with
    | Some l => Some l
    | None => if decide (c = x) then Some column else None
    end.
Proof.
  unfold add_missing, has_column.
  destruct (cols df !! x) as [lx|] eqn:Ex.
  - destruct (cols df !! c) as [l|] eqn:Ec; [done|].
    destruct (decide (c = x)) as [->|]; [congruence | done].
  - unfold setitem; simpl. rewrite lookup_insert.
    destruct (decide (x = c)) as [<-|Hne].
    + rewrite Ex. by rewrite decide_True.
    + destruct (cols df !! c); [done|]. by rewrite decide_False.
Qed.

Lemma add_missing_nrows df x column : nrows (add_missing df x column) = nrows df.
Proof. unfold add_missing. by destruct (has_column df x). Qed.

Lemma add_missing_extends df x column : extends df (add_missing df x column).
Proof.
  split; [apply add_missing_nrows|]. intros c l H. by rewrite add_missing_lookup, H.
Qed.

Lemma add_missing_wf df x column :
  wf_frame df → length column = nrows df → wf_frame (add_missing df x column).
Proof.
  intros Hwf Hlen c l. rewrite add_missing_lookup, add_missing_nrows.
  destruct (cols df !! c) as [l0|] eqn:E.
  - intros [= <-]. by eapply wf_lookup.
  - destruct (decide (c = x)); [|done]. by intros [= <-].
Qed.

Lemma density_column_lookup lp lf lc i (p f k : num) :
  lp !! i = Some (CNum p) → lf !! i = Some (CNum f) → lc !! i = Some (CNum k) →
  density_column lp lf lc !! i = Some (CNum (num_div (num_add p f) (num_add k (Finite 1)))).
Proof.
  intros Hp Hf Hk. unfold density_column.
  rewrite !lookup_zip_with, list_lookup_fmap, Hp, Hf, Hk. done.
Qed.

Lemma ratio_column_lookup ls lc i (s k : num) :
  ls !! i = Some (CNum s) → lc !! i = Some (CNum k) →
  ratio_column ls lc !! i = Some (CNum (num_div s (num_add k (Finite 1)))).
Proof.
  intros Hs Hk. unfold ratio_column.
  rewrite lookup_zip_with, list_lookup_fmap, Hs, Hk. done.
Qed.

Lemma nonzero_divisor (q : Q) : ¬ (q == 0)%Q → Qeq_bool q 0 = false.
Proof.
  intros Hq. destruct (Qeq_bool q 0) eqn:E; [|done].
  by apply Qeq_bool_iff in E.
Qed.

Lemma empty_frame_numeric df c :
  wf_frame df → nrows df = 0 → numeric_if_present df c = true.
Proof.
  intros Hwf Hn. unfold numeric_if_present.
  destruct (cols df !! c) as [l|] eqn:E; [|done].
  pose proof (wf_lookup _ _ _ Hwf E) as Hlen. rewrite Hn in Hlen.
  by destruct l.
Qed.

Lemma zero_filled_numeric df c :
  wf_frame df → numeric_if_present df c = true → c ∈ plain_features →
  numeric_column (fold_left (fill_default (CNum (Finite 0))) plain_features df) c = true.
Proof.
  intros Hwf Hnum Hc. unfold numeric_column. rewrite fold_fill_default_lookup.
  destruct (cols df !! c) as [l|] eqn:E.
  - unfold numeric_if_present in Hnum. by rewrite E in Hnum.
  - rewrite decide_True by done. apply forallb_Forall, replicate_numeric.
Qed.

(** C7.  On a catalog that is empty, or whose nutrient columns hold
    numbers, the materializer returns, without raising, a frame with the
    same rows that has every numeric, categorical and binary feature
    column: what the catalog had is unchanged; a missing numeric column
    other than the two derived ones is all zeros; a missing nutrient
    density is (protein + fiber) / (calories + 1) in every row; a missing
    sugar-to-carbohydrate ratio is sugars / (carbohydrates + 1); a missing
    category is "unknown" and a missing dietary flag is 0.  The two
    quotients are those of the rationals wherever the three, or two,
    numbers are there and the divisor is not zero, and the missing value
    wherever one of the numbers is missing. *)
Theorem materialize_features_fills_defaults (df : DataFrame) :
  wf_frame df →
  nrows df = 0 ∨
  Forall (λ c, numeric_if_present df c = true)
    [ "protein_g"; "fiber_g"; "calories"; "sugars_g"; "carbs_g" ] →
  ∃ out,
    materialize_features df = Ok out ∧
    wf_frame out ∧
    nrows out = nrows df ∧
    (∀ c, c ∈ numerical_features ++ categorical_features ++ binary_features →
          has_column out c = true) ∧
    (∀ c l, cols df !! c = Some l → cols out !! c = Some l) ∧
    (∀ c, c ∈ numerical_features →
          c ≠ "nutrient_density" → c ≠ "sugar_to_carb_ratio" →
          cols df !! c = None →
          cols out !! c = Some (replicate (nrows df) (CNum (Finite 0)))) ∧
    (cols df !! "nutrient_density" = None →
     ∀ i, i < nrows df →
       ∃ p f k : num,
         cell_at out "protein_g" i = Some (CNum p) ∧
         cell_at out "fiber_g" i = Some (CNum f) ∧
         cell_at out "calories" i = Some (CNum k) ∧
         cell_at out "nutrient_density" i
         = Some (CNum (num_div (num_add p f) (num_add k (Finite 1)))) ∧
         (∀ qp qf qk : Q,
            p = Finite qp → f = Finite qf → k = Finite qk → ¬ (qk + 1 == 0)%Q →
            cell_at out "nutrient_density" i
            = Some (CNum (Finite ((qp + qf) / (qk + 1))))) ∧
         (p = NaN ∨ f = NaN ∨ k = NaN →
          cell_at out "nutrient_density" i = Some (CNum NaN))) ∧
    (cols df !! "sugar_to_carb_ratio" = None →
     ∀ i, i < nrows df →
       ∃ s k : num,
         cell_at out "sugars_g" i = Some (CNum s) ∧
         cell_at out "carbs_g" i = Some (CNum k) ∧
         cell_at out "sugar_to_carb_ratio" i
         = Some (CNum (num_div s (num_add k (Finite 1)))) ∧
         (∀ qs qk : Q,
            s = Finite qs → k = Finite qk → ¬ (qk + 1 == 0)%Q →
            cell_at out "sugar_to_carb_ratio" i = Some (CNum (Finite (qs / (qk + 1))))) ∧
         (s = NaN ∨ k = NaN →
          cell_at out "sugar_to_carb_ratio" i = Some (CNum NaN))) ∧
    (∀ c, c ∈ categorical_features → cols df !! c = None →
          cols out !! c = Some (replicate (nrows df) (CStr "unknown"))) ∧
    (∀ c, c ∈ binary_features → cols df !! c = None →
          cols out !! c = Some (replicate (nrows df) (CNum (Finite 0)))).
Proof.
  intros Hwf Hcase.
  assert (Hnum : ∀ c, c ∈ [ "protein_g"; "fiber_g"; "calories"; "sugars_g"; "carbs_g" ] →
                      numeric_if_present df c = true).
  { destruct Hcase as [Hempty|Hall].
    - intros c _. by apply empty_frame_numeric.
    - intros c Hc. rewrite Forall_forall in Hall. by apply Hall. }
  clear Hcase.
  set (df16 := fold_left (fill_default (CNum (Finite 0))) plain_features df).
  assert (Hwf16 : wf_frame df16) by (by apply fold_fill_default_wf).
  assert (Hext16 : extends df df16) by apply fold_fill_default_extends.
  assert (Hn16 : nrows df16 = nrows df) by apply Hext16.
  assert (Hcol16 : ∀ c, c ∈ [ "protein_g"; "fiber_g"; "calories"; "sugars_g"; "carbs_g" ] →
            ∃ l, cols df16 !! c = Some l ∧ length l = nrows df ∧
                 Forall (λ x, is_number x = true) l).
  { intros c Hc. rewrite <- Hn16. apply numeric_column_lookup; [done|].
    apply zero_filled_numeric; [done | by apply Hnum |].
    unfold plain_features. rewrite !elem_of_cons in Hc. rewrite !elem_of_cons.
    rewrite elem_of_nil in Hc. tauto. }
  destruct (Hcol16 "protein_g") as (lp & Ep & Lp & Np); [in_list|].
  destruct (Hcol16 "fiber_g") as (lf & Ef & Lf & Nf); [in_list|].
  destruct (Hcol16 "calories") as (lc & Ec & Lc & Nc); [in_list|].
  destruct (Hcol16 "sugars_g") as (ls & Es & Ls & Ns); [in_list|].
  destruct (Hcol16 "carbs_g") as (lb & Eb & Lb & Nb); [in_list|].
  set (df17 := add_missing df16 "nutrient_density" (density_column lp lf lc)).
  assert (Hext17 : extends df16 df17) by apply add_missing_extends.
  assert (Hwf17 : wf_frame df17).
  { apply add_missing_wf; [done|]. unfold density_column.
    rewrite !length_zip_with, length_map. lia. }
  set (df18 := add_missing df17 "sugar_to_carb_ratio" (ratio_column ls lb)).
  assert (Hext18 : extends df17 df18) by apply add_missing_extends.
  assert (Hwf18 : wf_frame df18).
  { apply add_missing_wf; [done|]. unfold ratio_column.
    rewrite length_zip_with, length_map. destruct Hext17 as [-> _]. lia. }
  set (df19 := fold_left (fill_default (CStr "unknown")) categorical_features df18).
  set (out := fold_left (fill_default (CNum (Finite 0))) binary_features df19).
  assert (Hext19 : extends df18 df19) by apply fold_fill_default_extends.
  assert (Hext20 : extends df19 out) by apply fold_fill_default_extends.
  pose proof (extends_trans _ _ _ Hext19 Hext20) as Hfrom18.
  pose proof (extends_trans _ _ _ Hext18 Hfrom18) as Hfrom17.
  pose proof (extends_trans _ _ _ Hext17 Hfrom17) as Hfrom16.
  pose proof (extends_trans _ _ _ Hext16 Hfrom16) as Hfrom.
  assert (Hn17 : nrows df17 = nrows df) by (destruct Hext17 as [-> _]; done).
  assert (Hn18 : nrows df18 = nrows df) by (destruct Hext18 as [-> _]; done).
  assert (Hn19 : nrows df19 = nrows df) by (destruct Hext19 as [-> _]; done).
  exists out. split.
  { unfold materialize_features. rewrite numerical_features_split, foldR_app.
    rewrite foldR_fill_numerical_plain by apply plain_features_plain.
    cbn [bindR foldR]. fold df16.
    rewrite (fill_numerical_density df16 lp lf lc) by done. cbn [bindR]. fold df17.
    rewrite (fill_numerical_ratio df17 ls lb) by (done || by apply Hext17).
    cbn [bindR]. reflexivity. }
  split; [by do 2 apply fold_fill_default_wf|].
  split; [apply Hfrom|].
  assert (Hlook16 : ∀ c, cols df !! c = None → c ∈ plain_features →
                         cols df16 !! c = Some (replicate (nrows df) (CNum (Finite 0)))).
  { intros c Hnone Hc. unfold df16. rewrite fold_fill_default_lookup, Hnone.
    by rewrite decide_True. }
  assert (Hnot16 : ∀ c, cols df !! c = None → c ∉ plain_features → cols df16 !! c = None).
  { intros c Hnone Hc. unfold df16. rewrite fold_fill_default_lookup, Hnone.
    by rewrite decide_False. }
  split.
  { intros c Hc. unfold has_column.
    assert (Hsome : is_Some (cols out !! c)); [|by destruct Hsome as [l ->]].
    rewrite numerical_features_split, !elem_of_app in Hc.
    destruct Hc as [[Hc|Hc]|[Hc|Hc]].
    - destruct (cols df16 !! c) as [l|] eqn:E.
      + exists l. by apply Hfrom16.
      + exfalso. unfold df16 in E. rewrite fold_fill_default_lookup in E.
        destruct (cols df !! c); [done|]. by rewrite decide_True in E.
    - apply elem_of_cons in Hc as [->|Hc]; [|apply elem_of_cons in Hc as [->|Hc]].
      + destruct (cols df17 !! "nutrient_density") as [l|] eqn:E.
        * exists l. by apply Hfrom17.
        * exfalso. unfold df17 in E. rewrite add_missing_lookup in E.
          destruct (cols df16 !! "nutrient_density"); [done|].
          by rewrite decide_True in E.
      + destruct (cols df18 !! "sugar_to_carb_ratio") as [l|] eqn:E.
        * exists l. by apply Hfrom18.
        * exfalso. unfold df18 in E. rewrite add_missing_lookup in E.
          destruct (cols df17 !! "sugar_to_carb_ratio"); [done|].
          by rewrite decide_True in E.
      + by apply elem_of_nil in Hc.
    - destruct (cols df19 !! c) as [l|] eqn:E.
      + exists l. by apply Hext20.
      + exfalso. unfold df19 in E. rewrite fold_fill_default_lookup in E.
        destruct (cols df18 !! c); [done|]. by rewrite decide_True in E.
    - unfold out. rewrite fold_fill_default_lookup.
      destruct (cols df19 !! c); [done|]. by rewrite decide_True. }
  split; [apply Hfrom|].
  split.
  { intros c Hc H1 H2 Hnone. apply Hfrom16, Hlook16; [done|].
    rewrite numerical_features_split, elem_of_app, !elem_of_cons, elem_of_nil in Hc.
    tauto. }
  split.
  { intros Hnone i Hi.
    assert (E17 : cols df17 !! "nutrient_density" = Some (density_column lp lf lc)).
    { unfold df17. rewrite add_missing_lookup, Hnot16; [by rewrite decide_True | done |].
      decide_list. }
    destruct (lookup_lt_is_Some_2 lp i) as [xp Hxp]; [lia|].
    destruct (lookup_lt_is_Some_2 lf i) as [xf Hxf]; [lia|].
    destruct (lookup_lt_is_Some_2 lc i) as [xc Hxc]; [lia|].
    rewrite (numeric_cell lp i xp Np Hxp) in Hxp.
    rewrite (numeric_cell lf i xf Nf Hxf) in Hxf.
    rewrite (numeric_cell lc i xc Nc Hxc) in Hxc.
    exists (num_of xp), (num_of xf), (num_of xc). unfold cell_at.
    rewrite (proj2 Hfrom16 _ _ Ep), (proj2 Hfrom16 _ _ Ef), (proj2 Hfrom16 _ _ Ec),
            (proj2 Hfrom17 _ _ E17).
    do 3 (split; [done|]).
    rewrite (density_column_lookup _ _ _ _ _ _ _ Hxp Hxf Hxc).
    split; [done|]. split.
    - intros qp qf qk -> -> -> Hk. simpl. by rewrite nonzero_divisor.
    - intros [-> |[-> | ->]]; [done | by destruct (num_of xp) |].
      by destruct (num_add (num_of xp) (num_of xf)). }
  split.
  { intros Hnone i Hi.
    assert (E18 : cols df18 !! "sugar_to_carb_ratio" = Some (ratio_column ls lb)).
    { unfold df18, df17. rewrite !add_missing_lookup, Hnot16; [|done|decide_list].
      rewrite decide_False by discriminate. by rewrite decide_True. }
    destruct (lookup_lt_is_Some_2 ls i) as [xs Hxs]; [lia|].
    destruct (lookup_lt_is_Some_2 lb i) as [xb Hxb]; [lia|].
    rewrite (numeric_cell ls i xs Ns Hxs) in Hxs.
    rewrite (numeric_cell lb i xb Nb Hxb) in Hxb.
    exists (num_of xs), (num_of xb). unfold cell_at.
    rewrite (proj2 Hfrom16 _ _ Es), (proj2 Hfrom16 _ _ Eb), (proj2 Hfrom18 _ _ E18).
    do 2 (split; [done|]).
    rewrite (ratio_column_lookup _ _ _ _ _ Hxs Hxb).
    split; [done|]. split.
    - intros qs qk -> -> Hk. simpl. by rewrite nonzero_divisor.
    - intros [-> | ->]; [done | by destruct (num_of xs)]. }
  split.
  { intros c Hc Hnone. apply Hext20. unfold df19.
    rewrite fold_fill_default_lookup, Hn18.
    unfold categorical_features in Hc. rewrite elem_of_cons, elem_of_nil in Hc.
    destruct Hc as [->|[]].
    unfold df18, df17. rewrite !add_missing_lookup, Hnot16; [|done|decide_list].
    rewrite !decide_False by discriminate. by rewrite decide_True by in_list. }
  { intros c Hc Hnone. unfold out. rewrite fold_fill_default_lookup, Hn19.
    assert (Hnone19 : cols df19 !! c = None).
    { unfold df19. rewrite fold_fill_default_lookup.
      unfold df18, df17. rewrite !add_missing_lookup.
      unfold binary_features in Hc. rewrite !elem_of_cons, elem_of_nil in Hc.
      destruct Hc as [->|[->|[->|[]]]].
      all: rewrite Hnot16; [|done|decide_list].
      all: rewrite !decide_False by discriminate.
      all: rewrite decide_False; [done|decide_list]. }
    rewrite Hnone19. by rewrite decide_True. }
Qed.


(** ** The process *)

Lemma phases_app t1 t2 : phases (t1 ++ t2) = phases t1 ++ phases t2.
Proof. unfold phases. apply omap_app. Qed.

Lemma opened_app t1 t2 : opened (t1 ++ t2) = opened t1 ++ opened t2.
Proof. unfold opened. apply omap_app. Qed.

Lemma stdout_of_app t1 t2 : stdout_of (t1 ++ t2) = stdout_of t1 ++ stdout_of t2.
Proof.
  induction t1 as [|e t1 IH]; simpl; [done|]. destruct e; simpl; by rewrite ?IH.
Qed.

Lemma stderr_of_app t1 t2 : stderr_of (t1 ++ t2) = stderr_of t1 ++ stderr_of t2.
Proof.
  induction t1 as [|e t1 IH]; simpl; [done|]. destruct e; simpl; by rewrite ?IH.
Qed.

Lemma read_request_run w :
  read_request w
  = if stdin_isatty w
    then (Ok test_input, [EvIsatty; EvStderr (Notice "No input provided. Using test data...")])
    else (json_loads (stdin w), [EvIsatty; EvStdinRead]).
Proof.
  unfold read_request, bindM, isatty. destruct (stdin_isatty w); [done|].
  unfold stdin_read, lift. by destruct (json_loads (stdin w)).
Qed.

Lemma handle_failure_run {A} (e : exn) w :
  @handle_failure A e w
  = match e with
    | SystemExit _ => (Raise e, [])
    | JSONDecodeError msg =>
        (Raise (SystemExit 1), [EvStderr (ErrorObject ("Invalid JSON input: " ++ msg))])
    | _ => (Raise (SystemExit 1), [EvStderr (ErrorObject ("Prediction failed: " ++ py_str e))])
    end.
Proof. by destruct e. Qed.

(** The loaders, case by case. *)
Lemma load_models_run w :
  load_models w
  = match rf_model_pkl w with
    | None =>
        (Raise (SystemExit 1),
         [EvOpen "ml/rf_model.pkl";
          EvStderr (ErrorObject ("Model files not found. Run train.py first. "
                                 ++ py_str (FileNotFoundError "ml/rf_model.pkl")))])
    | Some model =>
        match preprocessor_pkl w with
        | None =>
            (Raise (SystemExit 1),
             [EvOpen "ml/rf_model.pkl"; EvOpen "ml/preprocessor.pkl";
              EvStderr (ErrorObject ("Model files not found. Run train.py first. "
                                     ++ py_str (FileNotFoundError "ml/preprocessor.pkl")))])
        | Some preprocessor =>
            match feature_selector_pkl w with
            | None =>
                (Raise (SystemExit 1),
                 [EvOpen "ml/rf_model.pkl"; EvOpen "ml/preprocessor.pkl";
                  EvOpen "ml/feature_selector.pkl";
                  EvStderr (ErrorObject
                              ("Model files not found. Run train.py first. "
                               ++ py_str (FileNotFoundError "ml/feature_selector.pkl")))])
            | Some feature_selector =>
                match feature_names_json w with
                | None =>
                    (Raise (SystemExit 1),
                     map EvOpen artifact_files ++
                     [EvStderr (ErrorObject
                                  ("Model files not found. Run train.py first. "
                                   ++ py_str (FileNotFoundError "ml/feature_names.json")))])
                | Some (Malformed msg) =>
                    (Raise (JSONDecodeError msg), map EvOpen artifact_files)
                | Some (Aborted failure) =>
                    (Raise (abort_exn failure), map EvOpen artifact_files)
                | Some (Valid feature_info) =>
                    (Ok (model, preprocessor, feature_selector, feature_info),
                     map EvOpen artifact_files)
                end
            end
        end
    end.
Proof.
  unfold load_models, try_except, bindM, open_file.
  destruct (rf_model_pkl w); [|done].
  destruct (preprocessor_pkl w); [|done].
  destruct (feature_selector_pkl w); [|done].
  destruct (feature_names_json w) as [[v|msg|[msg|msg|msg]]|]; done.
Qed.

Lemma load_food_database_run w :
  load_food_database w
  = match processed_data_csv w with
    | Some df => (Ok df, [EvOpen "ml/processed_data.csv"])
    | None =>
        match usda_foods_csv w with
        | Some df => (Ok df, map EvOpen catalog_files)
        | None =>
            (Raise (SystemExit 1),
             map EvOpen catalog_files ++
             [EvStderr (ErrorObject ("Food database not found: "
                                     ++ py_str (FileNotFoundError "data/usda-foods.csv")))])
        end
    end.
Proof.
  unfold load_food_database, try_except, open_file.
  destruct (processed_data_csv w); [done|].
  destruct (usda_foods_csv w); done.
Qed.

(** What [predict_top_meals] does after loading: a result and the calls
    of the fitted objects made on the way, in their order. *)
Lemma predict_top_meals_run argsort user_input top_k w :
  ∃ res calls,
    calls `prefix_of` scoring_calls ∧
    predict_top_meals argsort user_input top_k w
    = match load_models w with
      | (Raise e, t1) => (Raise e, t1)
      | (Ok _, t1) =>
          match load_food_database w with
          | (Raise e, t2) => (Raise e, t1 ++ t2)
          | (Ok _, t2) => (res, t1 ++ t2 ++ calls)
          end
      end.
Proof.
  unfold predict_top_meals. unfold bindM at 1.
  destruct (load_models w) as [[[[[model preprocessor] feature_selector] feature_info]|e] t1].
  2: { exists (Raise e), []. split; [apply prefix_nil | done]. }
  unfold bindM at 1.
  destruct (load_food_database w) as [[food_db|e] t2].
  2: { exists (Raise e), []. split; [apply prefix_nil | done]. }
  unfold bindM, lift, retM, call.
  repeat match goal with
         | |- context [match ?x with Ok _ => _ | Raise _ => _ end] => destruct x
         | |- context [if ?x then _ else _] => destruct x
         end.
  all: cbn [app]; eexists _, _; (split; [|reflexivity]).
  all: by eexists.
Qed.

Lemma main_run argsort w :
  main argsort w
  = match read_request w with
    | (Raise e, t0) => let '(r, t') := handle_failure e w in (r, t0 ++ t')
    | (Ok user_input, t0) =>
        match dict_get user_input "top_k" (JInt 5) with
        | Raise e => let '(r, t') := handle_failure e w in (r, t0 ++ t')
        | Ok top_k =>
            match predict_top_meals argsort user_input top_k w with
            | (Raise e, t1) => let '(r, t') := handle_failure e w in (r, t0 ++ t1 ++ t')
            | (Ok result, t1) => (Raise (SystemExit 0), t0 ++ t1 ++ [EvStdout result])
            end
        end
    end.
Proof.
  unfold main, try_except. unfold bindM at 1.
  destruct (read_request w) as [[user_input|e] t0]; [|done].
  unfold bindM at 1, lift at 1.
  destruct (dict_get user_input "top_k" (JInt 5)) as [top_k|e].
  2: { rewrite app_nil_r. by destruct (handle_failure e w). }
  unfold bindM at 1.
  destruct (predict_top_meals argsort user_input top_k w) as [[result|e] t1].
  - unfold bindM, emit, sys_exit, raise, lift, handle_failure. simpl.
    by rewrite app_nil_r.
  - simpl. destruct (handle_failure e w). by rewrite <- app_assoc.
Qed.

Lemma handle_failure_cases {A} (e : exn) w :
  (∃ code, e = SystemExit code ∧ @handle_failure A e w = (Raise e, [])) ∨
  (∃ line, @handle_failure A e w = (Raise (SystemExit 1), [EvStderr (ErrorObject line)])).
Proof. destruct e; simpl; eauto. Qed.

Lemma dict_get_cases d k default :
  (∃ v, dict_get d k default = Ok v) ∨
  (∃ msg, dict_get d k default = Raise (AttributeError msg)).
Proof. destruct d; simpl; eauto. Qed.

Lemma scoring_calls_prefix calls :
  calls `prefix_of` scoring_calls →
  calls = [] ∨ calls = [EvTransform] ∨ calls = [EvTransform; EvFeatureSelect]
  ∨ calls = scoring_calls.
Proof.
  intros [k Hk]. unfold scoring_calls in *.
  destruct calls as [|e1 calls]; [by left|]. simpl in Hk. injection Hk as <- Hk.
  destruct calls as [|e2 calls]; [by right; left|]. simpl in Hk. injection Hk as <- Hk.
  destruct calls as [|e3 calls]; [by right; right; left|]. simpl in Hk.
  injection Hk as <- Hk.
  destruct calls; [by right; right; right | discriminate].
Qed.

(** Every way a run of [main] can go, by the first step that fails. *)
Ltac run_cases argsort w :=
  let top_k := fresh "top_k" in
  let msg := fresh "msg" in
  let res := fresh "res" in
  let calls := fresh "calls" in
  let Hdict := fresh "Hdict" in
  let Hcalls := fresh "Hcalls" in
  let Hrun := fresh "Hrun" in
  let Hfail := fresh "Hfail" in
  let e := fresh "e" in
  let line := fresh "line" in
  let code := fresh "code" in
  let ui := fresh "user_input" in
  unfold trace, outcome; rewrite (main_run argsort w), read_request_run;
  destruct w as [tty doc m p s n d u]; cbn [stdin_isatty stdin];
  destruct tty; [|destruct doc as [ui|msg|[msg|msg|msg]]]; cbn [json_loads abort_exn];
  [ change (dict_get test_input "top_k" (JInt 5)) with (Ok (JInt 5))
  | destruct (dict_get_cases ui "top_k" (JInt 5)) as [[top_k Hdict]|[msg Hdict]];
    rewrite Hdict
  | .. ];
  cbn [handle_failure is_Exception bindM emit sys_exit raise lift app py_str abort_exn];
  try match goal with
      | |- context [predict_top_meals argsort ?ui ?k ?w] =>
          destruct (predict_top_meals_run argsort ui k w) as (res & calls & Hcalls & Hrun);
          rewrite Hrun, load_models_run, load_food_database_run;
          cbn [rf_model_pkl preprocessor_pkl feature_selector_pkl feature_names_json
               processed_data_csv usda_foods_csv];
          destruct m; [destruct p; [destruct s; [destruct n as [[?|?|[?|?|?]]|];
            [destruct d; [|destruct u]|..]|]|]|];
          clear Hrun;
          try (apply scoring_calls_prefix in Hcalls as [->|[->|[->| ->]]])
      end;
  try match goal with
      | |- context [match ?r with Ok _ => _ | Raise _ => _ end] =>
          is_var r; destruct r as [?|e]
      end;
  cbn [handle_failure is_Exception bindM emit sys_exit raise lift app py_str abort_exn];
  try match goal with
      | |- context [@handle_failure ?A ?x ?y] =>
          is_var x;
          destruct (@handle_failure_cases A x y) as [(code & -> & Hfail)|(line & Hfail)];
          rewrite Hfail; clear Hfail
      end;
  cbn [handle_failure is_Exception bindM emit sys_exit raise lift app py_str map
       artifact_files catalog_files scoring_calls fst snd abort_exn].

(** C5 (as amended).  In every run the request is obtained first, the
    files are opened next, the fitted objects are called after that and the
    response is written last; no file is opened twice; the fitted objects
    are called only when the four artifacts and a catalog have been opened;
    and when a required file is absent the process exits with status 1,
    having written nothing to standard output and called no fitted object.
    A piped request is read from standard input before any file is
    opened. *)
Theorem files_are_loaded_once_before_scoring (argsort : list Q → list nat) (w : World) :
  let t := trace (main argsort) w in
  StronglySorted le (phases t) ∧
  NoDup (opened t) ∧
  (Exists (λ e, is_scoring e = true) t →
   artifact_files ++ ["ml/processed_data.csv"] `prefix_of` opened t) ∧
  (missing_file w = true →
   exit_status (outcome (main argsort) w) = 1%Z ∧
   stdout_of t = [] ∧
   Forall (λ e, is_scoring e = false) t) ∧
  (stdin_isatty w = false → ∃ t', t = EvIsatty :: EvStdinRead :: t').
Proof.
  cbv zeta. run_cases argsort w.
  all: split; [cbn; repeat constructor|].
  all: split; [cbn; apply (bool_decide_unpack _); vm_compute; exact I|].
  all: split;
    [ intros H;
      first [ by eexists
            | exfalso; repeat (apply Exists_cons in H as [H|H]; [by simpl in H|]);
              by apply Exists_nil in H ]|].
  all: split;
    [ cbn; intros Hm;
      first [ discriminate Hm
            | split; [reflexivity | split; [reflexivity | by repeat constructor]] ]
    | cbn; intros Ht; first [ discriminate Ht | by eexists ] ].
Qed.

Lemma load_models_ok w artifacts :
  outcome load_models w = Ok artifacts →
  load_models w = (Ok artifacts, map EvOpen artifact_files).
Proof.
  unfold outcome. rewrite load_models_run.
  destruct (rf_model_pkl w); [|done].
  destruct (preprocessor_pkl w); [|done].
  destruct (feature_selector_pkl w); [|done].
  destruct (feature_names_json w) as [[v|msg|failure]|]; simpl; congruence.
Qed.

Lemma load_food_database_ok w food_db :
  outcome load_food_database w = Ok food_db →
  ∃ files, files `prefix_of` catalog_files ∧
           load_food_database w = (Ok food_db, map EvOpen files).
Proof.
  unfold outcome. rewrite load_food_database_run.
  destruct (processed_data_csv w).
  - simpl. intros [= <-]. exists ["ml/processed_data.csv"]. split; [by eexists | done].
  - destruct (usda_foods_csv w); simpl; [|done].
    intros [= <-]. exists catalog_files. split; [done | done].
Qed.

Lemma only_opens files :
  stdout_of (map EvOpen files) = [] ∧ stderr_of (map EvOpen files) = [] ∧
  Forall (λ e, is_scoring e = false) (map EvOpen files).
Proof. induction files as [|f files (H1 & H2 & H3)]; simpl; auto. Qed.

(** C4.  When the request is a JSON object, the files load and the
    constraint filter leaves no item, the process writes one response to
    standard output, with no recommendation and a guidance message that is
    not empty, reports no error, calls no fitted object and exits with
    status 0. *)
Theorem no_eligible_items_is_a_normal_response
    (argsort : list Q → list nat) (w : World) (fields : list (string * json))
    (artifacts : Classifier * Preprocessor * Selector * json)
    (food_db eligible_foods : DataFrame) (user_profile : json) :
  outcome read_request w = Ok (JObj fields) →
  outcome load_models w = Ok artifacts →
  outcome load_food_database w = Ok food_db →
  dict_get (JObj fields) "userProfile" (JObj []) = Ok user_profile →
  filter_by_user_constraints food_db user_profile = Ok eligible_foods →
  nrows eligible_foods = 0 →
  let t := trace (main argsort) w in
  ∃ message,
    stdout_of t = [NoEligible message] ∧
    recommendations (NoEligible message) = [] ∧
    message ≠ "" ∧
    exit_status (outcome (main argsort) w) = 0%Z ∧
    (∀ line, ErrorObject line ∉ stderr_of t) ∧
    Forall (λ e, is_scoring e = false) t.
Proof.
  intros Hreq Hmodels Hdb Hprofile Hfilter Hempty. cbv zeta.
  apply load_models_ok in Hmodels.
  apply load_food_database_ok in Hdb as (files & _ & Hdb).
  assert (Hpredict : ∀ top_k,
            predict_top_meals argsort (JObj fields) top_k w
            = (Ok (NoEligible
                 "No foods match your dietary restrictions and budget. Try relaxing some constraints."),
               map EvOpen artifact_files ++ map EvOpen files)).
  { intros top_k. unfold predict_top_meals. unfold bindM at 1. rewrite Hmodels.
    destruct artifacts as [[[model preprocessor] feature_selector] feature_info].
    unfold bindM at 1. rewrite Hdb.
    unfold bindM at 1, lift at 1. rewrite Hprofile.
    unfold bindM at 1, lift at 1. cbn [dict_get].
    unfold bindM at 1, lift at 1. rewrite Hfilter. rewrite Hempty.
    cbn [Nat.eqb retM]. by rewrite !app_nil_r. }
  destruct (only_opens artifact_files) as (O1 & E1 & S1).
  destruct (only_opens files) as (O2 & E2 & S2).
  unfold trace, outcome in *. rewrite main_run. rewrite read_request_run in *.
  eexists.
  destruct (stdin_isatty w); simpl in Hreq.
  - unfold test_input in *. injection Hreq as <-.
    cbn [dict_get]. rewrite Hpredict. cbn [fst snd].
    rewrite !stdout_of_app, !stderr_of_app, O1, O2, E1, E2. cbn.
    split; [reflexivity|]. split; [done|]. split; [done|]. split; [done|].
    split.
    + intros line Hin. apply elem_of_cons in Hin as [Hin|Hin]; [discriminate|].
      by apply elem_of_nil in Hin.
    + repeat constructor. repeat (apply Forall_app; split); try done. by repeat constructor.
  - rewrite Hreq. cbn [dict_get]. rewrite Hpredict. cbn [fst snd].
    rewrite !stdout_of_app, !stderr_of_app, O1, O2, E1, E2. cbn.
    split; [reflexivity|]. split; [done|]. split; [done|]. split; [done|].
    split; [intros line; apply not_elem_of_nil|].
    repeat constructor. repeat (apply Forall_app; split); try done. by repeat constructor.
Qed.


Lemma load_models_piped w request : load_models (piped w request) = load_models w.
Proof. by rewrite !load_models_run. Qed.

Lemma load_food_database_piped w request :
  load_food_database (piped w request) = load_food_database w.
Proof. by rewrite !load_food_database_run. Qed.

Lemma predict_top_meals_piped argsort user_input top_k w request :
  predict_top_meals argsort user_input top_k (piped w request)
  = predict_top_meals argsort user_input top_k w.
Proof.
  unfold predict_top_meals, bindM. rewrite load_models_piped.
  destruct (load_models w) as [[[[[model preprocessor] feature_selector] feature_info]|e] t1];
    [|done].
  rewrite load_food_database_piped.
  destruct (load_food_database w) as [[food_db|e] t2]; [|done].
  unfold lift.
  destruct (dict_get user_input "userProfile" (JObj [])) as [user_profile|e]; [|done].
  destruct (dict_get user_input "query" (JStr "")) as [query|e]; [|done].
  destruct (filter_by_user_constraints food_db user_profile) as [eligible_foods|e]; [|done].
  by destruct (nrows eligible_foods =? 0)%nat.
Qed.

Lemma handle_failure_piped {A} (e : exn) w request :
  @handle_failure A e (piped w request) = handle_failure e w.
Proof. by destruct e. Qed.

Lemma predict_never_reads_stdin argsort user_input top_k w :
  EvStdinRead ∉ (predict_top_meals argsort user_input top_k w).2.
Proof.
  destruct (predict_top_meals_run argsort user_input top_k w)
    as (res & calls & Hcalls & ->).
  rewrite load_models_run, load_food_database_run.
  apply scoring_calls_prefix in Hcalls as [->|[->|[->| ->]]].
  all: destruct (rf_model_pkl w); [destruct (preprocessor_pkl w);
         [destruct (feature_selector_pkl w);
          [destruct (feature_names_json w) as [[?|?|[?|?|?]]|];
           [destruct (processed_data_csv w); [|destruct (usda_foods_csv w)]|..]|]|]|].
  all: unfold scoring_calls; cbn; rewrite ?not_elem_of_cons; repeat split;
    try discriminate; apply not_elem_of_nil.
Qed.

(** C10.  At a terminal the process reads nothing from standard input: it
    prints a notice to standard error and goes on with the built-in
    request (goal "Weight Loss", restrictions ["Vegan"], weekly budget 75,
    top_k 5).  From there on the run is the run of the same deployment
    with that request piped in: the same events follow, and the outcome is
    the same. *)
Theorem terminal_uses_test_input
    (argsort : list Q → list nat) (w : World) (request : document) :
  stdin_isatty w = true →
  json_loads request = Ok test_input →
  ∃ rest,
    (trace (main argsort) w
     = EvIsatty :: EvStderr (Notice "No input provided. Using test data...") :: rest) ∧
    (trace (main argsort) (piped w request) = EvIsatty :: EvStdinRead :: rest) ∧
    (EvStdinRead ∉ trace (main argsort) w) ∧
    outcome (main argsort) w = outcome (main argsort) (piped w request) ∧
    dict_get test_input "top_k" (JInt 5) = Ok (JInt 5) ∧
    ∃ profile,
      dict_get test_input "userProfile" (JObj []) = Ok profile ∧
      dict_get profile "primaryGoal" (JStr "") = Ok (JStr "Weight Loss") ∧
      dict_get profile "dietaryRestrictions" (JArr []) = Ok (JArr [JStr "Vegan"]) ∧
      dict_get profile "weeklyBudget" (JInt 100) = Ok (JInt 75).
Proof.
  intros Htty Hreq. unfold trace, outcome.
  rewrite !main_run, !read_request_run, Htty.
  change (stdin_isatty (piped w request)) with false.
  change (stdin (piped w request)) with request.
  rewrite Hreq. change (dict_get test_input "top_k" (JInt 5)) with (Ok (JInt 5)).
  cbv beta iota. rewrite predict_top_meals_piped.
  pose proof (predict_never_reads_stdin argsort test_input (JInt 5) w) as Hnever.
  destruct (predict_top_meals argsort test_input (JInt 5) w) as [[result|e] t1];
    cbn [snd] in Hnever.
  - eexists. split; [reflexivity|]. split; [reflexivity|]. cbn [fst snd app].
    split.
    + rewrite !not_elem_of_cons, not_elem_of_app, !not_elem_of_cons.
      repeat split; try discriminate; [done | apply not_elem_of_nil].
    + split; [done|]. split; [done|]. eexists. repeat split; reflexivity.
  - rewrite handle_failure_piped.
    destruct (@handle_failure_cases unit e w) as [(code & -> & ->)|(line & ->)].
    + eexists. split; [reflexivity|]. split; [reflexivity|]. cbn [fst snd app].
      split.
      * rewrite !not_elem_of_cons, not_elem_of_app.
        repeat split; try discriminate; [done | apply not_elem_of_nil].
      * split; [done|]. split; [done|]. eexists. repeat split; reflexivity.
    + eexists. split; [reflexivity|]. split; [reflexivity|]. cbn [fst snd app].
      split.
      * rewrite !not_elem_of_cons, not_elem_of_app, !not_elem_of_cons.
        repeat split; try discriminate; [done | apply not_elem_of_nil].
      * split; [done|]. split; [done|]. eexists. repeat split; reflexivity.
Qed.

(* ===================================================================== *)
(** * The properties on the sample data *)
(* ===================================================================== *)

Lemma sample_catalog_wf : wf_frame sample_catalog.
Proof. unfold wf_frame. apply (bool_decide_unpack _). vm_compute. exact I. Defined.

(** A vegan profile with a budget of 75 on the sample catalog. *)
Lemma filter_keeps_only_allowed_items_witness :
  ∃ out,
    filter_by_user_constraints sample_catalog (JObj sample_profile) = Ok out ∧
    wf_frame out ∧
    (∀ c, has_column out c = has_column sample_catalog c) ∧
    (assoc "weeklyBudget" sample_profile = None →
     (inject_Z 75 / 21)%Q = (inject_Z 100 / 21)%Q) ∧
    ∀ i, i < nrows out →
      (∀ label slug flag,
         (label, slug, flag) ∈ recognized →
         JStr label ∈ [JStr "vegan"] ∨ JStr slug ∈ [JStr "vegan"] →
         has_column sample_catalog flag = true →
         ∃ x, cell_at out flag i = Some x ∧ cell_eq 1 x = true) ∧
      (has_column sample_catalog "cost_per_serving" = true →
       ∃ q, cell_at out "cost_per_serving" i = Some (CNum (Finite q)) ∧
            (q <= inject_Z 75 / 21)%Q).
Proof.
  apply (filter_keeps_only_allowed_items sample_catalog sample_profile
           [JStr "vegan"] (JInt 75) (inject_Z 75 / 21)%Q).
  - exact sample_catalog_wf.
  - vm_compute. reflexivity.
  - reflexivity.
  - reflexivity.
  - reflexivity.
Defined.

(** C1, as stated, fails.  "VEGAN" matches the recognized restriction
    without regard to case and the sample catalog has the vegan flag, yet
    the filter returns the second item, chicken breast, whose flag is 0. *)
Lemma uppercase_restriction_is_not_applied :
  dict_get shouting_profile "dietaryRestrictions" (JArr []) = Ok (JArr [JStr "VEGAN"]) ∧
  matches_caseless "VEGAN" "Vegan" "vegan" = true ∧
  has_column sample_catalog "is_vegan" = true ∧
  ∃ out,
    filter_by_user_constraints sample_catalog shouting_profile = Ok out ∧
    1 < nrows out ∧
    cell_at out "description" 1 = Some (CStr "Chicken breast") ∧
    cell_at out "is_vegan" 1 = Some (CNum (Finite 0)) ∧
    cell_eq 1 (CNum (Finite 0)) = false.
Proof.
  split; [reflexivity|]. split; [reflexivity|]. split; [reflexivity|].
  eexists. split; [vm_compute; reflexivity|].
  split; [vm_compute; lia|]. split; [reflexivity|]. split; reflexivity.
Qed.

(** Muscle Gain on the sample catalog, whose first item has 22 g of protein. *)
Lemma adjust_for_goals_rule_table_witness :
  ∃ goal out,
    dict_get (JObj sample_profile) "primaryGoal" (JStr "") = Ok goal ∧
    adjust_for_goals sample_scores sample_catalog (JObj sample_profile) = Ok out ∧
    length out = length sample_scores ∧
    ∀ i p, sample_scores !! i = Some p →
      ∃ kcal prot sod fib o,
        cell_at sample_catalog "calories" i = Some (CNum kcal) ∧
        cell_at sample_catalog "protein_g" i = Some (CNum prot) ∧
        cell_at sample_catalog "sodium_mg" i = Some (CNum sod) ∧
        cell_at sample_catalog "fiber_g" i = Some (CNum fib) ∧
        out !! i = Some o ∧
        (o == clip (p * multiplier goal kcal prot sod fib) 0 1)%Q ∧
        (0 <= o <= 1)%Q ∧
        (is_str "Muscle Gain" goal = true → num_eq prot 22 = true → (0 <= p)%Q →
         (o == Qmin (p * 1.3) 1)%Q).
Proof.
  apply (adjust_for_goals_rule_table sample_scores sample_catalog sample_profile).
  - exact sample_catalog_wf.
  - reflexivity.
  - vm_compute. reflexivity.
  - vm_compute. reflexivity.
  - vm_compute. reflexivity.
  - vm_compute. reflexivity.
Defined.

(** The four sample items, ranked with the insertion sort, five asked for. *)
Lemma ranking_sorted_and_truncated_witness :
  ∃ recs user_goal,
    rank_and_explain argsort_insertion sample_scores sample_catalog
      (JObj sample_profile) (JStr "dinner") (JInt 5)
    = Ok (Ranked recs (JStr "dinner") (nrows sample_catalog) "1.0" user_goal) ∧
    StronglySorted descending recs ∧
    length recs = Nat.min (Z.to_nat 5) (nrows sample_catalog) ∧
    ((nrows sample_catalog ≤ Z.to_nat 5)%nat →
     length recs = nrows sample_catalog ∧
     ∀ descriptions, cols sample_catalog !! "description" = Some descriptions →
                     map name recs ≡ₚ descriptions).
Proof.
  apply (ranking_sorted_and_truncated argsort_insertion
           argsort_insertion_perm argsort_insertion_ascending
           sample_scores sample_catalog sample_profile (JStr "dinner") 5).
  - exact sample_catalog_wf.
  - vm_compute. reflexivity.
  - reflexivity.
  - reflexivity.
Defined.

(** A budget of 1 leaves nothing of the sample catalog. *)
Lemma no_eligible_items_is_a_normal_response_witness :
  ∃ message,
    stdout_of (trace (main argsort_insertion) frugal_world) = [NoEligible message] ∧
    recommendations (NoEligible message) = [] ∧
    message ≠ "" ∧
    exit_status (outcome (main argsort_insertion) frugal_world) = 0%Z ∧
    (∀ line, ErrorObject line ∉ stderr_of (trace (main argsort_insertion) frugal_world)) ∧
    Forall (λ e, is_scoring e = false) (trace (main argsort_insertion) frugal_world).
Proof.
  apply (no_eligible_items_is_a_normal_response argsort_insertion frugal_world
           [ ("userProfile", JObj [ ("weeklyBudget", JInt 1) ]) ]
           (sample_model, sample_preprocessor, sample_selector, JArr [])
           sample_catalog
           (select_rows sample_catalog [false; false; false; false])
           (JObj [ ("weeklyBudget", JInt 1) ])).
  - reflexivity.
  - reflexivity.
  - reflexivity.
  - reflexivity.
  - vm_compute. reflexivity.
  - reflexivity.
Defined.

(** C5, as stated, fails.  In a deployment without the classifier file the
    process exits with status 1, but only after it has read the request
    from standard input: the read comes before the first file is opened. *)
Lemma request_is_read_before_loading_fails :
  missing_file world_without_model = true ∧
  stdin_isatty world_without_model = false ∧
  exit_status (outcome (main argsort_insertion) world_without_model) = 1%Z ∧
  trace (main argsort_insertion) world_without_model
  = [ EvIsatty; EvStdinRead; EvOpen "ml/rf_model.pkl";
      EvStderr (ErrorObject
        "Model files not found. Run train.py first. [Errno 2] No such file or directory: 'ml/rf_model.pkl'") ] ∧
  EvStdinRead ∈ trace (main argsort_insertion) world_without_model.
Proof.
  split; [reflexivity|]. split; [reflexivity|]. split; [reflexivity|].
  split; [reflexivity|]. vm_compute. right. left.
Qed.

(** Two tied items under the insertion sort, which is stable. *)
Lemma ranker_reverses_ties_witness :
  StronglySorted (flip (ascending tied_scores)) [1; 0] ∧
  ∀ i j b,
    i < j < length tied_scores →
    (key tied_scores i == key tied_scores j)%Q →
    [1; 0] !! b = Some i →
    ∃ a, a < b ∧ [1; 0] !! a = Some j.
Proof.
  destruct (ranker_reverses_ties argsort_insertion
              argsort_insertion_perm argsort_insertion_ascending
              tied_scores (JInt 5) [1; 0]) as (Hsorted & _ & Hties).
  - reflexivity.
  - split; [exact Hsorted|]. apply Hties. apply argsort_insertion_stable.
Defined.

(** C6, as stated, fails.  Of two items with the same adjusted probability
    the ranker lists the later one first. *)
Lemma later_item_wins_a_tie :
  (key tied_scores 0 == key tied_scores 1)%Q ∧
  ∃ top,
    top_indices argsort_insertion tied_scores (JInt 5) = Ok top ∧
    top !! 0 = Some 1 ∧
    top !! 1 = Some 0.
Proof.
  split; [reflexivity|]. exists [1; 0]. split; [reflexivity|]. split; reflexivity.
Qed.

(** The sample catalog lacks both derived features, the category default
    is not needed, and the nut-free flag is missing. *)
Lemma materialize_features_fills_defaults_witness :
  ∃ out,
    materialize_features sample_catalog = Ok out ∧
    wf_frame out ∧
    nrows out = nrows sample_catalog ∧
    (∀ c, c ∈ numerical_features ++ categorical_features ++ binary_features →
          has_column out c = true) ∧
    (∀ c l, cols sample_catalog !! c = Some l → cols out !! c = Some l) ∧
    (∀ c, c ∈ numerical_features →
          c ≠ "nutrient_density" → c ≠ "sugar_to_carb_ratio" →
          cols sample_catalog !! c = None →
          cols out !! c = Some (replicate (nrows sample_catalog) (CNum (Finite 0)))) ∧
    (cols sample_catalog !! "nutrient_density" = None →
     ∀ i, i < nrows sample_catalog →
       ∃ p f k : num,
         cell_at out "protein_g" i = Some (CNum p) ∧
         cell_at out "fiber_g" i = Some (CNum f) ∧
         cell_at out "calories" i = Some (CNum k) ∧
         cell_at out "nutrient_density" i
         = Some (CNum (num_div (num_add p f) (num_add k (Finite 1)))) ∧
         (∀ qp qf qk : Q,
            p = Finite qp → f = Finite qf → k = Finite qk → ¬ (qk + 1 == 0)%Q →
            cell_at out "nutrient_density" i
            = Some (CNum (Finite ((qp + qf) / (qk + 1))))) ∧
         (p = NaN ∨ f = NaN ∨ k = NaN →
          cell_at out "nutrient_density" i = Some (CNum NaN))) ∧
    (cols sample_catalog !! "sugar_to_carb_ratio" = None →
     ∀ i, i < nrows sample_catalog →
       ∃ s k : num,
         cell_at out "sugars_g" i = Some (CNum s) ∧
         cell_at out "carbs_g" i = Some (CNum k) ∧
         cell_at out "sugar_to_carb_ratio" i
         = Some (CNum (num_div s (num_add k (Finite 1)))) ∧
         (∀ qs qk : Q,
            s = Finite qs → k = Finite qk → ¬ (qk + 1 == 0)%Q →
            cell_at out "sugar_to_carb_ratio" i = Some (CNum (Finite (qs / (qk + 1))))) ∧
         (s = NaN ∨ k = NaN →
          cell_at out "sugar_to_carb_ratio" i = Some (CNum NaN))) ∧
    (∀ c, c ∈ categorical_features → cols sample_catalog !! c = None →
          cols out !! c = Some (replicate (nrows sample_catalog) (CStr "unknown"))) ∧
    (∀ c, c ∈ binary_features → cols sample_catalog !! c = None →
          cols out !! c = Some (replicate (nrows sample_catalog) (CNum (Finite 0)))).
Proof.
  apply (materialize_features_fills_defaults sample_catalog).
  - exact sample_catalog_wf.
  - right. repeat constructor.
Defined.



(** A matrix of two rows whose least entry is -2. *)
Lemma nonneg_shift_is_batch_relative_witness :
  ∃ lowest X_nonneg,
    matrix_min sample_matrix = Ok lowest ∧
    nonneg_shift sample_matrix = Ok X_nonneg ∧
    lowest ∈ concat sample_matrix ∧
    Forall (λ x, lowest <= x)%Q (concat sample_matrix) ∧
    X_nonneg = map (map (λ x, x - lowest + epsilon)%Q) sample_matrix ∧
    epsilon = (1 # 1000000000)%Q ∧
    Forall (λ y, epsilon <= y ∧ 0 < y)%Q (concat X_nonneg) ∧
    Exists (λ y, y == epsilon)%Q (concat X_nonneg).
Proof.
  apply (nonneg_shift_is_batch_relative sample_matrix).
  discriminate.
Defined.

(** The sample deployment started from a terminal. *)
Lemma terminal_uses_test_input_witness :
  ∃ rest,
    (trace (main argsort_insertion) (at_terminal sample_world)
     = EvIsatty :: EvStderr (Notice "No input provided. Using test data...") :: rest) ∧
    (trace (main argsort_insertion) (piped (at_terminal sample_world) (Valid test_input))
     = EvIsatty :: EvStdinRead :: rest) ∧
    (EvStdinRead ∉ trace (main argsort_insertion) (at_terminal sample_world)) ∧
    outcome (main argsort_insertion) (at_terminal sample_world)
    = outcome (main argsort_insertion) (piped (at_terminal sample_world) (Valid test_input)) ∧
    dict_get test_input "top_k" (JInt 5) = Ok (JInt 5) ∧
    ∃ profile,
      dict_get test_input "userProfile" (JObj []) = Ok profile ∧
      dict_get profile "primaryGoal" (JStr "") = Ok (JStr "Weight Loss") ∧
      dict_get profile "dietaryRestrictions" (JArr []) = Ok (JArr [JStr "Vegan"]) ∧
      dict_get profile "weeklyBudget" (JInt 100) = Ok (JInt 75).
Proof.
  apply (terminal_uses_test_input argsort_insertion (at_terminal sample_world)
           (Valid test_input)).
  - reflexivity.
  - reflexivity.
Defined.

(** The whole service on the sample deployment: two vegan items within the
    budget, the one with 22 g of protein first, with its five reasons. *)
Example sample_run :
  exit_status (outcome (main argsort_insertion) sample_world) = 0%Z ∧
  ∃ recs,
    stdout_of (trace (main argsort_insertion) sample_world)
    = [Ranked recs (JStr "dinner") 2 "1.0" (JStr "Muscle Gain")] ∧
    map name recs = [CStr "Tofu"; CStr "Lentil soup"] ∧
    map reasons (take 1 recs)
    = [[ HighProtein (Finite 22); HighFiber (Finite 6); LowCalorie (Finite 180);
         LowSugar (Finite 3); BudgetFriendly (Finite 1.5) ]].
Proof.
  split; [reflexivity|]. eexists. split; [vm_compute; reflexivity|].
  split; reflexivity.
Qed.

(* ===================================================================== *)
(** * Further properties *)
(* ===================================================================== *)

(** ** The constraint filter, continued *)

Lemma filter_by_user_constraints_split df user_profile :
  filter_by_user_constraints df user_profile
  = (asked <- requested user_profile ;; apply_constraints df asked).
Proof.
  unfold filter_by_user_constraints, requested.
  destruct (dict_get user_profile "dietaryRestrictions" (JArr [])) as [restrictions|e];
    [|done]. cbn [bindR].
  destruct (dict_get user_profile "weeklyBudget" (JInt 100)) as [budget|e]; [|done].
  cbn [bindR].
  destruct (py_truediv budget 21) as [max_cost|e]; [|done]. cbn [bindR].
  destruct (py_or (py_in "Vegan" restrictions) (py_in "vegan" restrictions)) as [v|e];
    [|done]. cbn [bindR].
  destruct (py_or (py_in "Gluten Free" restrictions) (py_in "gluten-free" restrictions))
    as [g|e]; [|done]. cbn [bindR].
  destruct (py_or (py_in "Nut Allergy" restrictions) (py_in "nut-free" restrictions))
    as [n|e]; [|done]. cbn [bindR].
  reflexivity.
Qed.

Lemma take_rows_sublist {A} (mask : list bool) (l : list A) :
  take_rows mask l `sublist_of` l.
Proof.
  revert l. induction mask as [|b mask IH]; intros [|x l]; simpl;
    try apply sublist_nil_l.
  destruct b; [by apply sublist_skip | by apply sublist_cons].
Qed.

Lemma take_rows_compose {A} (first second : list bool) (l : list A) :
  take_rows second (take_rows first l) = take_rows (compose_masks first second) l.
Proof.
  revert second l. induction first as [|b first IH]; intros second l.
  - by destruct second.
  - destruct l as [|x l].
    + transitivity (@nil A); [by destruct second|].
      destruct b; [by destruct second | done].
    + destruct b; simpl.
      * destruct second as [|c second]; simpl.
        -- rewrite <- (IH [] l). by destruct (take_rows first l).
        -- by rewrite IH.
      * apply IH.
Qed.

Lemma compose_masks_length first second :
  length (compose_masks first second) = length first.
Proof.
  revert second. induction first as [|b first IH]; intros second; [done|].
  destruct b; [destruct second|]; simpl; by rewrite IH.
Qed.

Lemma compose_masks_count first second :
  length second = count_true first →
  count_true (compose_masks first second) = count_true second.
Proof.
  revert second. induction first as [|b first IH]; intros second Hlen; simpl in *.
  - by destruct second.
  - destruct b.
    + destruct second as [|c second]; [done|]. simpl in *. rewrite IH; [done | lia].
    + by apply IH.
Qed.

Lemma select_rows_compose df first second :
  length second = count_true first →
  select_rows (select_rows df first) second
  = select_rows df (compose_masks first second).
Proof.
  intros Hlen. unfold select_rows; simpl. f_equal.
  - symmetry. by apply compose_masks_count.
  - rewrite <- map_fmap_compose. apply map_fmap_ext. intros c l _. simpl.
    apply take_rows_compose.
Qed.

Lemma take_rows_all {A} (l : list A) : take_rows (replicate (length l) true) l = l.
Proof. induction l as [|x l IH]; simpl; [done | by rewrite IH]. Qed.

Lemma count_true_all n : count_true (replicate n true) = n.
Proof. induction n as [|n IH]; simpl; [done | by rewrite IH]. Qed.

Lemma select_rows_all df : wf_frame df → select_rows df (replicate (nrows df) true) = df.
Proof.
  intros Hwf. destruct df as [n columns]. unfold select_rows; simpl. f_equal.
  - apply count_true_all.
  - apply map_eq. intros c. rewrite lookup_fmap.
    destruct (columns !! c) as [l|] eqn:E; simpl; [|done].
    f_equal. pose proof (Hwf c l E) as Hl. simpl in Hl. rewrite <- Hl.
    apply take_rows_all.
Qed.

Lemma selection_of_refl df : wf_frame df → selection_of df df.
Proof.
  intros Hwf. exists (replicate (nrows df) true).
  split; [apply length_replicate | by rewrite select_rows_all].
Qed.

Lemma selection_of_trans a b c : selection_of a b → selection_of b c → selection_of a c.
Proof.
  intros (m1 & L1 & ->) (m2 & L2 & ->). exists (compose_masks m1 m2).
  split; [by rewrite compose_masks_length | by apply select_rows_compose].
Qed.

Lemma selection_of_wf a b : wf_frame a → selection_of a b → wf_frame b.
Proof. intros Hwf (m & L & ->). by apply select_rows_wf. Qed.

Lemma selection_of_nrows a b : wf_frame a → selection_of a b → (nrows b ≤ nrows a)%nat.
Proof.
  intros Hwf (m & L & ->). simpl. rewrite <- L. clear.
  induction m as [|[] m IH]; simpl; lia.
Qed.

Lemma selection_of_columns a b c l :
  selection_of a b → cols a !! c = Some l →
  ∃ l', cols b !! c = Some l' ∧ l' `sublist_of` l.
Proof.
  intros (m & L & ->) E. exists (take_rows m l).
  split; [by rewrite select_rows_lookup, E | apply take_rows_sublist].
Qed.

Lemma keep_flagged_selection df flag : wf_frame df → selection_of df (keep_flagged df flag).
Proof.
  intros Hwf. unfold keep_flagged. destruct (cols df !! flag) as [l|] eqn:E.
  - eexists. split; [|reflexivity]. rewrite length_map. by eapply wf_lookup.
  - by apply selection_of_refl.
Qed.

Lemma restrict_selection use df flag : wf_frame df → selection_of df (restrict use df flag).
Proof.
  intros Hwf. destruct use; simpl; [by apply keep_flagged_selection|].
  by apply selection_of_refl.
Qed.

Lemma apply_constraints_selection df asked out :
  wf_frame df → apply_constraints df asked = Ok out → selection_of df out.
Proof.
  intros Hwf. destruct asked as [[[v g] n] max_cost]. unfold apply_constraints.
  set (df1 := restrict v df "is_vegan").
  set (df2 := restrict g df1 "is_glutenfree").
  set (df3 := restrict n df2 "is_nutfree").
  assert (S3 : selection_of df df3).
  { eapply selection_of_trans; [apply restrict_selection, Hwf|].
    eapply selection_of_trans; apply restrict_selection; by repeat apply restrict_wf. }
  destruct (cols df3 !! "cost_per_serving") as [cost|] eqn:E.
  - intros H. apply bindR_Ok in H as (mask & Hmask & [= <-]).
    eapply selection_of_trans; [exact S3|].
    exists mask. split; [|done].
    apply mapR_Forall2, Forall2_length in Hmask. rewrite <- Hmask.
    eapply wf_lookup; [|exact E]. by eapply selection_of_wf.
  - by intros [= <-].
Qed.

(** X1.  Whatever the profile, when the constraint filter returns it
    returns rows of the catalog: one mask over the catalog's rows selects
    the result, so the result has the catalog's columns, no more rows than
    the catalog, and in every column the cells it had, in their order. *)
Theorem filter_returns_rows_of_the_catalog
    (df out : DataFrame) (user_profile : json) :
  wf_frame df →
  filter_by_user_constraints df user_profile = Ok out →
  (∃ mask, length mask = nrows df ∧ out = select_rows df mask) ∧
  wf_frame out ∧
  (nrows out ≤ nrows df)%nat ∧
  (∀ c, has_column out c = has_column df c) ∧
  ∀ c l, cols df !! c = Some l → ∃ l', cols out !! c = Some l' ∧ l' `sublist_of` l.
Proof.
  intros Hwf H. rewrite filter_by_user_constraints_split in H.
  apply bindR_Ok in H as (asked & _ & H).
  pose proof (apply_constraints_selection df asked out Hwf H) as Hsel.
  split; [exact Hsel|]. split; [by eapply selection_of_wf|].
  split; [by apply selection_of_nrows|]. split.
  - destruct Hsel as (m & _ & ->). intros c. apply select_rows_has_column.
  - intros c l. by apply selection_of_columns.
Qed.

Lemma filter_returns_rows_of_the_catalog_witness :
  (∃ mask, length mask = nrows sample_catalog ∧
           select_rows sample_catalog [true; false; true; false]
           = select_rows sample_catalog mask) ∧
  wf_frame (select_rows sample_catalog [true; false; true; false]) ∧
  (nrows (select_rows sample_catalog [true; false; true; false]) ≤ nrows sample_catalog)%nat ∧
  (∀ c, has_column (select_rows sample_catalog [true; false; true; false]) c
        = has_column sample_catalog c) ∧
  ∀ c l, cols sample_catalog !! c = Some l →
         ∃ l', cols (select_rows sample_catalog [true; false; true; false]) !! c = Some l' ∧
               l' `sublist_of` l.
Proof.
  apply (filter_returns_rows_of_the_catalog sample_catalog
           (select_rows sample_catalog [true; false; true; false]) (JObj sample_profile)).
  - exact sample_catalog_wf.
  - vm_compute. reflexivity.
Defined.

Lemma flags_all_set (l : list cell) :
  Forall flag_set l → map (cell_eq 1) l = replicate (length l) true.
Proof. induction 1 as [|x l Hx _ IH]; simpl; [done|]. by rewrite Hx, IH. Qed.

Lemma restrict_fixed use df flag :
  wf_frame df → (use = true → column_all flag_set df flag) → restrict use df flag = df.
Proof.
  intros Hwf Hall. destruct use; simpl; [|done]. unfold keep_flagged.
  destruct (cols df !! flag) as [l|] eqn:E; [|done].
  rewrite flags_all_set by (by apply Hall). rewrite (wf_lookup _ _ _ Hwf E).
  by apply select_rows_all.
Qed.

Lemma mapR_all_true {A} (f : A → result bool) (l : list A) :
  Forall (λ x, f x = Ok true) l → mapR f l = Ok (replicate (length l) true).
Proof. induction 1 as [|x l Hx _ IH]; simpl; [done|]. by rewrite Hx, IH. Qed.

Lemma apply_constraints_idempotent df asked out :
  wf_frame df → apply_constraints df asked = Ok out → apply_constraints out asked = Ok out.
Proof.
  intros Hwf H. pose proof (apply_constraints_selection _ _ _ Hwf H) as Hsel.
  pose proof (selection_of_wf _ _ Hwf Hsel) as Hwfo.
  destruct asked as [[[v g] n] max_cost]. unfold apply_constraints in *.
  set (df1 := restrict v df "is_vegan") in *.
  set (df2 := restrict g df1 "is_glutenfree") in *.
  set (df3 := restrict n df2 "is_nutfree") in *.
  assert (Hv : v = true → column_all flag_set df3 "is_vegan").
  { intros ->. do 2 apply restrict_column_all. apply restrict_flag_set. }
  assert (Hg : g = true → column_all flag_set df3 "is_glutenfree").
  { intros ->. apply restrict_column_all. apply restrict_flag_set. }
  assert (Hn : n = true → column_all flag_set df3 "is_nutfree").
  { intros ->. apply restrict_flag_set. }
  assert (Hfixed : (∀ flag, column_all flag_set df3 flag → column_all flag_set out flag) →
                   restrict n (restrict g (restrict v out "is_vegan") "is_glutenfree")
                     "is_nutfree" = out).
  { intros Hkeep. rewrite (restrict_fixed v out) by auto.
    rewrite (restrict_fixed g out) by auto. by rewrite (restrict_fixed n out) by auto. }
  destruct (cols df3 !! "cost_per_serving") as [cost|] eqn:E.
  - apply bindR_Ok in H as (mask & Hmask & [= <-]).
    rewrite Hfixed by (intros flag; apply select_rows_column_all).
    rewrite select_rows_lookup, E. simpl.
    assert (Hall : Forall (λ x, cell_cmp num_le max_cost x = Ok true) (take_rows mask cost)).
    { apply (take_rows_by_mask (cell_cmp num_le max_cost)); [done|].
      by apply mapR_Forall2. }
    rewrite (mapR_all_true _ _ Hall). simpl. f_equal.
    assert (Hlen : length (take_rows mask cost) = nrows (select_rows df3 mask)).
    { eapply wf_lookup; [exact Hwfo|]. by rewrite select_rows_lookup, E. }
    rewrite Hlen. by apply select_rows_all.
  - injection H as <-. rewrite Hfixed by done. by rewrite E.
Qed.

(** X2.  Filtering is idempotent: the frame the constraint filter returns
    for a profile is returned unchanged when it is filtered again with the
    same profile. *)
Theorem filter_is_idempotent (df out : DataFrame) (user_profile : json) :
  wf_frame df →
  filter_by_user_constraints df user_profile = Ok out →
  filter_by_user_constraints out user_profile = Ok out.
Proof.
  intros Hwf H. rewrite filter_by_user_constraints_split in *.
  apply bindR_Ok in H as (asked & Hasked & H). rewrite Hasked. cbn [bindR].
  by apply (apply_constraints_idempotent df).
Qed.

Lemma filter_is_idempotent_witness :
  filter_by_user_constraints (select_rows sample_catalog [true; false; true; false])
    (JObj sample_profile)
  = Ok (select_rows sample_catalog [true; false; true; false]).
Proof.
  apply (filter_is_idempotent sample_catalog).
  - exact sample_catalog_wf.
  - vm_compute. reflexivity.
Defined.

Lemma compose_masks_take (fewer more : list bool) :
  Forall2 (λ a b : bool, a = true → b = true) fewer more →
  compose_masks more (take_rows more fewer) = fewer.
Proof.
  induction 1 as [|a b fewer more Hab _ IH]; simpl; [done|].
  destruct b; simpl; [by rewrite IH|].
  destruct a; [by specialize (Hab eq_refl) | by rewrite IH].
Qed.

Lemma Forall2_join {A B C} (R1 : A → B → Prop) (R2 : A → C → Prop) (S : B → C → Prop)
    (l : list A) (k1 : list B) (k2 : list C) :
  (∀ x a b, R1 x a → R2 x b → S a b) →
  Forall2 R1 l k1 → Forall2 R2 l k2 → Forall2 S k1 k2.
Proof.
  intros HS H1. revert k2. induction H1 as [|x a l k1 Hxa _ IH]; intros k2 H2.
  - apply Forall2_nil_inv_l in H2 as ->. constructor.
  - apply Forall2_cons_inv_l in H2 as (b & k2' & Hxb & H2 & ->).
    constructor; eauto.
Qed.

Lemma cost_mask_monotone (m1 m2 : Q) x (a b : bool) :
  (m1 <= m2)%Q →
  cell_cmp num_le m1 x = Ok a → cell_cmp num_le m2 x = Ok b → a = true → b = true.
Proof.
  intros Hm. destruct x as [[q|]|s]; simpl; try discriminate.
  - intros [= <-] [= <-] Ha. apply Qle_bool_iff in Ha. apply Qle_bool_iff.
    by eapply Qle_trans.
  - by intros [= <-] [= <-].
Qed.

Lemma apply_constraints_monotone df v g n (m1 m2 : Q) out1 out2 :
  wf_frame df → (m1 <= m2)%Q →
  apply_constraints df (v, g, n, m1) = Ok out1 →
  apply_constraints df (v, g, n, m2) = Ok out2 →
  selection_of out2 out1.
Proof.
  intros Hwf Hm H1 H2.
  pose proof (selection_of_wf _ _ Hwf (apply_constraints_selection _ _ _ Hwf H2)) as Hwf2.
  unfold apply_constraints in *.
  set (df3 := restrict n (restrict g (restrict v df "is_vegan") "is_glutenfree")
                "is_nutfree") in *.
  destruct (cols df3 !! "cost_per_serving") as [cost|] eqn:E.
  - apply bindR_Ok in H1 as (mask1 & Hmask1 & [= <-]).
    apply bindR_Ok in H2 as (mask2 & Hmask2 & [= <-]).
    apply mapR_Forall2 in Hmask1, Hmask2.
    assert (Himp : Forall2 (λ a b : bool, a = true → b = true) mask1 mask2).
    { eapply Forall2_join; [|exact Hmask1|exact Hmask2].
      intros x a b. by apply cost_mask_monotone. }
    exists (take_rows mask2 mask1).
    assert (Hlen : length (take_rows mask2 mask1) = count_true mask2).
    { apply take_rows_length. symmetry. by eapply Forall2_length. }
    split; [exact Hlen|].
    by rewrite select_rows_compose, compose_masks_take.
  - injection H1 as <-. injection H2 as <-. by apply selection_of_refl.
Qed.

(** X3.  A larger budget never loses an item.  For two profiles with the
    same restrictions, the result of the constraint filter under the
    smaller allowance consists of rows of its result under the larger
    one. *)
Theorem raising_the_budget_keeps_every_item
    (df out1 out2 : DataFrame) (fields1 fields2 : list (string * json))
    (budget1 budget2 : json) (max1 max2 : Q) :
  wf_frame df →
  assoc "dietaryRestrictions" fields1 = assoc "dietaryRestrictions" fields2 →
  dict_get (JObj fields1) "weeklyBudget" (JInt 100) = Ok budget1 →
  dict_get (JObj fields2) "weeklyBudget" (JInt 100) = Ok budget2 →
  py_truediv budget1 21 = Ok max1 →
  py_truediv budget2 21 = Ok max2 →
  (max1 <= max2)%Q →
  filter_by_user_constraints df (JObj fields1) = Ok out1 →
  filter_by_user_constraints df (JObj fields2) = Ok out2 →
  (∃ mask, length mask = nrows out2 ∧ out1 = select_rows out2 mask) ∧
  (nrows out1 ≤ nrows out2)%nat ∧
  ∀ c l2, cols out2 !! c = Some l2 → ∃ l1, cols out1 !! c = Some l1 ∧ l1 `sublist_of` l2.
Proof.
  intros Hwf Hsame Hb1 Hb2 Hm1 Hm2 Hle H1 H2.
  rewrite filter_by_user_constraints_split in H1, H2.
  apply bindR_Ok in H1 as (asked1 & Hasked1 & H1).
  apply bindR_Ok in H2 as (asked2 & Hasked2 & H2).
  unfold requested in Hasked1, Hasked2.
  rewrite Hb1 in Hasked1. rewrite Hb2 in Hasked2.
  cbn [dict_get bindR] in Hasked1, Hasked2.
  rewrite Hm1 in Hasked1. rewrite Hm2 in Hasked2. rewrite Hsame in Hasked1.
  cbn [bindR] in Hasked1, Hasked2.
  set (restrictions := match assoc "dietaryRestrictions" fields2 with
                       | Some v => v | None => JArr [] end) in *.
  destruct (py_or (py_in "Vegan" restrictions) (py_in "vegan" restrictions)) as [v|e];
    [|done]. cbn [bindR] in Hasked1, Hasked2.
  destruct (py_or (py_in "Gluten Free" restrictions) (py_in "gluten-free" restrictions))
    as [g|e]; [|done]. cbn [bindR] in Hasked1, Hasked2.
  destruct (py_or (py_in "Nut Allergy" restrictions) (py_in "nut-free" restrictions))
    as [n|e]; [|done]. cbn [bindR] in Hasked1, Hasked2.
  injection Hasked1 as <-. injection Hasked2 as <-.
  pose proof (apply_constraints_monotone df v g n max1 max2 out1 out2 Hwf Hle H1 H2) as Hsel.
  pose proof (selection_of_wf _ _ Hwf (apply_constraints_selection _ _ _ Hwf H2)) as Hwf2.
  split; [exact Hsel|]. split; [by apply selection_of_nrows|].
  intros c l2. by apply selection_of_columns.
Qed.

Lemma raising_the_budget_keeps_every_item_witness :
  (∃ mask, length mask = nrows (select_rows sample_catalog [true; true; true; false]) ∧
           select_rows sample_catalog [true; false; true; false]
           = select_rows (select_rows sample_catalog [true; true; true; false]) mask) ∧
  (nrows (select_rows sample_catalog [true; false; true; false])
   ≤ nrows (select_rows sample_catalog [true; true; true; false]))%nat ∧
  ∀ c l2, cols (select_rows sample_catalog [true; true; true; false]) !! c = Some l2 →
          ∃ l1, cols (select_rows sample_catalog [true; false; true; false]) !! c = Some l1 ∧
                l1 `sublist_of` l2.
Proof.
  apply (raising_the_budget_keeps_every_item sample_catalog
           (select_rows sample_catalog [true; false; true; false])
           (select_rows sample_catalog [true; true; true; false])
           [ ("weeklyBudget", JInt 42) ] [ ("weeklyBudget", JInt 75) ]
           (JInt 42) (JInt 75) (inject_Z 42 / 21)%Q (inject_Z 75 / 21)%Q).
  - exact sample_catalog_wf.
  - reflexivity.
  - reflexivity.
  - reflexivity.
  - reflexivity.
  - reflexivity.
  - vm_compute. discriminate.
  - vm_compute. reflexivity.
  - vm_compute. reflexivity.
Defined.

(** ** More on the goal adjuster *)

Lemma scale_where_none (probs : list Q) (m : Q) :
  scale_where probs (replicate (length probs) false) m = probs.
Proof.
  unfold scale_where. induction probs as [|p probs IH]; simpl; [done|]. by rewrite IH.
Qed.

Lemma imul_masked_Ok probs mask m adjusted :
  imul_masked probs mask m = Ok adjusted →
  length mask = length probs ∧ adjusted = scale_where probs mask m.
Proof.
  unfold imul_masked. destruct (Nat.eqb_spec (length mask) (length probs)); [|done].
  by intros [= <-].
Qed.

(** Whatever the goal, the adjuster scales the entries under one mask by
    one of the three factors and clips. *)
Lemma adjust_for_goals_shape probs df user_profile out :
  adjust_for_goals probs df user_profile = Ok out →
  ∃ (mask : list bool) (m : Q),
    (m = 1.2 ∨ m = 1.3 ∨ m = 1)%Q ∧
    length mask = length probs ∧
    out = map (λ p, clip p 0 1) (scale_where probs mask m).
Proof.
  unfold adjust_for_goals. intros H.
  apply bindR_Ok in H as (goal & _ & H).
  apply bindR_Ok in H as (adjusted & H & [= <-]).
  destruct (is_str "Weight Loss" goal);
    [|destruct (is_str "Muscle Gain" goal); [|destruct (is_str "Heart Health" goal)]].
  - apply bindR_Ok in H as (l1 & _ & H). apply bindR_Ok in H as (m1 & _ & H).
    apply bindR_Ok in H as (l2 & _ & H). apply bindR_Ok in H as (m2 & _ & H).
    apply imul_masked_Ok in H as [Hlen ->]. eexists _, _. eauto.
  - apply bindR_Ok in H as (l1 & _ & H). apply bindR_Ok in H as (m1 & _ & H).
    apply imul_masked_Ok in H as [Hlen ->]. eexists _, _. eauto.
  - apply bindR_Ok in H as (l1 & _ & H). apply bindR_Ok in H as (m1 & _ & H).
    apply bindR_Ok in H as (l2 & _ & H). apply bindR_Ok in H as (m2 & _ & H).
    apply imul_masked_Ok in H as [Hlen ->]. eexists _, _. eauto.
  - injection H as <-. exists (replicate (length probs) false), 1%Q.
    split; [auto|]. split; [apply length_replicate|]. by rewrite scale_where_none.
Qed.

Lemma Qmult_one (p : Q) : (p * 1)%Q = p.
Proof.
  destruct p as [n d]. unfold Qmult. simpl. by rewrite Z.mul_1_r, Pos.mul_1_r.
Qed.

Lemma clip_monotone x y : (x <= y)%Q → (clip x 0 1 <= clip y 0 1)%Q.
Proof.
  intros Hxy. unfold clip.
  destruct (Qlt_bool x 0) eqn:X0.
  { destruct (Qlt_bool y 0) eqn:Y0; [apply Qle_refl|].
    destruct (Qlt_bool 1 y) eqn:Y1; [discriminate|]. by apply Qlt_bool_false. }
  apply Qlt_bool_false in X0.
  destruct (Qlt_bool y 0) eqn:Y0.
  { apply Qlt_bool_iff in Y0. exfalso. apply (Qlt_not_le y 0); [done|].
    by eapply Qle_trans. }
  destruct (Qlt_bool 1 x) eqn:X1.
  { apply Qlt_bool_iff in X1. destruct (Qlt_bool 1 y) eqn:Y1; [apply Qle_refl|].
    apply Qlt_bool_false in Y1. exfalso. apply (Qlt_not_le 1 x); [done|].
    by eapply Qle_trans. }
  apply Qlt_bool_false in X1.
  destruct (Qlt_bool 1 y); done.
Qed.

(** A factor of at least 1 never lowers a clipped score: a negative score
    stays at the floor. *)
Lemma boost_after_clip p m : (1 <= m)%Q → (clip p 0 1 <= clip (p * m) 0 1)%Q.
Proof.
  intros Hm. destruct (Qlt_bool p 0) eqn:P0.
  - unfold clip at 1. rewrite P0. by apply clip_bounds.
  - apply Qlt_bool_false in P0. apply clip_monotone.
    rewrite <- (Qmult_1_r p) at 1. rewrite !(Qmult_comm p).
    by apply Qmult_le_compat_r.
Qed.

(** X4.  Whenever the goal adjuster returns, it returns one score per
    item; every score is the clipped raw score, or the clipped raw score
    times 1.2, or times 1.3; it lies in [0, 1] and is never below the
    clipped raw score: a goal only boosts. *)
Theorem goal_adjustment_only_boosts
    (probs out : list Q) (df : DataFrame) (user_profile : json) :
  adjust_for_goals probs df user_profile = Ok out →
  length out = length probs ∧
  ∀ i p, probs !! i = Some p →
    ∃ o, out !! i = Some o ∧
         (o = clip p 0 1 ∨ o = clip (p * 1.2) 0 1 ∨ o = clip (p * 1.3) 0 1) ∧
         (clip p 0 1 <= o)%Q ∧ (0 <= o <= 1)%Q.
Proof.
  intros H. apply adjust_for_goals_shape in H as (mask & m & Hm & Hlen & ->).
  split.
  { unfold scale_where. rewrite length_map, length_zip_with. lia. }
  intros i p Hp.
  destruct (lookup_lt_is_Some_2 mask i) as [b Hb].
  { rewrite Hlen. by eapply lookup_lt_Some. }
  eexists. split; [by apply clipped_scale_lookup|].
  split; [|split; [|by apply clip_bounds]].
  - destruct b; [|by left]. destruct Hm as [->|[->| ->]]; [by right; left | by right; right|].
    left. by rewrite Qmult_one.
  - destruct b; [|apply Qle_refl]. apply boost_after_clip.
    destruct Hm as [->|[->| ->]]; done.
Qed.

Lemma goal_adjustment_only_boosts_witness :
  ∃ out,
    adjust_for_goals sample_scores sample_catalog (JObj sample_profile) = Ok out ∧
    length out = length sample_scores ∧
    ∀ i p, sample_scores !! i = Some p →
      ∃ o, out !! i = Some o ∧
           (o = clip p 0 1 ∨ o = clip (p * 1.2) 0 1 ∨ o = clip (p * 1.3) 0 1) ∧
           (clip p 0 1 <= o)%Q ∧ (0 <= o <= 1)%Q.
Proof.
  eexists. split; [vm_compute; reflexivity|].
  apply (goal_adjustment_only_boosts sample_scores _ sample_catalog (JObj sample_profile)).
  vm_compute. reflexivity.
Defined.

(** ** More on the feature materializer *)

Lemma mapR_length {A B} (f : A → result B) l ys : mapR f l = Ok ys → length ys = length l.
Proof. intros H%mapR_Forall2. symmetry. by eapply Forall2_length. Qed.

Lemma zipR_length op (a b vs : list cell) :
  zipR op a b = Ok vs → length vs = Nat.min (length a) (length b).
Proof.
  revert b vs. induction a as [|x a IH]; intros [|y b] vs; simpl; try by intros [= <-].
  intros H. apply bindR_Ok in H as (v & _ & H). apply bindR_Ok in H as (vs' & H & [= <-]).
  simpl. by rewrite (IH _ _ H).
Qed.

Lemma df_get_fits df c default : wf_frame df → operand_fits (nrows df) (df_get df c default).
Proof.
  intros Hwf. unfold df_get. destruct (cols df !! c) as [l|] eqn:E; simpl; [|done].
  by eapply wf_lookup.
Qed.

Lemma elementwise_fits n op a b v :
  operand_fits n a → operand_fits n b → elementwise op a b = Ok v → operand_fits n v.
Proof.
  destruct a as [x|l1], b as [y|l2]; simpl; intros Ha Hb H.
  - apply bindR_Ok in H as (? & _ & [= <-]). done.
  - apply bindR_Ok in H as (vs & H & [= <-]). simpl. by rewrite (mapR_length _ _ _ H).
  - apply bindR_Ok in H as (vs & H & [= <-]). simpl. by rewrite (mapR_length _ _ _ H).
  - apply bindR_Ok in H as (vs & H & [= <-]). simpl. rewrite (zipR_length _ _ _ _ H). lia.
Qed.

Lemma assign_stored df c v : assign df c v = setitem df c (stored df v).
Proof. by destruct v. Qed.

Lemma stored_length df v : operand_fits (nrows df) v → length (stored df v) = nrows df.
Proof. destruct v; simpl; [intros _; apply length_replicate | done]. Qed.

(** Each step of the first loop adds at most the column it is about. *)
Lemma fill_numerical_Ok df col out :
  fill_numerical df col = Ok out →
  ∃ column, out = add_missing df col column ∧ (wf_frame df → length column = nrows df).
Proof.
  unfold fill_numerical, add_missing. destruct (has_column df col).
  { intros [= <-]. exists (replicate (nrows df) (CNum (Finite 0))).
    split; [done|]. intros _. apply length_replicate. }
  destruct (String.eqb col "nutrient_density");
    [|destruct (String.eqb col "sugar_to_carb_ratio")]; intros H.
  - apply bindR_Ok in H as (good & Hgood & H).
    apply bindR_Ok in H as (energy & Henergy & H).
    apply bindR_Ok in H as (density & Hdensity & [= <-]).
    rewrite assign_stored. eexists. split; [reflexivity|]. intros Hwf.
    apply stored_length.
    eapply elementwise_fits; [| |exact Hdensity].
    + eapply elementwise_fits; [| |exact Hgood]; by apply df_get_fits.
    + eapply elementwise_fits; [| |exact Henergy]; [by apply df_get_fits | done].
  - apply bindR_Ok in H as (carbs & Hcarbs & H).
    apply bindR_Ok in H as (ratio & Hratio & [= <-]).
    rewrite assign_stored. eexists. split; [reflexivity|]. intros Hwf.
    apply stored_length.
    eapply elementwise_fits; [| |exact Hratio]; [by apply df_get_fits|].
    eapply elementwise_fits; [| |exact Hcarbs]; [by apply df_get_fits | done].
  - injection H as <-. eexists. split; [reflexivity|]. intros _. apply length_replicate.
Qed.

Lemma extends_has_column a b c : extends a b → has_column a c = true → has_column b c = true.
Proof.
  intros [_ H]. unfold has_column. destruct (cols a !! c) as [l|] eqn:E; [|done].
  by rewrite (H _ _ E).
Qed.

Lemma add_missing_has_column df c column : has_column (add_missing df c column) c = true.
Proof.
  unfold has_column. rewrite add_missing_lookup.
  destruct (cols df !! c); [done|]. by rewrite decide_True.
Qed.

Lemma fill_default_has_column v df c : has_column (fill_default v df c) c = true.
Proof.
  unfold has_column. rewrite fill_default_lookup.
  destruct (cols df !! c); [done|]. by rewrite decide_True.
Qed.

Lemma fill_default_extends v df c : extends df (fill_default v df c).
Proof.
  split; [apply fill_default_nrows|]. intros x l H. by rewrite fill_default_lookup, H.
Qed.

Lemma foldR_fill_numerical_Ok cs df out :
  foldR fill_numerical cs df = Ok out →
  extends df out ∧ (wf_frame df → wf_frame out) ∧
  Forall (λ c, has_column out c = true) cs.
Proof.
  revert df. induction cs as [|c cs IH]; intros df; simpl.
  { intros [= <-]. split; [apply extends_refl|]. split; [done | constructor]. }
  intros H. apply bindR_Ok in H as (df' & Hstep & H).
  apply fill_numerical_Ok in Hstep as (column & -> & Hlen).
  destruct (IH _ H) as (Hext & Hwf & Hall).
  split; [eapply extends_trans; [apply add_missing_extends | exact Hext]|].
  split.
  { intros Hdf. apply Hwf, add_missing_wf; auto. }
  constructor; [|done]. eapply extends_has_column; [exact Hext|].
  apply add_missing_has_column.
Qed.

Lemma fold_fill_default_has_column v cs df :
  Forall (λ c, has_column (fold_left (fill_default v) cs df) c = true) cs.
Proof.
  apply Forall_forall. intros c Hc. unfold has_column.
  rewrite fold_fill_default_lookup. destruct (cols df !! c); [done|].
  by rewrite decide_True.
Qed.

(** What the three loops leave, whenever they return. *)
Lemma materialize_features_Ok df out :
  materialize_features df = Ok out →
  extends df out ∧ (wf_frame df → wf_frame out) ∧
  Forall (λ c, has_column out c = true) feature_columns.
Proof.
  unfold materialize_features. intros H.
  apply bindR_Ok in H as (df18 & H18 & Hout).
  apply foldR_fill_numerical_Ok in H18 as (Hext & Hwf & Hall).
  set (df19 := fold_left (fill_default (CStr "unknown")) categorical_features df18) in *.
  assert (Hout' : out = fold_left (fill_default (CNum (Finite 0))) binary_features df19)
    by congruence.
  clear Hout. subst out.
  set (out := fold_left (fill_default (CNum (Finite 0))) binary_features df19).
  assert (Hext19 : extends df18 df19) by apply fold_fill_default_extends.
  assert (Hext20 : extends df19 out) by apply fold_fill_default_extends.
  split; [eapply extends_trans; [exact Hext|]; by eapply extends_trans|].
  split.
  { intros Hdf.
    exact (fold_fill_default_wf _ binary_features df19
             (fold_fill_default_wf _ categorical_features df18 (Hwf Hdf))). }
  unfold feature_columns. rewrite !Forall_app. split; [|split].
  - eapply Forall_impl; [exact Hall|]. intros c Hc.
    eapply extends_has_column; [|exact Hc]. by eapply extends_trans.
  - eapply Forall_impl; [apply fold_fill_default_has_column|]. intros c Hc.
    eapply extends_has_column; [exact Hext20 | exact Hc].
  - apply fold_fill_default_has_column.
Qed.

Lemma fill_numerical_present df c : has_column df c = true → fill_numerical df c = Ok df.
Proof. intros H. unfold fill_numerical. by rewrite H. Qed.

Lemma foldR_fill_numerical_present cs df :
  Forall (λ c, has_column df c = true) cs → foldR fill_numerical cs df = Ok df.
Proof.
  induction 1 as [|c cs Hc _ IH]; simpl; [done|].
  by rewrite fill_numerical_present.
Qed.

Lemma fold_fill_default_present v cs df :
  Forall (λ c, has_column df c = true) cs → fold_left (fill_default v) cs df = df.
Proof.
  induction 1 as [|c cs Hc _ IH]; simpl; [done|].
  unfold fill_default at 2. by rewrite Hc.
Qed.

(** X5.  Materializing is idempotent: on the frame it returns, the
    three loops find every feature column and change nothing. *)
Theorem materialize_features_is_idempotent (df out : DataFrame) :
  materialize_features df = Ok out → materialize_features out = Ok out.
Proof.
  intros H. apply materialize_features_Ok in H as (_ & _ & Hall).
  unfold feature_columns in Hall. rewrite !Forall_app in Hall.
  destruct Hall as (Hnum & Hcat & Hbin).
  unfold materialize_features. rewrite foldR_fill_numerical_present by done.
  cbn [bindR]. rewrite (fold_fill_default_present _ categorical_features out Hcat).
  by rewrite (fold_fill_default_present _ binary_features out Hbin).
Qed.

Lemma materialize_features_is_idempotent_witness :
  materialize_features sample_features = Ok sample_features.
Proof.
  apply (materialize_features_is_idempotent sample_catalog). vm_compute. reflexivity.
Defined.

Lemma select_columns_present df names :
  Forall (λ c, has_column df c = true) names →
  ∃ X, select_columns df names = Ok X ∧ map fst X = names ∧
       Forall (λ kv, cols df !! kv.1 = Some kv.2) X.
Proof.
  unfold select_columns. induction 1 as [|c names Hc _ (X & HX & Hfst & Hall)]; simpl.
  { exists []. by repeat split. }
  unfold has_column in Hc. unfold getitem at 1. destruct (cols df !! c) as [l|] eqn:E; [|done].
  cbn [bindR]. rewrite HX. cbn [bindR]. exists ((c, l) :: X).
  split; [done|]. split; [simpl; by rewrite Hfst|]. by constructor.
Qed.

(** X6.  After the three loops the selection of the feature columns cannot
    fail: it yields the twenty-two columns in the fixed order, numeric,
    categorical, binary, each with one cell per eligible item, and a
    column the catalog had is passed on as it was. *)
Theorem feature_table_has_fixed_shape (df out : DataFrame) :
  wf_frame df →
  materialize_features df = Ok out →
  ∃ X,
    select_columns out (numerical_features ++ categorical_features ++ binary_features) = Ok X ∧
    map fst X = numerical_features ++ categorical_features ++ binary_features ∧
    length X = 22 ∧
    Forall (λ kv, length kv.2 = nrows df) X ∧
    ∀ c l, c ∈ map fst X → cols df !! c = Some l → (c, l) ∈ X.
Proof.
  intros Hwf H. apply materialize_features_Ok in H as (Hext & Hwfo & Hall).
  destruct (select_columns_present _ _ Hall) as (X & HX & Hfst & Hcols).
  exists X. split; [exact HX|]. split; [exact Hfst|].
  split; [by rewrite <- (length_map fst), Hfst|].
  split.
  - eapply Forall_impl; [exact Hcols|]. intros [c l] Hl. simpl in *.
    rewrite <- (proj1 Hext). eapply wf_lookup; [by apply Hwfo | exact Hl].
  - intros c l Hc Hl. apply list_elem_of_fmap in Hc as ([c' l'] & -> & Hin).
    rewrite Forall_forall in Hcols. pose proof (Hcols _ Hin) as Hl'. simpl in *.
    rewrite (proj2 Hext _ _ Hl) in Hl'. by injection Hl' as <-.
Qed.

Lemma feature_table_has_fixed_shape_witness :
  ∃ X,
    select_columns sample_features
      (numerical_features ++ categorical_features ++ binary_features) = Ok X ∧
    map fst X = numerical_features ++ categorical_features ++ binary_features ∧
    length X = 22 ∧
    Forall (λ kv, length kv.2 = nrows sample_catalog) X ∧
    ∀ c l, c ∈ map fst X → cols sample_catalog !! c = Some l → (c, l) ∈ X.
Proof.
  apply (feature_table_has_fixed_shape sample_catalog sample_features).
  - exact sample_catalog_wf.
  - vm_compute. reflexivity.
Defined.

(** ** The offline feature functions *)

Lemma getitem_Ok df c l : getitem df c = Ok l → cols df !! c = Some l.
Proof. unfold getitem. destruct (cols df !! c); [by intros [= <-] | done]. Qed.

Lemma fill_numerical_density_Ok df lp lf lc good energy density :
  cols df !! "nutrient_density" = None →
  cols df !! "protein_g" = Some lp →
  cols df !! "fiber_g" = Some lf →
  cols df !! "calories" = Some lc →
  zipR cell_add lp lf = Ok good →
  mapR (λ v, cell_add v (CNum (Finite 1))) lc = Ok energy →
  zipR cell_div good energy = Ok density →
  fill_numerical df "nutrient_density" = Ok (setitem df "nutrient_density" density).
Proof.
  intros Hnone Ep Ef Ec Hgood Henergy Hdensity. unfold fill_numerical, has_column.
  rewrite Hnone. cbn [String.eqb Ascii.eqb Bool.eqb]. unfold df_get. rewrite Ep, Ef, Ec.
  unfold one. cbn [elementwise]. rewrite Hgood. cbn [bindR]. rewrite Henergy.
  cbn [bindR elementwise]. rewrite Hdensity. reflexivity.
Qed.

Lemma fill_numerical_ratio_Ok df ls lb carbs ratio :
  cols df !! "sugar_to_carb_ratio" = None →
  cols df !! "sugars_g" = Some ls →
  cols df !! "carbs_g" = Some lb →
  mapR (λ v, cell_add v (CNum (Finite 1))) lb = Ok carbs →
  zipR cell_div ls carbs = Ok ratio →
  fill_numerical df "sugar_to_carb_ratio" = Ok (setitem df "sugar_to_carb_ratio" ratio).
Proof.
  intros Hnone Es Eb Hcarbs Hratio. unfold fill_numerical, has_column.
  rewrite Hnone. cbn [String.eqb Ascii.eqb Bool.eqb]. unfold df_get. rewrite Es, Eb.
  unfold one. cbn [elementwise]. rewrite Hcarbs. cbn [bindR elementwise].
  rewrite Hratio. reflexivity.
Qed.

(** What [compute_derived_features] reads and computes, when it returns. *)
Lemma compute_derived_features_Ok df out :
  compute_derived_features df = Ok out →
  ∃ lp lf lc ls lb good energy density carbs ratio,
    cols df !! "protein_g" = Some lp ∧ cols df !! "fiber_g" = Some lf ∧
    cols df !! "calories" = Some lc ∧ cols df !! "sugars_g" = Some ls ∧
    cols df !! "carbs_g" = Some lb ∧
    zipR cell_add lp lf = Ok good ∧
    mapR (λ v, cell_add v (CNum (Finite 1))) lc = Ok energy ∧
    zipR cell_div good energy = Ok density ∧
    mapR (λ v, cell_add v (CNum (Finite 1))) lb = Ok carbs ∧
    zipR cell_div ls carbs = Ok ratio ∧
    out = setitem (setitem df "nutrient_density" density) "sugar_to_carb_ratio" ratio.
Proof.
  unfold compute_derived_features, columns_op, column_plus_one. intros H.
  apply bindR_Ok in H as (good & Hgood & H).
  apply bindR_Ok in Hgood as (lp & Ep%getitem_Ok & Hgood).
  apply bindR_Ok in Hgood as (lf & Ef%getitem_Ok & Hgood).
  apply bindR_Ok in H as (energy & Henergy & H).
  apply bindR_Ok in Henergy as (lc & Ec%getitem_Ok & Henergy).
  apply bindR_Ok in H as (density & Hdensity & H). cbv zeta in H.
  apply bindR_Ok in H as (ls & Es%getitem_Ok & H).
  apply bindR_Ok in H as (carbs & Hcarbs & H).
  apply bindR_Ok in Hcarbs as (lb & Eb%getitem_Ok & Hcarbs).
  apply bindR_Ok in H as (ratio & Hratio & [= <-]).
  cbn [cols setitem] in Es, Eb. rewrite lookup_insert_ne in Es, Eb by discriminate.
  by exists lp, lf, lc, ls, lb, good, energy, density, carbs, ratio.
Qed.

(** X7.  The service derives the two ratio features as the training
    pipeline does.  On a catalog without them, on which
    [compute_derived_features] of [preprocess.py] returns, the feature
    materializer of [predict.py] returns too, and its nutrient density and
    sugar-to-carbohydrate columns are the ones the training pipeline
    computes. *)
Theorem serving_derives_features_as_training (df trained : DataFrame) :
  has_column df "nutrient_density" = false →
  has_column df "sugar_to_carb_ratio" = false →
  compute_derived_features df = Ok trained →
  ∃ served,
    materialize_features df = Ok served ∧
    is_Some (cols served !! "nutrient_density") ∧
    is_Some (cols served !! "sugar_to_carb_ratio") ∧
    cols served !! "nutrient_density" = cols trained !! "nutrient_density" ∧
    cols served !! "sugar_to_carb_ratio" = cols trained !! "sugar_to_carb_ratio".
Proof.
  intros Hnd Hsr H.
  apply compute_derived_features_Ok in H
    as (lp & lf & lc & ls & lb & good & energy & density & carbs & ratio &
        Ep & Ef & Ec & Es & Eb & Hgood & Henergy & Hdensity & Hcarbs & Hratio & ->).
  unfold has_column in Hnd, Hsr.
  destruct (cols df !! "nutrient_density") eqn:End; [done|].
  destruct (cols df !! "sugar_to_carb_ratio") eqn:Esr; [done|]. clear Hnd Hsr.
  set (df16 := fold_left (fill_default (CNum (Finite 0))) plain_features df).
  assert (Hext16 : extends df df16) by apply fold_fill_default_extends.
  assert (Hnone16 : ∀ c, cols df !! c = None → c ∉ plain_features → cols df16 !! c = None).
  { intros c Hnone Hc. unfold df16. rewrite fold_fill_default_lookup, Hnone.
    by rewrite decide_False. }
  set (df17 := setitem df16 "nutrient_density" density).
  set (df18 := setitem df17 "sugar_to_carb_ratio" ratio).
  set (df19 := fold_left (fill_default (CStr "unknown")) categorical_features df18).
  set (served := fold_left (fill_default (CNum (Finite 0))) binary_features df19).
  assert (Hext : extends df18 served).
  { eapply extends_trans; apply fold_fill_default_extends. }
  assert (E17 : ∀ c l, cols df !! c = Some l → cols df17 !! c = Some l).
  { intros c l Hl. unfold df17. cbn [cols setitem].
    rewrite lookup_insert_ne by (intros <-; congruence). by apply Hext16. }
  exists served. split.
  { unfold materialize_features. rewrite numerical_features_split, foldR_app.
    rewrite foldR_fill_numerical_plain by apply plain_features_plain.
    cbn [bindR foldR]. fold df16.
    rewrite (fill_numerical_density_Ok df16 lp lf lc good energy density);
      [|apply Hnone16; [done | decide_list] | by apply Hext16..| done | done | done].
    cbn [bindR]. fold df17.
    rewrite (fill_numerical_ratio_Ok df17 ls lb carbs ratio);
      [|unfold df17; cbn [cols setitem]; rewrite lookup_insert_ne by discriminate;
        apply Hnone16; [done | decide_list] | by apply E17..| done | done].
    cbn [bindR]. reflexivity. }
  assert (S1 : cols served !! "nutrient_density" = Some density).
  { apply Hext. unfold df18, df17. cbn [cols setitem].
    rewrite lookup_insert_ne by discriminate. apply lookup_insert_eq. }
  assert (S2 : cols served !! "sugar_to_carb_ratio" = Some ratio).
  { apply Hext. unfold df18. cbn [cols setitem]. apply lookup_insert_eq. }
  rewrite S1, S2. cbn [cols setitem]. split; [done|]. split; [done|].
  rewrite lookup_insert_eq. rewrite lookup_insert_ne by discriminate.
  by rewrite lookup_insert_eq.
Qed.

Lemma serving_derives_features_as_training_witness :
  ∃ trained served,
    compute_derived_features sample_catalog = Ok trained ∧
    materialize_features sample_catalog = Ok served ∧
    is_Some (cols served !! "nutrient_density") ∧
    is_Some (cols served !! "sugar_to_carb_ratio") ∧
    cols served !! "nutrient_density" = cols trained !! "nutrient_density" ∧
    cols served !! "sugar_to_carb_ratio" = cols trained !! "sugar_to_carb_ratio".
Proof.
  destruct (serving_derives_features_as_training sample_catalog
              (setitem (setitem sample_catalog "nutrient_density"
                          (density_column (numbers [22; 31; 18; 6]%Q)
                             (numbers [6; 0; 16; 1]%Q) (numbers [180; 165; 230; 420]%Q)))
                 "sugar_to_carb_ratio"
                 (ratio_column (numbers [3; 0; 4; 27]%Q) (numbers [4; 0; 40; 35]%Q))))
    as (served & H).
  - reflexivity.
  - reflexivity.
  - vm_compute. reflexivity.
  - eexists _, served. split; [vm_compute; reflexivity | exact H].
Defined.

Lemma as_int_lookup (mask : list bool) i (b : bool) :
  mask !! i = Some b → as_int mask !! i = Some (CNum (Finite (if b then 1 else 0))).
Proof. intros H. unfold as_int. by rewrite list_lookup_fmap, H. Qed.

(** X8.  On a catalog whose protein, sugar, fiber and cost columns hold
    numbers [compute_labels] returns the catalog with one more column,
    [fit], and touches nothing else.  The label of an item is 1 when its
    protein is above 10, its sugars below 5, its fiber above 3 and its
    cost below 2, and 0 otherwise, in particular when one of the four
    values is missing. *)
Theorem fit_label_is_the_conjunction (df : DataFrame) :
  wf_frame df →
  Forall (λ c, numeric_column df c = true)
    [ "protein_g"; "sugars_g"; "fiber_g"; "cost_per_serving" ] →
  ∃ out,
    compute_labels df = Ok out ∧
    wf_frame out ∧
    nrows out = nrows df ∧
    (∀ c, c ≠ "fit" → cols out !! c = cols df !! c) ∧
    ∀ i, i < nrows df →
      ∃ p s f c : num,
        cell_at df "protein_g" i = Some (CNum p) ∧
        cell_at df "sugars_g" i = Some (CNum s) ∧
        cell_at df "fiber_g" i = Some (CNum f) ∧
        cell_at df "cost_per_serving" i = Some (CNum c) ∧
        cell_at out "fit" i = Some (CNum (Finite (if fit_of p s f c then 1 else 0))) ∧
        (p = NaN ∨ s = NaN ∨ f = NaN ∨ c = NaN → fit_of p s f c = false).
Proof.
  intros Hwf Hnum. rewrite !Forall_cons in Hnum. destruct Hnum as (Hp & Hs & Hf & Hc & _).
  destruct (numeric_column_lookup _ _ Hwf Hp) as (lp & Ep & Lp & Np).
  destruct (numeric_column_lookup _ _ Hwf Hs) as (ls & Es & Ls & Ns).
  destruct (numeric_column_lookup _ _ Hwf Hf) as (lf & Ef & Lf & Nf).
  destruct (numeric_column_lookup _ _ Hwf Hc) as (lc & Ec & Lc & Nc).
  eexists. split.
  { unfold compute_labels, compare_column, getitem. rewrite Ep, Es, Ef, Ec. cbn [bindR].
    rewrite !cmp_mask_numeric by done. cbn [bindR]. reflexivity. }
  set (fit := mask_and _ _).
  assert (Hlen : length fit = nrows df).
  { unfold fit, mask_and. rewrite !length_zip_with, !length_map. lia. }
  split.
  { intros c l. simpl. destruct (decide (c = "fit")) as [->|Hne].
    - rewrite lookup_insert_eq. intros [= <-]. unfold as_int. by rewrite length_map.
    - rewrite lookup_insert_ne by done. by apply wf_lookup. }
  split; [done|]. split.
  { intros c Hne. simpl. by rewrite lookup_insert_ne. }
  intros i Hi.
  destruct (lookup_lt_is_Some_2 lp i) as [xp Hxp]; [lia|].
  destruct (lookup_lt_is_Some_2 ls i) as [xs Hxs]; [lia|].
  destruct (lookup_lt_is_Some_2 lf i) as [xf Hxf]; [lia|].
  destruct (lookup_lt_is_Some_2 lc i) as [xc Hxc]; [lia|].
  exists (num_of xp), (num_of xs), (num_of xf), (num_of xc).
  unfold cell_at. rewrite Ep, Es, Ef, Ec. simpl. rewrite lookup_insert_eq.
  rewrite <- (numeric_cell lp i xp Np Hxp), <- (numeric_cell ls i xs Ns Hxs),
          <- (numeric_cell lf i xf Nf Hxf), <- (numeric_cell lc i xc Nc Hxc).
  do 4 (split; [done|]). split.
  - apply as_int_lookup. unfold fit, mask_and.
    rewrite !lookup_zip_with, !list_lookup_fmap, Hxp, Hxs, Hxf, Hxc. done.
  - unfold fit_of. intros [->|[->|[->| ->]]]; simpl;
      rewrite ?andb_false_r; reflexivity.
Qed.

Lemma sample_training_frame_wf : wf_frame sample_training_frame.
Proof. unfold wf_frame. apply (bool_decide_unpack _). vm_compute. exact I. Defined.

Lemma fit_label_is_the_conjunction_witness :
  ∃ out,
    compute_labels sample_training_frame = Ok out ∧
    wf_frame out ∧
    nrows out = nrows sample_training_frame ∧
    (∀ c, c ≠ "fit" → cols out !! c = cols sample_training_frame !! c) ∧
    ∀ i, i < nrows sample_training_frame →
      ∃ p s f c : num,
        cell_at sample_training_frame "protein_g" i = Some (CNum p) ∧
        cell_at sample_training_frame "sugars_g" i = Some (CNum s) ∧
        cell_at sample_training_frame "fiber_g" i = Some (CNum f) ∧
        cell_at sample_training_frame "cost_per_serving" i = Some (CNum c) ∧
        cell_at out "fit" i = Some (CNum (Finite (if fit_of p s f c then 1 else 0))) ∧
        (p = NaN ∨ s = NaN ∨ f = NaN ∨ c = NaN → fit_of p s f c = false).
Proof.
  apply (fit_label_is_the_conjunction sample_training_frame).
  - exact sample_training_frame_wf.
  - repeat constructor.
Defined.

Lemma plus_one_nonzero (k : Q) : (0 <= k)%Q → Qeq_bool (k + 1) 0 = false.
Proof.
  intros Hk. destruct (Qeq_bool (k + 1) 0) eqn:E; [|done].
  apply Qeq_bool_iff in E. exfalso.
  assert (H : (0 < k + 1)%Q).
  { apply Qlt_le_trans with (0 + 1)%Q; [reflexivity|]. by apply Qplus_le_l. }
  rewrite E in H. by apply (Qlt_irrefl 0).
Qed.

(** [compute_derived_features] on a catalog of numbers. *)
Lemma compute_derived_features_numeric (df : DataFrame) :
  wf_frame df →
  Forall (λ c, numeric_column df c = true)
    [ "protein_g"; "fiber_g"; "calories"; "sugars_g"; "carbs_g" ] →
  ∃ out,
    compute_derived_features df = Ok out ∧
    wf_frame out ∧
    nrows out = nrows df ∧
    (∀ c, c ≠ "nutrient_density" → c ≠ "sugar_to_carb_ratio" →
          cols out !! c = cols df !! c) ∧
    ∀ i, i < nrows df →
      ∃ p f k s b : num,
        cell_at df "protein_g" i = Some (CNum p) ∧
        cell_at df "fiber_g" i = Some (CNum f) ∧
        cell_at df "calories" i = Some (CNum k) ∧
        cell_at df "sugars_g" i = Some (CNum s) ∧
        cell_at df "carbs_g" i = Some (CNum b) ∧
        cell_at out "nutrient_density" i
        = Some (CNum (num_div (num_add p f) (num_add k (Finite 1)))) ∧
        cell_at out "sugar_to_carb_ratio" i
        = Some (CNum (num_div s (num_add b (Finite 1)))) ∧
        (∀ qp qf qk, p = Finite qp → f = Finite qf → k = Finite qk → (0 <= qk)%Q →
           cell_at out "nutrient_density" i
           = Some (CNum (Finite ((qp + qf) / (qk + 1))))) ∧
        (∀ qs qb, s = Finite qs → b = Finite qb → (0 <= qb)%Q →
           cell_at out "sugar_to_carb_ratio" i = Some (CNum (Finite (qs / (qb + 1))))).
Proof.
  intros Hwf Hnum. rewrite !Forall_cons in Hnum.
  destruct Hnum as (Hp & Hf & Hc & Hs & Hb & _).
  destruct (numeric_column_lookup _ _ Hwf Hp) as (lp & Ep & Lp & Np).
  destruct (numeric_column_lookup _ _ Hwf Hf) as (lf & Ef & Lf & Nf).
  destruct (numeric_column_lookup _ _ Hwf Hc) as (lc & Ec & Lc & Nc).
  destruct (numeric_column_lookup _ _ Hwf Hs) as (ls & Es & Ls & Ns).
  destruct (numeric_column_lookup _ _ Hwf Hb) as (lb & Eb & Lb & Nb).
  exists (setitem (setitem df "nutrient_density" (density_column lp lf lc))
            "sugar_to_carb_ratio" (ratio_column ls lb)).
  split.
  { unfold compute_derived_features, columns_op, column_plus_one, getitem.
    rewrite Ep, Ef, Ec. cbn [bindR]. rewrite zipR_add_numeric by done. cbn [bindR].
    rewrite mapR_add_one by done. cbn [bindR].
    rewrite zipR_div_numeric by (apply zip_with_numeric || apply map_numeric).
    cbn [bindR]. cbv zeta. simpl cols. rewrite !lookup_insert_ne by discriminate.
    rewrite Es, Eb. cbn [bindR]. rewrite mapR_add_one by done. cbn [bindR].
    rewrite zipR_div_numeric by (done || apply map_numeric). reflexivity. }
  assert (Ld : length (density_column lp lf lc) = nrows df).
  { unfold density_column. rewrite !length_zip_with, length_map. lia. }
  assert (Lr : length (ratio_column ls lb) = nrows df).
  { unfold ratio_column. rewrite length_zip_with, length_map. lia. }
  split.
  { intros c l. simpl.
    destruct (decide (c = "sugar_to_carb_ratio")) as [->|Hne1].
    { rewrite lookup_insert_eq. by intros [= <-]. }
    rewrite lookup_insert_ne by done.
    destruct (decide (c = "nutrient_density")) as [->|Hne2].
    { rewrite lookup_insert_eq. by intros [= <-]. }
    rewrite lookup_insert_ne by done. by apply wf_lookup. }
  split; [done|]. split.
  { intros c H1 H2. simpl. by rewrite !lookup_insert_ne. }
  intros i Hi.
  destruct (lookup_lt_is_Some_2 lp i) as [xp Hxp]; [lia|].
  destruct (lookup_lt_is_Some_2 lf i) as [xf Hxf]; [lia|].
  destruct (lookup_lt_is_Some_2 lc i) as [xc Hxc]; [lia|].
  destruct (lookup_lt_is_Some_2 ls i) as [xs Hxs]; [lia|].
  destruct (lookup_lt_is_Some_2 lb i) as [xb Hxb]; [lia|].
  rewrite (numeric_cell lp i xp Np Hxp) in Hxp.
  rewrite (numeric_cell lf i xf Nf Hxf) in Hxf.
  rewrite (numeric_cell lc i xc Nc Hxc) in Hxc.
  rewrite (numeric_cell ls i xs Ns Hxs) in Hxs.
  rewrite (numeric_cell lb i xb Nb Hxb) in Hxb.
  exists (num_of xp), (num_of xf), (num_of xc), (num_of xs), (num_of xb).
  unfold cell_at. rewrite Ep, Ef, Ec, Es, Eb. simpl cols.
  rewrite lookup_insert_eq. rewrite lookup_insert_ne by discriminate.
  rewrite lookup_insert_eq.
  rewrite (density_column_lookup _ _ _ _ _ _ _ Hxp Hxf Hxc).
  rewrite (ratio_column_lookup _ _ _ _ _ Hxs Hxb).
  do 7 (split; [done|]). split.
  - intros qp qf qk -> -> -> Hk. simpl. by rewrite plus_one_nonzero.
  - intros qs qb -> -> Hb0. simpl. by rewrite plus_one_nonzero.
Qed.

(** X9.  On a catalog whose five nutrient columns hold numbers
    [compute_derived_features] returns the catalog with the two derived
    columns set and nothing else touched.  For every item the nutrient
    density is (protein + fiber) / (calories + 1) and the ratio is
    sugars / (carbohydrates + 1); the added 1 keeps the divisor away from
    zero, so both are numbers whenever the inputs are and calories and
    carbohydrates are not negative. *)
Theorem derived_features_are_defined (df : DataFrame) :
  wf_frame df →
  Forall (λ c, numeric_column df c = true)
    [ "protein_g"; "fiber_g"; "calories"; "sugars_g"; "carbs_g" ] →
  ∃ out,
    compute_derived_features df = Ok out ∧
    wf_frame out ∧
    nrows out = nrows df ∧
    (∀ c, c ≠ "nutrient_density" → c ≠ "sugar_to_carb_ratio" →
          cols out !! c = cols df !! c) ∧
    ∀ i, i < nrows df →
      ∃ p f k s b : num,
        cell_at df "protein_g" i = Some (CNum p) ∧
        cell_at df "fiber_g" i = Some (CNum f) ∧
        cell_at df "calories" i = Some (CNum k) ∧
        cell_at df "sugars_g" i = Some (CNum s) ∧
        cell_at df "carbs_g" i = Some (CNum b) ∧
        cell_at out "nutrient_density" i
        = Some (CNum (num_div (num_add p f) (num_add k (Finite 1)))) ∧
        cell_at out "sugar_to_carb_ratio" i
        = Some (CNum (num_div s (num_add b (Finite 1)))) ∧
        (∀ qp qf qk, p = Finite qp → f = Finite qf → k = Finite qk → (0 <= qk)%Q →
           cell_at out "nutrient_density" i
           = Some (CNum (Finite ((qp + qf) / (qk + 1))))) ∧
        (∀ qs qb, s = Finite qs → b = Finite qb → (0 <= qb)%Q →
           cell_at out "sugar_to_carb_ratio" i = Some (CNum (Finite (qs / (qb + 1))))).
Proof. exact (compute_derived_features_numeric df). Qed.

Lemma derived_features_are_defined_witness :
  ∃ out,
    compute_derived_features sample_training_frame = Ok out ∧
    wf_frame out ∧
    nrows out = nrows sample_training_frame ∧
    (∀ c, c ≠ "nutrient_density" → c ≠ "sugar_to_carb_ratio" →
          cols out !! c = cols sample_training_frame !! c) ∧
    ∀ i, i < nrows sample_training_frame →
      ∃ p f k s b : num,
        cell_at sample_training_frame "protein_g" i = Some (CNum p) ∧
        cell_at sample_training_frame "fiber_g" i = Some (CNum f) ∧
        cell_at sample_training_frame "calories" i = Some (CNum k) ∧
        cell_at sample_training_frame "sugars_g" i = Some (CNum s) ∧
        cell_at sample_training_frame "carbs_g" i = Some (CNum b) ∧
        cell_at out "nutrient_density" i
        = Some (CNum (num_div (num_add p f) (num_add k (Finite 1)))) ∧
        cell_at out "sugar_to_carb_ratio" i
        = Some (CNum (num_div s (num_add b (Finite 1)))) ∧
        (∀ qp qf qk, p = Finite qp → f = Finite qf → k = Finite qk → (0 <= qk)%Q →
           cell_at out "nutrient_density" i
           = Some (CNum (Finite ((qp + qf) / (qk + 1))))) ∧
        (∀ qs qb, s = Finite qs → b = Finite qb → (0 <= qb)%Q →
           cell_at out "sugar_to_carb_ratio" i = Some (CNum (Finite (qs / (qb + 1))))).
Proof.
  apply (derived_features_are_defined sample_training_frame).
  - exact sample_training_frame_wf.
  - repeat constructor.
Defined.

(** ** More on the non-negative shift *)

Lemma concat_map_map {A B} (f : A → B) (X : list (list A)) :
  concat (map (map f) X) = map f (concat X).
Proof. induction X as [|row X IH]; simpl; [done|]. by rewrite map_app, IH. Qed.

Lemma matrix_min_Ok X lowest :
  matrix_min X = Ok lowest →
  lowest ∈ concat X ∧ Forall (λ x, lowest <= x)%Q (concat X).
Proof.
  intros H. assert (Hne : concat X ≠ []).
  { unfold matrix_min in H. by destruct (concat X). }
  destruct (matrix_min_spec X Hne) as (lowest' & H' & Hin & Hlow).
  rewrite H in H'. by injection H' as <-.
Qed.

(** The least entry is determined up to equality of rationals. *)
Lemma least_unique (l : list Q) a b :
  a ∈ l → Forall (λ x, a <= x)%Q l → b ∈ l → Forall (λ x, b <= x)%Q l → (a == b)%Q.
Proof.
  intros Ha Hla Hb Hlb. rewrite Forall_forall in Hla, Hlb.
  apply Qle_antisym; auto.
Qed.

Lemma matrix_min_shifted X lowest :
  matrix_min X = Ok lowest →
  ∃ lowest', matrix_min (map (map (λ x, x - lowest + epsilon)%Q) X) = Ok lowest' ∧
             (lowest' == epsilon)%Q.
Proof.
  intros H. apply matrix_min_Ok in H as [Hin Hlow].
  destruct (matrix_min_spec (map (map (λ x, x - lowest + epsilon)%Q) X))
    as (lowest' & H' & Hin' & Hlow').
  { rewrite concat_map_map. intros Hnil%fmap_nil_inv.
    rewrite Hnil in Hin. by apply elem_of_nil in Hin. }
  exists lowest'. split; [done|].
  rewrite concat_map_map in Hin', Hlow'.
  transitivity (lowest - lowest + epsilon)%Q.
  - apply (least_unique (map (λ x, x - lowest + epsilon)%Q (concat X))); [done | done | |].
    + exact (list_elem_of_fmap_2 (λ x, x - lowest + epsilon)%Q _ lowest Hin).
    + apply Forall_fmap. eapply Forall_impl; [exact Hlow|]. intros x Hx. simpl.
      apply Qplus_le_l. unfold Qminus. by apply Qplus_le_l.
  - unfold Qminus. by rewrite Qplus_opp_r, Qplus_0_l.
Qed.

(** X10.  The shift does nothing the second time.  The least entry of
    what it returns is epsilon, so applied to its own result it subtracts
    epsilon and adds it again: it returns, and returns that result, entry
    by entry. *)
Theorem nonneg_shift_is_idempotent (X Y : Matrix) :
  nonneg_shift X = Ok Y →
  (∃ lowest, matrix_min Y = Ok lowest ∧ (lowest == epsilon)%Q) ∧
  ∃ Y', nonneg_shift Y = Ok Y' ∧ matrix_eq Y' Y.
Proof.
  unfold nonneg_shift. intros H. apply bindR_Ok in H as (lowest & Hmin & [= <-]).
  destruct (matrix_min_shifted X lowest Hmin) as (lowest' & Hmin' & Heq).
  split; [by exists lowest'|].
  rewrite Hmin'. cbn [bindR].
  eexists. split; [reflexivity|].
  set (Y := map (map (λ x, x - lowest + epsilon)%Q) X).
  unfold matrix_eq. rewrite <- (list_fmap_id Y) at 2.
  apply Forall2_fmap, Forall_Forall2_diag, Forall_forall.
  intros row _. simpl. rewrite <- (list_fmap_id row) at 2.
  apply Forall2_fmap, Forall_Forall2_diag, Forall_forall.
  intros y _. simpl. rewrite Heq. ring.
Qed.

Lemma nonneg_shift_is_idempotent_witness :
  ∃ Y,
    nonneg_shift sample_matrix = Ok Y ∧
    (∃ lowest, matrix_min Y = Ok lowest ∧ (lowest == epsilon)%Q) ∧
    ∃ Y', nonneg_shift Y = Ok Y' ∧ matrix_eq Y' Y.
Proof.
  eexists. split; [reflexivity|].
  apply (nonneg_shift_is_idempotent sample_matrix). reflexivity.
Defined.

(** ** More on the ranker *)

Lemma slice_to_length {A} (l : list A) (stop : json) t :
  slice_to l stop = Ok t → length t = kept stop (length l).
Proof.
  destruct stop; simpl; try discriminate.
  - by intros [= <-].
  - intros [= <-]. by rewrite length_take.
  - intros [= <-]. destruct (0 <=? z)%Z; rewrite length_take; lia.
Qed.

Section TopK.

Variable argsort : list Q → list nat.
Hypothesis argsort_perm : ∀ v, argsort v ≡ₚ seq 0 (length v).
Hypothesis argsort_ascending : ∀ v, StronglySorted (ascending v) (argsort v).

(** X11.  The ranker keeps the best.  Whatever [top_k] is, when the
    ranker returns, the positions it returns are distinct positions of
    the score vector, no position it leaves out has a higher score than
    one it returns, and their number is what the slice [[:top_k]] keeps: a
    negative [top_k] drops that many of the worst items, and [null] keeps
    all. *)
Theorem top_k_takes_the_best (probs : list Q) (top_k : json) (top : list nat) :
  top_indices argsort probs top_k = Ok top →
  NoDup top ∧
  (∀ i, i ∈ top → i < length probs) ∧
  (∀ i j, i ∈ top → j < length probs → j ∉ top → (key probs j <= key probs i)%Q) ∧
  length top = kept top_k (length probs).
Proof.
  intros Htop. unfold top_indices in Htop.
  set (ranked := reverse (argsort probs)) in *.
  assert (Hperm : ranked ≡ₚ seq 0 (length probs)).
  { unfold ranked. by rewrite reverse_Permutation. }
  assert (Hsorted : StronglySorted (flip (ascending probs)) ranked).
  { apply StronglySorted_reverse, argsort_ascending. }
  pose proof (slice_to_length _ _ _ Htop) as Hlen.
  rewrite (Permutation_length Hperm), length_seq in Hlen.
  apply slice_to_prefix in Htop as [m ->].
  split.
  { eapply sublist_NoDup; [|apply sublist_take]. rewrite Hperm. apply NoDup_seq. }
  split.
  { intros i Hi. apply (subseteq_take m) in Hi. rewrite Hperm, elem_of_seq in Hi. lia. }
  split; [|exact Hlen].
  intros i j Hi Hj Hout.
  assert (Hin : j ∈ take m ranked ++ drop m ranked).
  { rewrite take_drop, Hperm, elem_of_seq. lia. }
  apply elem_of_app in Hin as [Hin|Hin]; [done|].
  apply list_elem_of_lookup in Hi as [a Ha]. apply list_elem_of_lookup in Hin as [b Hb].
  apply lookup_take_Some in Ha as [Ha Ham]. rewrite lookup_drop in Hb.
  rewrite StronglySorted_lookup in Hsorted.
  apply (Hsorted a (m + b) i j); [lia | done | done].
Qed.

End TopK.

Lemma top_k_takes_the_best_witness :
  NoDup [1; 3] ∧
  (∀ i, i ∈ [1; 3] → i < length sample_scores) ∧
  (∀ i j, i ∈ [1; 3] → j < length sample_scores → j ∉ [1; 3] →
          (key sample_scores j <= key sample_scores i)%Q) ∧
  length [1; 3] = kept (JInt (-2)) (length sample_scores).
Proof.
  apply (top_k_takes_the_best argsort_insertion
           argsort_insertion_perm argsort_insertion_ascending
           sample_scores (JInt (-2)) [1; 3]).
  reflexivity.
Defined.

(** ** More on the explainer *)

Lemma explain_Ok food c op bound why reasons reasons' :
  explain food c op bound why reasons = Ok reasons' →
  ∃ a, food !! c = Some (CNum a) ∧
       reasons' = reasons ++ (if op a bound then [why a] else []).
Proof.
  unfold explain, row_getitem. destruct (food !! c) as [[a|s]|]; simpl; try discriminate.
  destruct (op a bound) eqn:E; simpl; intros [= <-]; exists a; by rewrite E, ?app_nil_r.
Qed.

Lemma float_of_Ok food c x : float_of food c = Ok x → food !! c = Some (CNum x).
Proof.
  unfold float_of, row_getitem. destruct (food !! c) as [[a|s]|]; simpl; try discriminate.
  by intros [= <-].
Qed.

Lemma tag_flagged df idx flag label dietary :
  tag (omap (λ l : list cell, l !! idx) (cols df)) flag label dietary
  = dietary ++ (if flagged df flag idx then [label] else []).
Proof.
  unfold tag, row_get, flagged. rewrite iloc_lookup.
  destruct (cell_at df flag idx) as [x|]; simpl.
  - destruct (cell_eq 1 x); by rewrite ?app_nil_r.
  - by rewrite app_nil_r.
Qed.

(** What a recommendation says of the item it is built from. *)
Lemma build_recommendation_Ok df probs idx r :
  build_recommendation df probs idx = Ok r →
  idx < nrows df ∧
  probs !! idx = Some (fit_score r) ∧
  cell_at df "description" idx = Some (name r) ∧
  confidence r = confidence_of (fit_score r) ∧
  cell_at df "calories" idx = Some (CNum (calories (nutrition r))) ∧
  cell_at df "protein_g" idx = Some (CNum (protein (nutrition r))) ∧
  cell_at df "carbs_g" idx = Some (CNum (carbs (nutrition r))) ∧
  cell_at df "fat_g" idx = Some (CNum (fat (nutrition r))) ∧
  cell_at df "fiber_g" idx = Some (CNum (fiber (nutrition r))) ∧
  cell_at df "sugars_g" idx = Some (CNum (sugars (nutrition r))) ∧
  cell_at df "cost_per_serving" idx = Some (CNum (cost r)) ∧
  reasons r = reasons_for (nutrition r) (cost r) ∧
  dietary_info r = tags_for (flagged df "is_vegan" idx) (flagged df "is_glutenfree" idx)
                     (flagged df "is_nutfree" idx) ∧
  category r = default (CStr "Unknown") (cell_at df "food_category" idx).
Proof.
  unfold build_recommendation, iloc. intros H.
  destruct (Nat.ltb_spec idx (nrows df)) as [Hidx|]; [|done]. cbn [bindR] in H.
  rewrite !tag_flagged in H.
  set (food := omap (λ l : list cell, l !! idx) (cols df)) in *.
  assert (Hfood : ∀ c, food !! c = cell_at df c idx) by (intros c; apply iloc_lookup).
  apply bindR_Ok in H as (prob & Hprob & H).
  apply bindR_Ok in H as (r1 & (a1 & F1 & ->)%explain_Ok & H).
  apply bindR_Ok in H as (r2 & (a2 & F2 & ->)%explain_Ok & H).
  apply bindR_Ok in H as (r3 & (a3 & F3 & ->)%explain_Ok & H).
  apply bindR_Ok in H as (r4 & (a4 & F4 & ->)%explain_Ok & H).
  apply bindR_Ok in H as (r5 & (a5 & F5 & ->)%explain_Ok & H).
  apply bindR_Ok in H as (description & Hdesc & H).
  apply bindR_Ok in H as (x1 & G1%float_of_Ok & H).
  apply bindR_Ok in H as (x2 & G2%float_of_Ok & H).
  apply bindR_Ok in H as (x3 & G3%float_of_Ok & H).
  apply bindR_Ok in H as (x4 & G4%float_of_Ok & H).
  apply bindR_Ok in H as (x5 & G5%float_of_Ok & H).
  apply bindR_Ok in H as (x6 & G6%float_of_Ok & H).
  apply bindR_Ok in H as (x7 & G7%float_of_Ok & [= <-]).
  cbn [fit_score name category confidence nutrition cost reasons dietary_info
       calories protein carbs fat fiber sugars].
  rewrite <- !Hfood.
  split; [done|]. split; [by destruct (probs !! idx); simplify_eq|].
  split.
  { unfold row_getitem in Hdesc. by destruct (food !! "description"); simplify_eq. }
  split; [done|]. do 7 (split; [done|]).
  split.
  { unfold reasons_for. cbn [calories protein carbs fat fiber sugars].
    rewrite F1 in G2. rewrite F2 in G5. rewrite F3 in G1. rewrite F4 in G6.
    rewrite F5 in G7. simplify_eq. by rewrite <- !app_assoc. }
  split; [unfold tags_for; by rewrite <- app_assoc|].
  unfold row_get. by destruct (food !! "food_category").
Qed.

Lemma elem_of_optional {A} (b : bool) (x y : A) :
  y ∈ (if b then [x] else []) ↔ b = true ∧ y = x.
Proof.
  destruct b.
  - rewrite elem_of_cons, elem_of_nil. split; [intros [->|[]]; done | intros [_ ->]; by left].
  - rewrite elem_of_nil. split; [done | by intros [? _]].
Qed.

(** X12.  A recommendation explains itself with its own numbers.  Whenever
    one is built, its score is the item's score and its confidence the
    band of that score; its reasons are exactly those its nutrition block
    and cost warrant, in the fixed order protein, fiber, calories, sugars,
    cost, each quoting the value of that block; and its dietary tags are,
    in order, those of the flags that are set on the item. *)
Theorem recommendation_explains_its_own_numbers
    (df : DataFrame) (probs : list Q) (idx : nat) (r : Recommendation) :
  build_recommendation df probs idx = Ok r →
  probs !! idx = Some (fit_score r) ∧
  confidence r = confidence_of (fit_score r) ∧
  reasons r = reasons_for (nutrition r) (cost r) ∧
  cell_at df "protein_g" idx = Some (CNum (protein (nutrition r))) ∧
  cell_at df "cost_per_serving" idx = Some (CNum (cost r)) ∧
  dietary_info r = tags_for (flagged df "is_vegan" idx) (flagged df "is_glutenfree" idx)
                     (flagged df "is_nutfree" idx) ∧
  (∀ x, HighProtein x ∈ reasons r ↔ x = protein (nutrition r) ∧ num_gt x 15 = true) ∧
  (∀ x, BudgetFriendly x ∈ reasons r ↔ x = cost r ∧ num_lt x 2 = true) ∧
  ("Vegan" ∈ dietary_info r ↔ flagged df "is_vegan" idx = true).
Proof.
  intros H. apply build_recommendation_Ok in H
    as (_ & Hp & _ & Hc & _ & Hprot & _ & _ & _ & _ & Hcost & Hr & Hd & _).
  do 6 (split; [done|]). rewrite Hr, Hd. unfold reasons_for, tags_for.
  split; [|split].
  - intros x. rewrite !elem_of_app, !elem_of_optional. split.
    + intros [[H E]|[[H E]|[[H E]|[[H E]|[H E]]]]]; by simplify_eq.
    + intros [-> H]. by left.
  - intros x. rewrite !elem_of_app, !elem_of_optional. split.
    + intros [[H E]|[[H E]|[[H E]|[[H E]|[H E]]]]]; by simplify_eq.
    + intros [-> H]. by do 4 right.
  - rewrite !elem_of_app, !elem_of_optional. split.
    + intros [[H E]|[[H E]|[H E]]]; by simplify_eq.
    + intros H. by left.
Qed.

Lemma recommendation_explains_its_own_numbers_witness :
  ∃ r,
    build_recommendation sample_catalog sample_scores 0 = Ok r ∧
    sample_scores !! 0 = Some (fit_score r) ∧
    confidence r = confidence_of (fit_score r) ∧
    reasons r = reasons_for (nutrition r) (cost r) ∧
    cell_at sample_catalog "protein_g" 0 = Some (CNum (protein (nutrition r))) ∧
    cell_at sample_catalog "cost_per_serving" 0 = Some (CNum (cost r)) ∧
    dietary_info r
    = tags_for (flagged sample_catalog "is_vegan" 0) (flagged sample_catalog "is_glutenfree" 0)
        (flagged sample_catalog "is_nutfree" 0) ∧
    (∀ x, HighProtein x ∈ reasons r ↔ x = protein (nutrition r) ∧ num_gt x 15 = true) ∧
    (∀ x, BudgetFriendly x ∈ reasons r ↔ x = cost r ∧ num_lt x 2 = true) ∧
    ("Vegan" ∈ dietary_info r ↔ flagged sample_catalog "is_vegan" 0 = true).
Proof.
  eexists. split; [vm_compute; reflexivity|].
  apply (recommendation_explains_its_own_numbers sample_catalog sample_scores 0).
  vm_compute. reflexivity.
Defined.

(** ** The pipeline, end to end *)

Lemma apply_constraints_guarantee df v g n max_cost out :
  apply_constraints df (v, g, n, max_cost) = Ok out →
  (v = true → column_all flag_set out "is_vegan") ∧
  (g = true → column_all flag_set out "is_glutenfree") ∧
  (n = true → column_all flag_set out "is_nutfree") ∧
  column_all (within max_cost) out "cost_per_serving".
Proof.
  unfold apply_constraints.
  set (df1 := restrict v df "is_vegan").
  set (df2 := restrict g df1 "is_glutenfree").
  set (df3 := restrict n df2 "is_nutfree").
  assert (Hv : v = true → column_all flag_set df3 "is_vegan").
  { intros ->. do 2 apply restrict_column_all. apply restrict_flag_set. }
  assert (Hg : g = true → column_all flag_set df3 "is_glutenfree").
  { intros ->. apply restrict_column_all. apply restrict_flag_set. }
  assert (Hn : n = true → column_all flag_set df3 "is_nutfree").
  { intros ->. apply restrict_flag_set. }
  destruct (cols df3 !! "cost_per_serving") as [cost|] eqn:E.
  - intros H. apply bindR_Ok in H as (mask & Hmask & [= <-]).
    split; [intros; apply select_rows_column_all; auto|].
    split; [intros; apply select_rows_column_all; auto|].
    split; [intros; apply select_rows_column_all; auto|].
    intros l. rewrite select_rows_lookup, E. simpl. intros [= <-].
    apply (take_rows_by_mask (cell_cmp num_le max_cost)); [apply cost_within|].
    by apply mapR_Forall2.
  - intros [= <-]. do 3 (split; [done|]). intros l Hl. congruence.
Qed.

Lemma requested_Ok fields restrictions asked :
  assoc "dietaryRestrictions" fields = Some (JArr restrictions) →
  requested (JObj fields) = Ok asked →
  ∃ budget max_cost,
    dict_get (JObj fields) "weeklyBudget" (JInt 100) = Ok budget ∧
    py_truediv budget 21 = Ok max_cost ∧
    asked = (existsb (is_str "Vegan") restrictions || existsb (is_str "vegan") restrictions,
             existsb (is_str "Gluten Free") restrictions
             || existsb (is_str "gluten-free") restrictions,
             existsb (is_str "Nut Allergy") restrictions
             || existsb (is_str "nut-free") restrictions,
             max_cost).
Proof.
  intros Hr. unfold requested. cbn [dict_get]. rewrite Hr. cbn [bindR]. intros H.
  apply bindR_Ok in H as (max_cost & Hmax & H). rewrite !py_or_in_list in H.
  cbn [bindR] in H. injection H as <-. by eexists _, max_cost.
Qed.

Lemma rank_and_explain_Ok argsort probs df user_profile query top_k response :
  rank_and_explain argsort probs df user_profile query top_k = Ok response →
  ∃ top user_goal,
    top_indices argsort probs top_k = Ok top ∧
    mapR (build_recommendation df probs) top = Ok (recommendations response) ∧
    response = Ranked (recommendations response) query (nrows df) "1.0" user_goal ∧
    dict_get user_profile "primaryGoal" (JStr "General Health") = Ok user_goal.
Proof.
  unfold rank_and_explain. intros H.
  apply bindR_Ok in H as (top & Htop & H).
  apply bindR_Ok in H as (recs & Hrecs & H).
  apply bindR_Ok in H as (user_goal & Hgoal & [= <-]). by exists top, user_goal.
Qed.

Lemma mapR_elem {A B} (f : A → result B) l ys y :
  mapR f l = Ok ys → y ∈ ys → ∃ x, x ∈ l ∧ f x = Ok y.
Proof.
  intros H%mapR_Forall2 Hy. apply list_elem_of_lookup in Hy as [i Hi].
  destruct (Forall2_lookup_r _ _ _ _ _ H Hi) as (x & Hx & Hfx).
  exists x. split; [by eapply list_elem_of_lookup_2 | done].
Qed.

(** A cell of a column the materializer found is the cell of the filtered
    catalog. *)
Lemma materialized_cell P eligible materialized c idx :
  wf_frame eligible → extends eligible materialized →
  has_column eligible c = true → column_all P eligible c →
  idx < nrows materialized →
  ∃ x, cell_at materialized c idx = Some x ∧ P x.
Proof.
  intros Hwf [Hn Hext] Hc Hall Hidx. unfold has_column in Hc.
  destruct (cols eligible !! c) as [l|] eqn:E; [|done].
  destruct (lookup_lt_is_Some_2 l idx) as [x Hx].
  { rewrite (wf_lookup _ _ _ Hwf E). lia. }
  exists x. unfold cell_at. rewrite (Hext _ _ E). split; [done|].
  specialize (Hall l E). rewrite Forall_lookup in Hall. eauto.
Qed.

(** What the service has computed when it returns a response. *)
Lemma predict_top_meals_Ok argsort user_input top_k w response :
  outcome (predict_top_meals argsort user_input top_k) w = Ok response →
  ∃ food_db user_profile query eligible_foods,
    outcome load_food_database w = Ok food_db ∧
    dict_get user_input "userProfile" (JObj []) = Ok user_profile ∧
    dict_get user_input "query" (JStr "") = Ok query ∧
    filter_by_user_constraints food_db user_profile = Ok eligible_foods ∧
    ((nrows eligible_foods = 0 ∧ ∃ message, response = NoEligible message) ∨
     ∃ materialized raw probs,
       nrows eligible_foods ≠ 0 ∧
       materialize_features eligible_foods = Ok materialized ∧
       adjust_for_goals raw materialized user_profile = Ok probs ∧
       rank_and_explain argsort probs materialized user_profile query top_k = Ok response).
Proof.
  unfold outcome, predict_top_meals, bindM.
  destruct (load_models w) as [[[[[model preprocessor] feature_selector] feature_info]|e] t1];
    [|done].
  destruct (load_food_database w) as [[food_db|e] t2]; [|done].
  unfold lift, call, retM.
  destruct (dict_get user_input "userProfile" (JObj [])) as [user_profile|e]; [|done].
  destruct (dict_get user_input "query" (JStr "")) as [query|e]; [|done].
  destruct (filter_by_user_constraints food_db user_profile) as [eligible_foods|e]
    eqn:Hfilter; [|done].
  destruct (Nat.eqb_spec (nrows eligible_foods) 0) as [Hzero|Hne].
  { cbn [fst]. intros [= <-]. exists food_db, user_profile, query, eligible_foods.
    do 4 (split; [done|]). left. split; [done|]. by eexists. }
  destruct (materialize_features eligible_foods) as [materialized|e] eqn:Hmat; [|done].
  destruct (select_columns materialized _) as [X|e]; [|done].
  destruct (preprocessor X) as [X_transformed|e]; [|done].
  destruct (nonneg_shift X_transformed) as [X_nonneg|e]; [|done].
  destruct (feature_selector X_nonneg) as [X_selected|e]; [|done].
  destruct (model X_selected) as [raw|e]; [|done].
  destruct (adjust_for_goals raw materialized user_profile) as [probs|e] eqn:Hadj; [|done].
  destruct (rank_and_explain argsort probs materialized user_profile query top_k)
    as [res|e] eqn:Hrank; [|done].
  cbn [fst]. intros [= <-]. exists food_db, user_profile, query, eligible_foods.
  do 4 (split; [done|]). right. by exists materialized, raw, probs.
Qed.

Lemma read_request_silent w : stdout_of (read_request w).2 = [].
Proof.
  rewrite read_request_run. by destruct (stdin_isatty w).
Qed.

Lemma handle_failure_silent {A} (e : exn) w : stdout_of (@handle_failure A e w).2 = [].
Proof. by destruct e. Qed.

Lemma predict_top_meals_silent argsort user_input top_k w :
  stdout_of (predict_top_meals argsort user_input top_k w).2 = [].
Proof.
  destruct (predict_top_meals_run argsort user_input top_k w)
    as (res & calls & Hcalls & ->).
  rewrite load_models_run, load_food_database_run.
  apply scoring_calls_prefix in Hcalls as [->|[->|[->| ->]]].
  all: destruct (rf_model_pkl w); [destruct (preprocessor_pkl w);
         [destruct (feature_selector_pkl w);
          [destruct (feature_names_json w) as [[?|?|[?|?|?]]|];
           [destruct (processed_data_csv w); [|destruct (usda_foods_csv w)]|..]|]|]|].
  all: reflexivity.
Qed.

(** A response on standard output is what [predict_top_meals] returned
    for the request. *)
Lemma main_stdout argsort w response :
  response ∈ stdout_of (trace (main argsort) w) →
  ∃ user_input top_k,
    outcome read_request w = Ok user_input ∧
    dict_get user_input "top_k" (JInt 5) = Ok top_k ∧
    outcome (predict_top_meals argsort user_input top_k) w = Ok response.
Proof.
  unfold trace, outcome. rewrite main_run.
  pose proof (read_request_silent w) as H0.
  destruct (read_request w) as [[user_input|e] t0]; cbn [fst snd] in *.
  2: { pose proof (@handle_failure_silent unit e w) as Hh.
       destruct (handle_failure e w) as [r t']. cbn [snd] in *.
       rewrite stdout_of_app, H0, Hh. by intros ?%elem_of_nil. }
  destruct (dict_get user_input "top_k" (JInt 5)) as [top_k|e] eqn:Htop.
  2: { pose proof (@handle_failure_silent unit e w) as Hh.
       destruct (handle_failure e w) as [r t']. cbn [snd] in *.
       rewrite stdout_of_app, H0, Hh. by intros ?%elem_of_nil. }
  pose proof (predict_top_meals_silent argsort user_input top_k w) as H1.
  destruct (predict_top_meals argsort user_input top_k w) as [[res|e] t1] eqn:Hpred;
    cbn [fst snd] in *.
  - rewrite !stdout_of_app, H0, H1. cbn. rewrite elem_of_cons, elem_of_nil.
    intros [->|[]]. exists user_input, top_k. by rewrite Hpred.
  - pose proof (@handle_failure_silent unit e w) as Hh.
    destruct (handle_failure e w) as [r t']. cbn [snd] in *.
    rewrite !stdout_of_app, H0, H1, Hh. by intros ?%elem_of_nil.
Qed.

(** X13.  What is asked for is what is served.  In every run of the
    service on a request whose restrictions are a list, each
    recommendation written to standard output carries the tag of every
    restriction the list names, as its label or as its slug, for which the
    catalog has the flag column; and, if the catalog has a cost column, a
    cost per serving that is a number not above weeklyBudget / 21. *)
Theorem restricted_request_gets_flagged_meals
    (argsort : list Q → list nat) (w : World) (user_input : json)
    (profile_fields : list (string * json)) (restrictions : list json)
    (food_db : DataFrame) :
  outcome read_request w = Ok user_input →
  dict_get user_input "userProfile" (JObj []) = Ok (JObj profile_fields) →
  assoc "dietaryRestrictions" profile_fields = Some (JArr restrictions) →
  outcome load_food_database w = Ok food_db →
  wf_frame food_db →
  ∀ response r,
    response ∈ stdout_of (trace (main argsort) w) →
    r ∈ recommendations response →
    (∀ label slug flag tag,
       (label, slug, flag, tag) ∈ tagged →
       JStr label ∈ restrictions ∨ JStr slug ∈ restrictions →
       has_column food_db flag = true →
       tag ∈ dietary_info r) ∧
    (has_column food_db "cost_per_serving" = true →
     ∃ budget max_cost q,
       dict_get (JObj profile_fields) "weeklyBudget" (JInt 100) = Ok budget ∧
       py_truediv budget 21 = Ok max_cost ∧
       cost r = Finite q ∧ (q <= max_cost)%Q).
Proof.
  intros Hreq Hprofile Hrestr Hdb Hwf response r Hout Hr.
  apply main_stdout in Hout as (ui & top_k & Hreq' & _ & Hpred).
  rewrite Hreq in Hreq'. injection Hreq' as <-.
  apply predict_top_meals_Ok in Hpred
    as (food_db' & profile & query & eligible & Hdb' & Hprof' & _ & Hfilter & Hcase).
  rewrite Hdb in Hdb'. injection Hdb' as <-.
  rewrite Hprofile in Hprof'. injection Hprof' as <-.
  destruct Hcase as [[_ [message ->]]|(materialized & raw & probs & _ & Hmat & _ & Hrank)].
  { by apply elem_of_nil in Hr. }
  apply rank_and_explain_Ok in Hrank as (top & goal & _ & Hrecs & _).
  destruct (mapR_elem _ _ _ _ Hrecs Hr) as (idx & _ & Hbuild).
  apply build_recommendation_Ok in Hbuild
    as (Hidx & _ & _ & _ & _ & _ & _ & _ & _ & _ & Hcost & _ & Htags & _).
  rewrite filter_by_user_constraints_split in Hfilter.
  apply bindR_Ok in Hfilter as (asked & Hasked & Happly).
  destruct (requested_Ok _ _ _ Hrestr Hasked) as (budget & max_cost & Hb & Hm & ->).
  pose proof (apply_constraints_selection _ _ _ Hwf Happly) as Hsel.
  pose proof (selection_of_wf _ _ Hwf Hsel) as Hwfe.
  assert (Hcols : ∀ c, has_column eligible c = has_column food_db c).
  { destruct Hsel as (mask & _ & ->). intros c. apply select_rows_has_column. }
  apply apply_constraints_guarantee in Happly as (Hv & Hg & Hn & Hwithin).
  apply materialize_features_Ok in Hmat as (Hext & _ & _).
  assert (Hflag : ∀ flag, has_column food_db flag = true →
                          column_all flag_set eligible flag →
                          flagged materialized flag idx = true).
  { intros flag Hhas Hall.
    destruct (materialized_cell flag_set eligible materialized flag idx)
      as (x & Hx & Hset); [done | done | by rewrite Hcols | done | done |].
    unfold flagged. by rewrite Hx. }
  split.
  - intros label slug flag tag Hin Hnamed Hhas. rewrite Htags. unfold tags_for.
    unfold tagged in Hin. rewrite !elem_of_cons, elem_of_nil in Hin.
    destruct Hin as [Hin|[Hin|[Hin|[]]]]; injection Hin as -> -> -> ->.
    + rewrite (Hflag "is_vegan") by (done || by apply Hv, asked_true). in_list.
    + rewrite (Hflag "is_glutenfree") by (done || by apply Hg, asked_true).
      rewrite !elem_of_app, !elem_of_cons. tauto.
    + rewrite (Hflag "is_nutfree") by (done || by apply Hn, asked_true).
      rewrite !elem_of_app, !elem_of_cons. tauto.
  - intros Hhas.
    destruct (materialized_cell (within max_cost) eligible materialized
                "cost_per_serving" idx)
      as (x & Hx & q & -> & Hq); [done | done | by rewrite Hcols | done | done |].
    rewrite Hcost in Hx. injection Hx as Hx.
    by exists budget, max_cost, q.
Qed.

Lemma restricted_request_gets_flagged_meals_witness :
  outcome load_food_database sample_world = Ok sample_catalog ∧
  ∀ response r,
    response ∈ stdout_of (trace (main argsort_insertion) sample_world) →
    r ∈ recommendations response →
    (∀ label slug flag tag,
       (label, slug, flag, tag) ∈ tagged →
       JStr label ∈ [JStr "vegan"] ∨ JStr slug ∈ [JStr "vegan"] →
       has_column sample_catalog flag = true →
       tag ∈ dietary_info r) ∧
    (has_column sample_catalog "cost_per_serving" = true →
     ∃ budget max_cost q,
       dict_get (JObj sample_profile) "weeklyBudget" (JInt 100) = Ok budget ∧
       py_truediv budget 21 = Ok max_cost ∧
       cost r = Finite q ∧ (q <= max_cost)%Q).
Proof.
  split; [reflexivity|].
  apply (restricted_request_gets_flagged_meals argsort_insertion sample_world
           sample_request sample_profile [JStr "vegan"] sample_catalog).
  - reflexivity.
  - reflexivity.
  - reflexivity.
  - reflexivity.
  - exact sample_catalog_wf.
Defined.









(** ** More on the process *)

(** X15.  A run ends in one of two ways.  Whatever the deployment and the
    request, [main] ends by raising [SystemExit]; standard output and the
    error objects on standard error together hold at most one line; a
    response on standard output is the last thing the run does and comes
    with exit status 0; an error object comes with exit status 1. *)
Theorem run_ends_with_one_response_or_one_error
    (argsort : list Q → list nat) (w : World) :
  let t := trace (main argsort) w in
  (∃ code, outcome (main argsort) w = Raise (SystemExit code)) ∧
  (length (stdout_of t) + length (error_objects t) ≤ 1)%nat ∧
  (∀ response, response ∈ stdout_of t →
     last t = Some (EvStdout response) ∧
     exit_status (outcome (main argsort) w) = 0%Z) ∧
  (error_objects t ≠ [] → exit_status (outcome (main argsort) w) = 1%Z).
Proof.
  cbv zeta. run_cases argsort w.
  all: split; [by eexists|].
  all: split; [cbn; lia|].
  all: split;
    [ cbn; intros response Hin;
      first [ by apply elem_of_nil in Hin
            | apply elem_of_cons in Hin as [->|Hin];
              [by split | by apply elem_of_nil in Hin] ]
    | cbn; intros Hne; first [ reflexivity | by destruct Hne ] ].
Qed.

Lemma read_request_quiet w :
  error_objects (read_request w).2 = [] ∧ opened (read_request w).2 = [].
Proof. rewrite read_request_run. by destruct (stdin_isatty w). Qed.

Lemma error_objects_app t1 t2 :
  error_objects (t1 ++ t2) = error_objects t1 ++ error_objects t2.
Proof. unfold error_objects. apply omap_app. Qed.

(** X16.  A feature list the decoder does not accept ends the run.  When
    the three fitted objects are there and the decoder raises on
    [feature_names.json], the exception leaves [load_models], which only
    catches a missing file, and reaches the handlers of [main]: the run
    exits with status 1, writes no response and never opens a catalog,
    although the request was read and parsed.  A [JSONDecodeError] is
    caught by the first handler and reported as invalid JSON input, with
    the decoder's diagnosis; the other exceptions of the decoder are
    caught by the second and reported as a failed prediction. *)
Theorem corrupt_feature_list_ends_the_run
    (argsort : list Q → list nat) (w : World) (user_input top_k : json)
    (model : Classifier) (preprocessor : Preprocessor) (feature_selector : Selector)
    (text : document) (e : exn) :
  outcome read_request w = Ok user_input →
  dict_get user_input "top_k" (JInt 5) = Ok top_k →
  rf_model_pkl w = Some model →
  preprocessor_pkl w = Some preprocessor →
  feature_selector_pkl w = Some feature_selector →
  feature_names_json w = Some text →
  json_loads text = Raise e →
  let t := trace (main argsort) w in
  exit_status (outcome (main argsort) w) = 1%Z ∧
  stdout_of t = [] ∧
  opened t = artifact_files ∧
  (∀ decoder_msg, text = Malformed decoder_msg →
     error_objects t = [("Invalid JSON input: " ++ decoder_msg)%string]) ∧
  (∀ failure, text = Aborted failure →
     error_objects t = [("Prediction failed: " ++ py_str (abort_exn failure))%string]).
Proof.
  intros Hreq Htop Hm Hp Hs Hn Hdoc. cbv zeta. unfold trace, outcome in *.
  rewrite main_run.
  destruct (read_request_quiet w) as [Q1 Q2]. pose proof (read_request_silent w) as Q3.
  destruct (read_request w) as [[ui|e'] t0]; cbn [fst snd] in *; [|done].
  injection Hreq as ->. rewrite Htop.
  assert (Hpredict : predict_top_meals argsort user_input top_k w
                     = (Raise e, map EvOpen artifact_files)).
  { unfold predict_top_meals. unfold bindM at 1.
    rewrite load_models_run, Hm, Hp, Hs, Hn.
    destruct text as [value|decoder_msg|failure]; [discriminate Hdoc|..];
      simpl in Hdoc; by injection Hdoc as <-. }
  rewrite Hpredict.
  destruct text as [value|decoder_msg|[msg|msg|msg]]; [discriminate Hdoc|..].
  all: simpl in Hdoc; injection Hdoc as <-.
  all: cbn [handle_failure is_Exception bindM emit sys_exit raise lift app py_str fst snd
            abort_exn].
  all: rewrite !error_objects_app, !stdout_of_app, !opened_app, Q1, Q2, Q3.
  all: repeat split; try done.
  all: by intros ? [= <-].
Qed.

Lemma corrupt_feature_list_ends_the_run_witness :
  (exit_status (outcome (main argsort_insertion) corrupt_world) = 1%Z ∧
   stdout_of (trace (main argsort_insertion) corrupt_world) = [] ∧
   opened (trace (main argsort_insertion) corrupt_world) = artifact_files ∧
   error_objects (trace (main argsort_insertion) corrupt_world)
   = [("Invalid JSON input: " ++ "Expecting ',' delimiter: line 3 column 5 (char 40)")%string]) ∧
  (exit_status (outcome (main argsort_insertion) undecodable_world) = 1%Z ∧
   stdout_of (trace (main argsort_insertion) undecodable_world) = [] ∧
   opened (trace (main argsort_insertion) undecodable_world) = artifact_files ∧
   error_objects (trace (main argsort_insertion) undecodable_world)
   = [("Prediction failed: "
       ++ "'utf-8' codec can't decode byte 0xff in position 0: invalid start byte")%string]).
Proof.
  split.
  - destruct (corrupt_feature_list_ends_the_run argsort_insertion corrupt_world
                sample_request (JInt 5) sample_model sample_preprocessor sample_selector
                (Malformed "Expecting ',' delimiter: line 3 column 5 (char 40)")
                (JSONDecodeError "Expecting ',' delimiter: line 3 column 5 (char 40)"))
      as (Hexit & Hout & Hopened & Hmalformed & _).
    + reflexivity.
    + reflexivity.
    + reflexivity.
    + reflexivity.
    + reflexivity.
    + reflexivity.
    + reflexivity.
    + split; [exact Hexit|]. split; [exact Hout|]. split; [exact Hopened|].
      apply Hmalformed. reflexivity.
  - destruct (corrupt_feature_list_ends_the_run argsort_insertion undecodable_world
                sample_request (JInt 5) sample_model sample_preprocessor sample_selector
                (Aborted (NotUnicode
                   "'utf-8' codec can't decode byte 0xff in position 0: invalid start byte"))
                (UnicodeDecodeError
                   "'utf-8' codec can't decode byte 0xff in position 0: invalid start byte"))
      as (Hexit & Hout & Hopened & _ & Haborted).
    + reflexivity.
    + reflexivity.
    + reflexivity.
    + reflexivity.
    + reflexivity.
    + reflexivity.
    + reflexivity.
    + split; [exact Hexit|]. split; [exact Hout|]. split; [exact Hopened|].
      apply (Haborted _ eq_refl).
Defined.

(** X17.  A request that is valid JSON but not an object fails before any
    file is opened: looking up [top_k] raises, the second handler of
    [main] reports a failed prediction with the exception's text, and the
    process exits with status 1 without a response. *)
Theorem request_must_be_an_object
    (argsort : list Q → list nat) (w : World) (user_input : json) (e : exn) :
  outcome read_request w = Ok user_input →
  dict_get user_input "top_k" (JInt 5) = Raise e →
  let t := trace (main argsort) w in
  (∀ fields, user_input ≠ JObj fields) ∧
  error_objects t = [("Prediction failed: " ++ py_str e)%string] ∧
  exit_status (outcome (main argsort) w) = 1%Z ∧
  stdout_of t = [] ∧
  opened t = [].
Proof.
  intros Hreq Htop. cbv zeta. split.
  { intros fields ->. discriminate Htop. }
  unfold trace, outcome in *. rewrite main_run.
  destruct (read_request_quiet w) as [Q1 Q2]. pose proof (read_request_silent w) as Q3.
  destruct (read_request w) as [[ui|e'] t0]; cbn [fst snd] in *; [|done].
  injection Hreq as ->. rewrite Htop.
  assert (He : ∃ msg, e = AttributeError msg).
  { destruct user_input; simpl in Htop; try discriminate; injection Htop as <-; eauto. }
  destruct He as [msg ->].
  cbn [handle_failure is_Exception bindM emit sys_exit raise lift app py_str fst snd].
  rewrite !error_objects_app, !stdout_of_app, !opened_app, Q1, Q2, Q3. done.
Qed.

Lemma request_must_be_an_object_witness :
  (∀ fields, JArr [JStr "dinner"] ≠ JObj fields) ∧
  error_objects (trace (main argsort_insertion) list_world)
  = [("Prediction failed: " ++ py_str (AttributeError "object has no attribute 'get'"))%string] ∧
  exit_status (outcome (main argsort_insertion) list_world) = 1%Z ∧
  stdout_of (trace (main argsort_insertion) list_world) = [] ∧
  opened (trace (main argsort_insertion) list_world) = [].
Proof.
  apply (request_must_be_an_object argsort_insertion list_world (JArr [JStr "dinner"])
           (AttributeError "object has no attribute 'get'")).
  - reflexivity.
  - reflexivity.
Defined.

(** ** What a run depends on *)

Lemma filter_by_user_constraints_ext df p1 p2 :
  dict_get p1 "dietaryRestrictions" (JArr []) = dict_get p2 "dietaryRestrictions" (JArr []) →
  dict_get p1 "weeklyBudget" (JInt 100) = dict_get p2 "weeklyBudget" (JInt 100) →
  filter_by_user_constraints df p1 = filter_by_user_constraints df p2.
Proof.
  intros Hr Hb. unfold filter_by_user_constraints. rewrite Hr.
  destruct (dict_get p2 "dietaryRestrictions" (JArr [])); [|done]. cbn [bindR].
  by rewrite Hb.
Qed.

Lemma adjust_for_goals_ext probs df p1 p2 :
  dict_get p1 "primaryGoal" (JStr "") = dict_get p2 "primaryGoal" (JStr "") →
  adjust_for_goals probs df p1 = adjust_for_goals probs df p2.
Proof. intros H. unfold adjust_for_goals. by rewrite H. Qed.

Lemma rank_and_explain_ext argsort probs df p1 p2 query top_k :
  dict_get p1 "primaryGoal" (JStr "General Health")
  = dict_get p2 "primaryGoal" (JStr "General Health") →
  rank_and_explain argsort probs df p1 query top_k
  = rank_and_explain argsort probs df p2 query top_k.
Proof.
  intros H. unfold rank_and_explain.
  destruct (top_indices argsort probs top_k); [|done]. cbn [bindR].
  destruct (mapR _ _); [|done]. cbn [bindR]. by rewrite H.
Qed.

(** Of the request [predict_top_meals] reads the profile and the query,
    and of the profile the goal, the restrictions and the budget. *)
Lemma predict_top_meals_ext argsort ui1 ui2 top_k w p1 p2 :
  dict_get ui1 "userProfile" (JObj []) = Ok p1 →
  dict_get ui2 "userProfile" (JObj []) = Ok p2 →
  dict_get ui1 "query" (JStr "") = dict_get ui2 "query" (JStr "") →
  dict_get p1 "primaryGoal" (JStr "") = dict_get p2 "primaryGoal" (JStr "") →
  dict_get p1 "primaryGoal" (JStr "General Health")
  = dict_get p2 "primaryGoal" (JStr "General Health") →
  dict_get p1 "dietaryRestrictions" (JArr []) = dict_get p2 "dietaryRestrictions" (JArr []) →
  dict_get p1 "weeklyBudget" (JInt 100) = dict_get p2 "weeklyBudget" (JInt 100) →
  predict_top_meals argsort ui1 top_k w = predict_top_meals argsort ui2 top_k w.
Proof.
  intros H1 H2 Hq Hg Hg' Hr Hb. unfold predict_top_meals, bindM.
  destruct (load_models w) as [[[[[model preprocessor] feature_selector] feature_info]|e] t1];
    [|done].
  destruct (load_food_database w) as [[food_db|e] t2]; [|done].
  unfold lift, call, retM. rewrite H1, H2, Hq.
  destruct (dict_get ui2 "query" (JStr "")) as [query|e]; [|done].
  rewrite (filter_by_user_constraints_ext food_db p1 p2 Hr Hb).
  destruct (filter_by_user_constraints food_db p2) as [eligible_foods|e]; [|done].
  destruct (nrows eligible_foods =? 0)%nat; [done|].
  destruct (materialize_features eligible_foods) as [materialized|e]; [|done].
  destruct (select_columns materialized _) as [X|e]; [|done].
  destruct (preprocessor X) as [X_transformed|e]; [|done].
  destruct (nonneg_shift X_transformed) as [X_nonneg|e]; [|done].
  destruct (feature_selector X_nonneg) as [X_selected|e]; [|done].
  destruct (model X_selected) as [raw|e]; [|done].
  rewrite (adjust_for_goals_ext raw materialized p1 p2 Hg).
  destruct (adjust_for_goals raw materialized p2) as [probs|e]; [|done].
  by rewrite (rank_and_explain_ext argsort probs materialized p1 p2 query top_k Hg').
Qed.

(** X18.  The service reads six keys.  Two requests that are objects, give
    the same [top_k] and [query], these keys counting as 5 and the empty
    string when absent, and carry profiles that are objects with the same
    goal, restrictions and budget, the last two counting as the empty list
    and 100 when absent, make the same run on the same deployment:
    the same events and the same outcome, whatever else the requests and
    the profiles hold. *)
Theorem a_run_depends_on_six_keys
    (argsort : list Q → list nat) (w : World)
    (fields1 fields2 profile1 profile2 : list (string * json)) :
  dict_get (JObj fields1) "top_k" (JInt 5) = dict_get (JObj fields2) "top_k" (JInt 5) →
  dict_get (JObj fields1) "query" (JStr "") = dict_get (JObj fields2) "query" (JStr "") →
  dict_get (JObj fields1) "userProfile" (JObj []) = Ok (JObj profile1) →
  dict_get (JObj fields2) "userProfile" (JObj []) = Ok (JObj profile2) →
  assoc "primaryGoal" profile1 = assoc "primaryGoal" profile2 →
  dict_get (JObj profile1) "dietaryRestrictions" (JArr [])
  = dict_get (JObj profile2) "dietaryRestrictions" (JArr []) →
  dict_get (JObj profile1) "weeklyBudget" (JInt 100)
  = dict_get (JObj profile2) "weeklyBudget" (JInt 100) →
  trace (main argsort) (piped w (Valid (JObj fields1)))
  = trace (main argsort) (piped w (Valid (JObj fields2))) ∧
  outcome (main argsort) (piped w (Valid (JObj fields1)))
  = outcome (main argsort) (piped w (Valid (JObj fields2))).
Proof.
  intros Hk Hq H1 H2 Hg Hr Hb.
  enough (main argsort (piped w (Valid (JObj fields1)))
          = main argsort (piped w (Valid (JObj fields2)))) as Heq.
  { unfold trace, outcome. by rewrite Heq. }
  rewrite !main_run, !read_request_run. cbn [piped stdin_isatty stdin json_loads].
  rewrite Hk. destruct (dict_get (JObj fields2) "top_k" (JInt 5)) as [top_k|e];
    [|by rewrite !handle_failure_piped].
  rewrite !predict_top_meals_piped.
  rewrite (predict_top_meals_ext argsort (JObj fields1) (JObj fields2) top_k w
             (JObj profile1) (JObj profile2) H1 H2 Hq);
    [|cbn [dict_get]; by rewrite Hg..|done|done].
  destruct (predict_top_meals argsort (JObj fields2) top_k w) as [[result|e] t1]; [done|].
  by rewrite !handle_failure_piped.
Qed.

Lemma a_run_depends_on_six_keys_witness :
  trace (main argsort_insertion) (piped sample_world (Valid (JObj sample_request_fields)))
  = trace (main argsort_insertion) (piped sample_world (Valid (JObj terse_request))) ∧
  outcome (main argsort_insertion) (piped sample_world (Valid (JObj sample_request_fields)))
  = outcome (main argsort_insertion) (piped sample_world (Valid (JObj terse_request))).
Proof.
  apply (a_run_depends_on_six_keys argsort_insertion sample_world
           sample_request_fields terse_request sample_profile padded_profile).
  - reflexivity.
  - reflexivity.
  - reflexivity.
  - reflexivity.
  - reflexivity.
  - reflexivity.
  - reflexivity.
Defined.

Lemma load_models_with_catalogs w processed usda :
  load_models (with_catalogs w processed usda) = load_models w.
Proof. by rewrite !load_models_run. Qed.

(** With the catalog in either file the service computes the same. *)
Lemma predict_top_meals_either_catalog argsort user_input top_k w df usda :
  (predict_top_meals argsort user_input top_k (with_catalogs w (Some df) usda)).1
  = (predict_top_meals argsort user_input top_k (with_catalogs w None (Some df))).1 ∧
  stderr_of (predict_top_meals argsort user_input top_k (with_catalogs w (Some df) usda)).2
  = stderr_of (predict_top_meals argsort user_input top_k (with_catalogs w None (Some df))).2.
Proof.
  unfold predict_top_meals, bindM. rewrite !load_models_with_catalogs.
  destruct (load_models w) as [[[[[model preprocessor] feature_selector] feature_info]|e] t1];
    [|done].
  rewrite !load_food_database_run. cbn [with_catalogs processed_data_csv usda_foods_csv].
  unfold lift, call, retM.
  repeat match goal with
         | |- context [match ?x with Ok _ => _ | Raise _ => _ end] => destruct x
         | |- context [if ?x then _ else _] => destruct x
         end.
  all: cbn [fst snd]; split; [reflexivity|].
  all: rewrite !stderr_of_app; reflexivity.
Qed.

Lemma primary_hides_fallback argsort w :
  absent (processed_data_csv w) = false →
  "data/usda-foods.csv" ∉ opened (trace (main argsort) w).
Proof.
  run_cases argsort w.
  all: cbn; intros Hd; try discriminate Hd.
  all: rewrite ?not_elem_of_cons; repeat split; try discriminate; apply not_elem_of_nil.
Qed.

(** X19.  The fallback catalog is used like the primary one.  A
    deployment that has the catalog only as [usda-foods.csv] and one that
    has the same catalog as [processed_data.csv] answer every request
    alike: the same outcome, the same standard output and the same
    standard error; and where [processed_data.csv] is there the fallback
    file is never opened. *)
Theorem fallback_catalog_is_used_like_the_primary
    (argsort : list Q → list nat) (w : World) (df : DataFrame) (usda : option DataFrame) :
  let primary := with_catalogs w (Some df) usda in
  let fallback := with_catalogs w None (Some df) in
  outcome (main argsort) primary = outcome (main argsort) fallback ∧
  stdout_of (trace (main argsort) primary) = stdout_of (trace (main argsort) fallback) ∧
  stderr_of (trace (main argsort) primary) = stderr_of (trace (main argsort) fallback) ∧
  "data/usda-foods.csv" ∉ opened (trace (main argsort) primary).
Proof.
  cbv zeta.
  enough (outcome (main argsort) (with_catalogs w (Some df) usda)
          = outcome (main argsort) (with_catalogs w None (Some df)) ∧
          stdout_of (trace (main argsort) (with_catalogs w (Some df) usda))
          = stdout_of (trace (main argsort) (with_catalogs w None (Some df))) ∧
          stderr_of (trace (main argsort) (with_catalogs w (Some df) usda))
          = stderr_of (trace (main argsort) (with_catalogs w None (Some df))))
    as (Ho & H1 & H2).
  { do 3 (split; [done|]). by apply primary_hides_fallback. }
  unfold trace, outcome. rewrite !main_run, !read_request_run.
  cbn [with_catalogs stdin_isatty stdin].
  assert (Hstep : ∀ user_input t0,
    match dict_get user_input "top_k" (JInt 5) with
    | Ok top_k =>
        ∀ p1 p2,
          p1 = predict_top_meals argsort user_input top_k (with_catalogs w (Some df) usda) →
          p2 = predict_top_meals argsort user_input top_k (with_catalogs w None (Some df)) →
          let finish (w' : World) (p : result Response * list event)
            : result unit * list event :=
            match p with
            | (Raise e, t1) => let '(r, t') := handle_failure e w' in (r, t0 ++ t1 ++ t')
            | (Ok result, t1) => (Raise (SystemExit 0), t0 ++ t1 ++ [EvStdout result])
            end in
          (finish (with_catalogs w (Some df) usda) p1).1
          = (finish (with_catalogs w None (Some df)) p2).1 ∧
          stdout_of (finish (with_catalogs w (Some df) usda) p1).2
          = stdout_of (finish (with_catalogs w None (Some df)) p2).2 ∧
          stderr_of (finish (with_catalogs w (Some df) usda) p1).2
          = stderr_of (finish (with_catalogs w None (Some df)) p2).2
    | Raise _ => True
    end).
  { intros user_input t0. destruct (dict_get user_input "top_k" (JInt 5)) as [top_k|e];
      [|done].
    intros p1 p2 -> ->. cbv zeta.
    destruct (predict_top_meals_either_catalog argsort user_input top_k w df usda)
      as [Ho He].
    pose proof (predict_top_meals_silent argsort user_input top_k
                  (with_catalogs w (Some df) usda)) as S1.
    pose proof (predict_top_meals_silent argsort user_input top_k
                  (with_catalogs w None (Some df))) as S2.
    destruct (predict_top_meals argsort user_input top_k (with_catalogs w (Some df) usda))
      as [[r1|e1] t1];
      destruct (predict_top_meals argsort user_input top_k (with_catalogs w None (Some df)))
        as [[r2|e2] t2]; cbn [fst snd] in *; simplify_eq.
    - rewrite !stdout_of_app, !stderr_of_app, S1, S2, He. done.
    - rewrite !handle_failure_run.
      destruct e2; cbn [fst snd]; rewrite !stdout_of_app, !stderr_of_app, S1, S2, He; done. }
  destruct (stdin_isatty w).
  - specialize (Hstep test_input
                  [EvIsatty; EvStderr (Notice "No input provided. Using test data...")]).
    change (dict_get test_input "top_k" (JInt 5)) with (Ok (JInt 5)) in *.
    cbv beta iota. by apply Hstep.
  - destruct (json_loads (stdin w)) as [user_input|e].
    + specialize (Hstep user_input [EvIsatty; EvStdinRead]).
      destruct (dict_get user_input "top_k" (JInt 5)) as [top_k|e].
      * by apply Hstep.
      * rewrite !handle_failure_run. by destruct e.
    + rewrite !handle_failure_run. by destruct e.
Qed.

(** ** The loaders *)

(** X20.  The loaders stop at the first file that is missing.
    [load_models] opens the four artifacts in a fixed order; when one is
    absent it has opened the ones before it, which are there, and that
    one, names it in the one error object it prints and exits with status
    1; otherwise it opens all four and prints nothing.
    [load_food_database] opens [processed_data.csv] and nothing else when
    that file is there; it opens [usda-foods.csv] after it when it is not,
    and when both are absent it names the second in its error object and
    exits with status 1. *)
Theorem loaders_stop_at_the_first_missing_file (w : World) :
  let t := trace load_models w in
  let t' := trace load_food_database w in
  (missing_artifact w = true →
   ∃ found path,
     opened t = found ++ [path] ∧
     found ++ [path] `prefix_of` artifact_files ∧
     Forall (λ file, on_disk w file = true) found ∧
     on_disk w path = false ∧
     stderr_of t = [ErrorObject ("Model files not found. Run train.py first. "
                                 ++ py_str (FileNotFoundError path))] ∧
     outcome load_models w = Raise (SystemExit 1)) ∧
  (missing_artifact w = false → opened t = artifact_files ∧ stderr_of t = []) ∧
  (on_disk w "ml/processed_data.csv" = true →
   opened t' = ["ml/processed_data.csv"] ∧ stderr_of t' = [] ∧
   ∃ df, processed_data_csv w = Some df ∧ outcome load_food_database w = Ok df) ∧
  (on_disk w "ml/processed_data.csv" = false →
   opened t' = catalog_files ∧
   (on_disk w "data/usda-foods.csv" = true →
    stderr_of t' = [] ∧
    ∃ df, usda_foods_csv w = Some df ∧ outcome load_food_database w = Ok df) ∧
   (on_disk w "data/usda-foods.csv" = false →
    stderr_of t' = [ErrorObject ("Food database not found: "
                                 ++ py_str (FileNotFoundError "data/usda-foods.csv"))] ∧
    outcome load_food_database w = Raise (SystemExit 1))).
Proof.
  cbv zeta. unfold trace, outcome. rewrite load_models_run, load_food_database_run.
  destruct w as [tty doc m p s n d u].
  cbn [rf_model_pkl preprocessor_pkl feature_selector_pkl feature_names_json
       processed_data_csv usda_foods_csv].
  split; [|split].
  - destruct m; [destruct p; [destruct s; [destruct n as [[?|?|[?|?|?]]|]|]|]|]; cbn;
      intros Hm; try discriminate Hm.
    + exists [ "ml/rf_model.pkl"; "ml/preprocessor.pkl"; "ml/feature_selector.pkl" ],
             "ml/feature_names.json".
      split; [done|]. split; [by eexists|]. split; [by repeat constructor | done].
    + exists [ "ml/rf_model.pkl"; "ml/preprocessor.pkl" ], "ml/feature_selector.pkl".
      split; [done|]. split; [by eexists|]. split; [by repeat constructor | done].
    + exists [ "ml/rf_model.pkl" ], "ml/preprocessor.pkl".
      split; [done|]. split; [by eexists|]. split; [by repeat constructor | done].
    + exists [], "ml/rf_model.pkl".
      split; [done|]. split; [by eexists|]. split; [by repeat constructor | done].
  - destruct m; [destruct p; [destruct s; [destruct n as [[?|?|[?|?|?]]|]|]|]|]; cbn;
      intros Hm; try discriminate Hm; done.
  - destruct d as [df|]; [|destruct u as [df|]]; cbn.
    + split; [intros _; eauto|]. intros Hd. discriminate Hd.
    + split; [intros Hd; discriminate Hd|]. intros _. split; [done|].
      split; [intros _; eauto|]. intros Hu. discriminate Hu.
    + split; [intros Hd; discriminate Hd|]. intros _. split; [done|].
      split; [intros Hu; discriminate Hu|]. done.
Qed.

(** ** The data generators *)

Lemma bindG_Ok {Gen A B} (m : Rand Gen A) (f : A → Rand Gen B) g b g' :
  bindG m f g = (Ok b, g') → ∃ a g1, m g = (Ok a, g1) ∧ f a g1 = (Ok b, g').
Proof. unfold bindG. destruct (m g) as [[a|e] g1]; [eauto | discriminate]. Qed.

Lemma draw_Ok {Gen A} (f : Gen → A * Gen) g a g' :
  draw f g = (Ok a, g') → a = (f g).1.
Proof. unfold draw. destruct (f g) as [a0 g0]. by intros [= <- _]. Qed.

Lemma bindG_draw {Gen A B} (f : Gen → A * Gen) (k : A → Rand Gen B) g :
  bindG (draw f) k g = k (f g).1 (f g).2.
Proof. unfold bindG, draw. by destruct (f g). Qed.

Lemma mapG_Ok {Gen A B} (f : A → Rand Gen B) (P : B → Prop) l g ys g' :
  (∀ x g1 y g2, f x g1 = (Ok y, g2) → P y) →
  mapG f l g = (Ok ys, g') → Forall P ys ∧ length ys = length l.
Proof.
  intros HP. revert g ys. induction l as [|x l IH]; intros g ys; simpl.
  - intros [= <- _]. by split.
  - intros H. apply bindG_Ok in H as (y & g1 & Hy & H).
    apply bindG_Ok in H as (ys' & g2 & Hys & [= <- <-]).
    destruct (IH _ _ Hys) as [Hall Hlen]. split; [|simpl; by rewrite Hlen].
    constructor; [by eapply HP | done].
Qed.

Lemma mapG_total {Gen A B} (f : A → Rand Gen B) l g :
  (∀ x g1, ∃ y g2, f x g1 = (Ok y, g2)) → ∃ ys g', mapG f l g = (Ok ys, g').
Proof.
  intros Hf. revert g. induction l as [|x l IH]; intros g; simpl; [by eexists _, _|].
  destruct (Hf x g) as (y & g1 & Hy). destruct (IH g1) as (ys & g2 & Hys).
  exists (y :: ys), g2. unfold bindG. by rewrite Hy, Hys.
Qed.

(** *** Frames built from records *)

Lemma DataFrame_of_lookup rows c :
  cols (DataFrame_of rows) !! c
  = if decide (c ∈ concat (map (map fst) rows))
    then Some (map (λ row, default (CNum NaN) (field c row)) rows)
    else None.
Proof.
  unfold DataFrame_of. cbn [cols].
  set (column := λ c : string, map (λ row, default (CNum NaN) (field c row)) rows).
  destruct (decide (c ∈ concat (map (map fst) rows))) as [Hin|Hout].
  - apply (elem_of_list_to_map_1' (M := gmap string)).
    + intros y Hy. apply list_elem_of_fmap in Hy as (c' & [= -> ->] & _). done.
    + exact (list_elem_of_fmap_2 (λ c, (c, column c)) _ c Hin).
  - apply not_elem_of_list_to_map_1. rewrite <- list_fmap_compose.
    intros H. apply Hout. apply list_elem_of_fmap in H as (c' & -> & H). exact H.
Qed.

Lemma elem_of_concat {A} (x : A) (ls : list (list A)) :
  x ∈ concat ls ↔ ∃ l, x ∈ l ∧ l ∈ ls.
Proof.
  induction ls as [|k ls IH]; simpl.
  - rewrite elem_of_nil. split; [done|]. intros (l & _ & H). by apply elem_of_nil in H.
  - rewrite elem_of_app, IH. split.
    + intros [H|(l & H1 & H2)]; [exists k | exists l]; split; try done; [by left | by right].
    + intros (l & H1 & H2). apply elem_of_cons in H2 as [->|H2]; [by left | right; eauto].
Qed.

Lemma generated_keys rows c :
  rows ≠ [] → Forall generated rows →
  c ∈ concat (map (map fst) rows) ↔ c ∈ generated_columns.
Proof.
  intros Hne Hall. rewrite elem_of_concat. split.
  - intros (keys & Hc & Hkeys). apply list_elem_of_fmap in Hkeys as (row & -> & Hrow).
    rewrite Forall_forall in Hall. by rewrite (proj1 (Hall row Hrow)) in Hc.
  - intros Hc. destruct rows as [|row rows]; [done|].
    exists (map fst row). split; [|by left].
    apply Forall_cons in Hall as [[-> _] _]. done.
Qed.

Lemma generated_column rows c :
  rows ≠ [] → Forall generated rows → c ∈ generated_columns →
  cols (DataFrame_of rows) !! c
  = Some (map (λ row, default (CNum NaN) (field c row)) rows).
Proof.
  intros Hne Hall Hc. rewrite DataFrame_of_lookup.
  by rewrite decide_True by (by apply generated_keys).
Qed.

Lemma generated_numeric rows c :
  Forall generated rows →
  c ∈ generated_columns → c ≠ "description" → c ≠ "food_category" →
  Forall (λ x, is_number x = true)
    (map (λ row, default (CNum NaN) (field c row)) rows).
Proof.
  intros Hall Hc H1 H2. apply Forall_fmap. eapply Forall_impl; [exact Hall|].
  intros row (_ & _ & Hnum). destruct (Hnum c Hc H1 H2) as [q Hq]. simpl.
  by rewrite Hq.
Qed.

Lemma DataFrame_of_wf rows : wf_frame (DataFrame_of rows).
Proof.
  intros c l. rewrite DataFrame_of_lookup. destruct (decide _); [|done].
  intros [= <-]. simpl. by rewrite length_map.
Qed.

Lemma label_masks rows :
  mask_and
    (mask_and
       (mask_and
          (map (λ x, num_gt (num_of x) 10)
             (map (λ row, default (CNum NaN) (field "protein_g" row)) rows))
          (map (λ x, num_lt (num_of x) 5)
             (map (λ row, default (CNum NaN) (field "sugars_g" row)) rows)))
       (map (λ x, num_gt (num_of x) 3)
          (map (λ row, default (CNum NaN) (field "fiber_g" row)) rows)))
    (map (λ x, num_lt (num_of x) 2)
       (map (λ row, default (CNum NaN) (field "cost_per_serving" row)) rows))
  = map label_of rows.
Proof.
  unfold mask_and. induction rows as [|row rows IH]; [done|].
  cbn [map zip_with]. by rewrite IH.
Qed.

(** On generated records [compute_labels] labels each by its own numbers. *)
Lemma compute_labels_generated rows :
  rows ≠ [] → Forall generated rows →
  compute_labels (DataFrame_of rows)
  = Ok (setitem (DataFrame_of rows) "fit" (as_int (map label_of rows))).
Proof.
  intros Hne Hall. unfold compute_labels, compare_column, getitem.
  rewrite !(generated_column rows) by (done || decide_list). cbn [bindR].
  rewrite !cmp_mask_numeric
    by (apply generated_numeric; [done | decide_list | discriminate | discriminate]).
  cbn [bindR]. by rewrite label_masks.
Qed.

Lemma as_int_replicate n (b : bool) :
  as_int (replicate n b) = replicate n (CNum (Finite (if b then 1 else 0))).
Proof. unfold as_int. induction n; simpl; [done|]. by rewrite IHn. Qed.

Lemma map_constant {A B} (f : A → B) (b : B) (l : list A) :
  Forall (λ x, f x = b) l → map f l = replicate (length l) b.
Proof. induction 1 as [|x l Hx _ IH]; simpl; [done|]. by rewrite Hx, IH. Qed.

Lemma explainable_generated rows :
  rows ≠ [] → Forall generated rows → explainable (DataFrame_of rows) = true.
Proof.
  intros Hne Hall. unfold explainable, has_column.
  rewrite (generated_column rows) by (done || decide_list). cbn [andb forallb].
  unfold numeric_column. rewrite !(generated_column rows) by (done || decide_list).
  rewrite !(proj2 (forallb_Forall _ _)); [done|..].
  all: apply generated_numeric; [done | decide_list | discriminate | discriminate].
Qed.

Lemma py_max_le a b c : (a <= c)%Q → (b <= c)%Q → (py_max a b <= c)%Q.
Proof. intros Ha Hb. unfold py_max. by destruct (Qlt_bool a b). Qed.

(** No category has the protein and the fiber of a fit item. *)
Lemma category_never_fit cat cal prot fat carb fib sug :
  category_profile cat = (cal, prot, fat, carb, fib, sug) →
  (0 <= prot)%Q ∧ (0 <= fib)%Q ∧ ((prot * 1.2 <= 10)%Q ∨ (fib * 1.2 <= 3)%Q).
Proof.
  unfold category_profile.
  repeat match goal with
         | |- context [if ?b then _ else _] => destruct b
         end.
  all: intros [= <- <- <- <- <- <-]; split; [done|]; split; [done|].
  all: first [ by left | by right ].
Qed.

Section GeneratorContract.

Variable Gen : Type.
Variable uniform : Q → Q → Gen → Q * Gen.
Variable random : Gen → Q * Gen.
Variable choice : list string → Gen → string * Gen.
Variable sample_position : DataFrame → Gen → result nat * Gen.

(** What numpy promises of [uniform]: a value between the bounds. *)
Hypothesis uniform_range :
  ∀ low high g, (low <= high)%Q → (low <= (uniform low high g).1 <= high)%Q.

Lemma scaled_le (base factor : Q) :
  (0 <= base)%Q → (factor <= 1.2)%Q → (base * factor <= base * 1.2)%Q.
Proof. intros Hb Hf. rewrite !(Qmult_comm base). by apply Qmult_le_compat_r. Qed.

Lemma healthy_row_spec base_df i g row g' :
  healthy_row Gen uniform random sample_position base_df i g = (Ok row, g') →
  generated row ∧ label_of row = true.
Proof.
  unfold healthy_row. intros H.
  apply bindG_Ok in H as (food_category & g0 & _ & H).
  apply bindG_Ok in H as (calories & g1 & _ & H).
  apply bindG_Ok in H as (protein_g & g2 & Hp%draw_Ok & H).
  apply bindG_Ok in H as (fat_g & g3 & _ & H).
  apply bindG_Ok in H as (carbs_g & g4 & _ & H).
  apply bindG_Ok in H as (fiber_g & g5 & Hf%draw_Ok & H).
  apply bindG_Ok in H as (sugars_g & g6 & Hs%draw_Ok & H).
  do 9 (apply bindG_Ok in H as (? & ? & _ & H)).
  apply bindG_Ok in H as (cost_per_serving & g16 & Hc%draw_Ok & H).
  do 3 (apply bindG_Ok in H as (? & ? & _ & H)).
  injection H as <- _. split.
  - split; [reflexivity|]. split; [by eexists|].
    intros c Hc' H1 H2. unfold generated_columns in Hc'.
    rewrite !elem_of_cons, elem_of_nil in Hc'.
    repeat (destruct Hc' as [->|Hc']; [first [done | by eexists]|]). done.
  - unfold label_of, fit_of. cbn [field String.eqb Ascii.eqb Bool.eqb default from_option id num_of float].
    subst protein_g fiber_g sugars_g cost_per_serving.
    unfold num_gt, num_lt. rewrite !andb_true_iff, !Qlt_bool_iff.
    repeat split.
    + apply Qlt_le_trans with 12%Q; [done|]. by eapply proj1, uniform_range.
    + apply Qle_lt_trans with 4%Q; [|done]. by eapply proj2, uniform_range.
    + apply Qlt_le_trans with 4%Q; [done|]. by eapply proj1, uniform_range.
    + apply Qle_lt_trans with 1.8%Q; [|done]. by eapply proj2, uniform_range.
Qed.

Lemma unhealthy_row_spec base_df i g row g' :
  unhealthy_row Gen uniform random sample_position base_df i g = (Ok row, g') →
  generated row ∧ label_of row = false.
Proof.
  unfold unhealthy_row. intros H.
  apply bindG_Ok in H as (food_category & g0 & _ & H).
  apply bindG_Ok in H as (calories & g1 & _ & H).
  apply bindG_Ok in H as (protein_g & g2 & Hp%draw_Ok & H).
  do 17 (apply bindG_Ok in H as (? & ? & _ & H)).
  injection H as <- _. split.
  - split; [reflexivity|]. split; [by eexists|].
    intros c Hc' H1 H2. unfold generated_columns in Hc'.
    rewrite !elem_of_cons, elem_of_nil in Hc'.
    repeat (destruct Hc' as [->|Hc']; [first [done | by eexists]|]). done.
  - unfold label_of, fit_of. cbn [field String.eqb Ascii.eqb Bool.eqb default from_option id num_of float].
    assert (Hno : num_gt (Finite protein_g) 10 = false); [|by rewrite Hno].
    subst protein_g. apply Qlt_bool_false. apply Qle_trans with 8%Q; [|done].
    by eapply proj2, uniform_range.
Qed.

Lemma base_food_run i g :
  ∃ row g', base_food Gen uniform choice i g = (Ok row, g').
Proof.
  unfold base_food. rewrite bindG_draw.
  destruct (category_profile (choice categories g).1) as [[[[[cal prot] fat] carb] fib] sug].
  rewrite !bindG_draw. by eexists _, _.
Qed.

Lemma base_food_spec i g row g' :
  base_food Gen uniform choice i g = (Ok row, g') →
  generated row ∧ label_of row = false.
Proof.
  unfold base_food. rewrite bindG_draw.
  destruct (category_profile (choice categories g).1)
    as [[[[[cal prot] fat] carb] fib] sug] eqn:Hprofile.
  apply category_never_fit in Hprofile as (Hprot & Hfib & Hnever).
  set (g0 := (choice categories g).2). clearbody g0.
  intros H.
  apply bindG_Ok in H as (calories & g1 & _ & H).
  apply bindG_Ok in H as (protein_g & g2 & Hp%draw_Ok & H).
  apply bindG_Ok in H as (fat_g & g3 & _ & H).
  apply bindG_Ok in H as (carbs_g & g4 & _ & H).
  apply bindG_Ok in H as (fiber_g & g5 & Hf%draw_Ok & H).
  do 11 (apply bindG_Ok in H as (? & ? & _ & H)).
  injection H as <- _. split.
  - split; [reflexivity|]. split; [by eexists|].
    intros c Hc' H1 H2. unfold generated_columns in Hc'.
    rewrite !elem_of_cons, elem_of_nil in Hc'.
    repeat (destruct Hc' as [->|Hc']; [first [done | by eexists]|]). done.
  - unfold label_of, fit_of. cbn [field String.eqb Ascii.eqb Bool.eqb default from_option id num_of float].
    assert (Rp : (protein_g <= 1.2)%Q).
    { subst protein_g. by eapply proj2, uniform_range. }
    assert (Rf : (fiber_g <= 1.2)%Q).
    { subst fiber_g. by eapply proj2, uniform_range. }
    destruct Hnever as [Hlow|Hlow].
    + assert (Hno : num_gt (Finite (py_max 0 (prot * protein_g))) 10 = false);
        [|by rewrite Hno].
      apply Qlt_bool_false, py_max_le; [done|].
      eapply Qle_trans; [by apply scaled_le | done].
    + assert (Hno : num_gt (Finite (py_max 0 (fib * fiber_g))) 3 = false);
        [|by rewrite Hno, andb_false_r].
      apply Qlt_bool_false, py_max_le; [done|].
      eapply Qle_trans; [by apply scaled_le | done].
Qed.

Lemma n_fit_of_bounds n : (0 < n)%Z → (0 <= n_fit_of n < n)%Z.
Proof.
  intros Hn. unfold n_fit_of. rewrite Z.quot_div_nonneg by lia. split.
  - apply Z.div_pos; lia.
  - apply Z.div_lt_upper_bound; lia.
Qed.

(** X21.  The synthetic samples get the labels they are generated for.
    Whatever the source of randomness draws within the ranges, when
    [generate_synthetic_augmentation] returns for a positive number of
    samples, the frame has that many rows, a description and numbers in
    every nutrient and cost column, and [compute_labels] labels its first
    int(0.64 n) rows, the healthy ones, 1 and all the others 0. *)
Theorem synthetic_samples_get_their_labels
    (base_df synthetic_df : DataFrame) (n_synthetic : Z) (g g' : Gen) :
  (0 < n_synthetic)%Z →
  generate_synthetic_augmentation Gen uniform random sample_position base_df n_synthetic g
  = (Ok synthetic_df, g') →
  nrows synthetic_df = Z.to_nat n_synthetic ∧
  wf_frame synthetic_df ∧
  explainable synthetic_df = true ∧
  ∃ labelled,
    compute_labels synthetic_df = Ok labelled ∧
    cols labelled !! "fit"
    = Some (replicate (Z.to_nat (n_fit_of n_synthetic)) (CNum (Finite 1)) ++
            replicate (Z.to_nat (n_synthetic - n_fit_of n_synthetic)) (CNum (Finite 0))).
Proof.
  intros Hn H. pose proof (n_fit_of_bounds n_synthetic Hn) as Hfit.
  unfold generate_synthetic_augmentation in H. cbv zeta in H.
  apply bindG_Ok in H as (fit_rows & g1 & Hfit_rows & H).
  apply bindG_Ok in H as (unfit_rows & g2 & Hunfit_rows & H).
  injection H as <- _.
  apply (mapG_Ok _ (λ row, generated row ∧ label_of row = true)) in Hfit_rows
    as [Hall1 Hlen1]; [|intros x g3 y g4; apply healthy_row_spec].
  apply (mapG_Ok _ (λ row, generated row ∧ label_of row = false)) in Hunfit_rows
    as [Hall2 Hlen2]; [|intros x g3 y g4; apply unhealthy_row_spec].
  unfold range in Hlen1, Hlen2. rewrite length_seq in Hlen1, Hlen2.
  apply Forall_and in Hall1 as [Gen1 Lab1]. apply Forall_and in Hall2 as [Gen2 Lab2].
  assert (Hne : fit_rows ++ unfit_rows ≠ []).
  { intros Hnil. apply (f_equal length) in Hnil. rewrite length_app in Hnil.
    simpl in Hnil. lia. }
  assert (Hgen : Forall generated (fit_rows ++ unfit_rows)) by (by apply Forall_app).
  split; [simpl; rewrite length_app; lia|].
  split; [apply DataFrame_of_wf|].
  split; [by apply explainable_generated|].
  eexists. split; [by apply compute_labels_generated|].
  cbn [cols setitem]. rewrite lookup_insert_eq. f_equal.
  rewrite map_app, (map_constant label_of true fit_rows Lab1),
          (map_constant label_of false unfit_rows Lab2), Hlen1, Hlen2.
  unfold as_int. rewrite map_app. fold (as_int (replicate (Z.to_nat (n_fit_of n_synthetic)) true)).
  fold (as_int (replicate (Z.to_nat (n_synthetic - n_fit_of n_synthetic)) false)).
  by rewrite !as_int_replicate.
Qed.

(** X22.  No base food is labelled fit.  Whatever the source of
    randomness draws within the ranges, [create_sample_usda_data] returns
    a frame of 288 rows with the twenty-two columns of a catalog, a
    description and numbers in every nutrient and cost column, so that the
    service can explain its items; and [compute_labels] labels every one
    of its rows 0, no category having both the protein and the fiber of a
    fit item. *)
Theorem no_base_food_is_labelled_fit (g : Gen) :
  ∃ df g',
    create_sample_usda_data Gen uniform choice g = (Ok df, g') ∧
    nrows df = 288 ∧
    wf_frame df ∧
    (∀ c, has_column df c = true ↔ c ∈ generated_columns) ∧
    explainable df = true ∧
    ∃ labelled,
      compute_labels df = Ok labelled ∧
      cols labelled !! "fit" = Some (replicate 288 (CNum (Finite 0))).
Proof.
  unfold create_sample_usda_data.
  destruct (mapG_total (base_food Gen uniform choice) (range 288) g) as (foods & g' & Hfoods).
  { intros i g1. apply base_food_run. }
  exists (DataFrame_of foods), g'. split.
  { unfold bindG. by rewrite Hfoods. }
  apply (mapG_Ok _ (λ row, generated row ∧ label_of row = false)) in Hfoods
    as [Hall Hlen]; [|intros x g3 y g4; apply base_food_spec].
  apply Forall_and in Hall as [Hgen Hlab].
  assert (Hne : foods ≠ []) by (by destruct foods).
  split; [exact Hlen|]. split; [apply DataFrame_of_wf|]. split.
  { intros c. unfold has_column. rewrite DataFrame_of_lookup.
    rewrite <- (generated_keys foods c Hne Hgen). by destruct (decide _). }
  split; [by apply explainable_generated|].
  eexists. split; [by apply compute_labels_generated|].
  cbn [cols setitem]. rewrite lookup_insert_eq. f_equal.
  rewrite (map_constant label_of false foods Hlab), Hlen.
  apply as_int_replicate.
Qed.

End GeneratorContract.

Lemma turn_uniform_range low high (g : nat) :
  (low <= high)%Q → (low <= (turn_uniform low high g).1 <= high)%Q.
Proof.
  intros H. unfold turn_uniform. cbn [fst].
  split.
  - apply Qle_shift_div_l; [done|].
    apply Qle_trans with (low + low)%Q; [apply Qle_lteq; right; ring|].
    by apply Qplus_le_r.
  - apply Qle_shift_div_r; [done|].
    apply Qle_trans with (high + high)%Q; [by apply Qplus_le_l|].
    apply Qle_lteq. right. ring.
Qed.

Lemma synthetic_samples_get_their_labels_witness :
  nrows sample_synthetic = Z.to_nat 25 ∧
  wf_frame sample_synthetic ∧
  explainable sample_synthetic = true ∧
  ∃ labelled,
    compute_labels sample_synthetic = Ok labelled ∧
    cols labelled !! "fit"
    = Some (replicate (Z.to_nat (n_fit_of 25)) (CNum (Finite 1)) ++
            replicate (Z.to_nat (25 - n_fit_of 25)) (CNum (Finite 0))).
Proof.
  apply (synthetic_samples_get_their_labels nat turn_uniform turn_random turn_position
           turn_uniform_range sample_catalog sample_synthetic 25 0 500).
  - reflexivity.
  - vm_compute. reflexivity.
Defined.

Lemma no_base_food_is_labelled_fit_witness :
  ∃ df g',
    create_sample_usda_data nat turn_uniform turn_choice 0 = (Ok df, g') ∧
    nrows df = 288 ∧
    wf_frame df ∧
    (∀ c, has_column df c = true ↔ c ∈ generated_columns) ∧
    explainable df = true ∧
    ∃ labelled,
      compute_labels df = Ok labelled ∧
      cols labelled !! "fit" = Some (replicate 288 (CNum (Finite 0))).
Proof.
  apply (no_base_food_is_labelled_fit nat turn_uniform turn_choice turn_uniform_range 0).
Defined.

(** ** The labelled dataset *)

Lemma frame_eq (a b : DataFrame) : nrows a = nrows b → cols a = cols b → a = b.
Proof. destruct a, b. simpl. by intros -> ->. Qed.

Lemma pd_concat_generated rows1 rows2 :
  rows1 ≠ [] → rows2 ≠ [] → Forall generated rows1 → Forall generated rows2 →
  pd_concat (DataFrame_of rows1) (DataFrame_of rows2) = DataFrame_of (rows1 ++ rows2).
Proof.
  intros Hne1 Hne2 Hgen1 Hgen2. apply frame_eq.
  { simpl. by rewrite length_app. }
  apply map_eq. intros c. unfold pd_concat. cbn [cols].
  rewrite lookup_merge, !DataFrame_of_lookup.
  assert (Hne : rows1 ++ rows2 ≠ []) by (by destruct rows1).
  assert (Hgen : Forall generated (rows1 ++ rows2)) by (by apply Forall_app).
  destruct (decide (c ∈ generated_columns)) as [Hc|Hc].
  - rewrite !decide_True by (by apply generated_keys). simpl. by rewrite map_app.
  - rewrite !decide_False by (by rewrite generated_keys). done.
Qed.

Section DatasetContract.

Variable Gen : Type.
Variable uniform : Q → Q → Gen → Q * Gen.
Variable random : Gen → Q * Gen.
Variable choice : list string → Gen → string * Gen.
Variable sample_position : DataFrame → Gen → result nat * Gen.

Hypothesis uniform_range :
  ∀ low high g, (low <= high)%Q → (low <= (uniform low high g).1 <= high)%Q.

(** What pandas promises of [sample(1)] on a frame with rows: one of its
    positions. *)
Hypothesis sample_position_range :
  ∀ df g, nrows df ≠ 0 → ∃ position, (sample_position df g).1 = Ok position ∧
                                      position < nrows df.

Lemma sampled_category_run rows g :
  rows ≠ [] → Forall generated rows →
  ∃ category g', sampled_category Gen sample_position (DataFrame_of rows) g
                 = (Ok category, g').
Proof.
  intros Hne Hgen. unfold sampled_category, bindG, liftG.
  destruct (sample_position_range (DataFrame_of rows) g) as (position & Hpos & Hlt).
  { simpl. by destruct rows. }
  destruct (sample_position (DataFrame_of rows) g) as [r g1]. simpl in Hpos. subst r.
  unfold iloc. apply Nat.ltb_lt in Hlt as Hltb. rewrite Hltb.
  unfold row_getitem. rewrite iloc_lookup. unfold cell_at.
  rewrite (generated_column rows) by (done || decide_list).
  destruct (lookup_lt_is_Some_2
              (map (λ row, default (CNum NaN) (field "food_category" row)) rows) position)
    as [x Hx]; [by rewrite length_map|].
  rewrite Hx. by eexists _, _.
Qed.

Lemma healthy_row_run rows i g :
  rows ≠ [] → Forall generated rows →
  ∃ row g', healthy_row Gen uniform random sample_position (DataFrame_of rows) i g
            = (Ok row, g').
Proof.
  intros Hne Hgen. unfold healthy_row.
  destruct (sampled_category_run rows g Hne Hgen) as (category & g1 & Hcat).
  unfold bindG at 1. rewrite Hcat. rewrite !bindG_draw. by eexists _, _.
Qed.

Lemma unhealthy_row_run rows i g :
  rows ≠ [] → Forall generated rows →
  ∃ row g', unhealthy_row Gen uniform random sample_position (DataFrame_of rows) i g
            = (Ok row, g').
Proof.
  intros Hne Hgen. unfold unhealthy_row.
  destruct (sampled_category_run rows g Hne Hgen) as (category & g1 & Hcat).
  unfold bindG at 1. rewrite Hcat. rewrite !bindG_draw. by eexists _, _.
Qed.

(** X23.  The labelled dataset is 788 records of which 320 are fit.  When
    [usda-foods.csv] does not exist, whatever the source of randomness
    draws within the ranges, the first four steps of [preprocess_data]
    return: 288 generated base foods followed by 500 synthetic records,
    with the labels 0 for every base food, 1 for the 320 healthy synthetic
    records and 0 for the 180 others, and with both derived features on
    every record. *)
Theorem labelled_dataset_is_320_fit_of_788 (g : Gen) :
  ∃ df g',
    labelled_dataset Gen uniform random choice sample_position None g = (Ok df, g') ∧
    nrows df = 788 ∧
    wf_frame df ∧
    cols df !! "fit"
    = Some (replicate 288 (CNum (Finite 0)) ++ replicate 320 (CNum (Finite 1)) ++
            replicate 180 (CNum (Finite 0))) ∧
    is_Some (cols df !! "nutrient_density") ∧
    is_Some (cols df !! "sugar_to_carb_ratio").
Proof.
  unfold labelled_dataset.
  (* the base catalog *)
  destruct (mapG_total (base_food Gen uniform choice) (range 288) g) as (foods & g1 & Hfoods).
  { intros i g0. apply base_food_run. }
  assert (Hbase : create_sample_usda_data Gen uniform choice g = (Ok (DataFrame_of foods), g1)).
  { unfold create_sample_usda_data, bindG. by rewrite Hfoods. }
  apply (mapG_Ok _ (λ row, generated row ∧ label_of row = false)) in Hfoods
    as [Hall0 Hlen0]; [|intros x g3 y g4; by apply base_food_spec].
  apply Forall_and in Hall0 as [Gen0 Lab0].
  assert (Hne0 : foods ≠ []) by (by destruct foods).
  (* the synthetic records *)
  destruct (mapG_total (healthy_row Gen uniform random sample_position (DataFrame_of foods))
              (range (n_fit_of 500)) g1) as (fit_rows & g2 & Hfit).
  { intros i g0. by apply healthy_row_run. }
  destruct (mapG_total (unhealthy_row Gen uniform random sample_position (DataFrame_of foods))
              (range (500 - n_fit_of 500)) g2) as (unfit_rows & g3 & Hunfit).
  { intros i g0. by apply unhealthy_row_run. }
  assert (Hsynthetic :
    generate_synthetic_augmentation Gen uniform random sample_position
      (DataFrame_of foods) 500 g1 = (Ok (DataFrame_of (fit_rows ++ unfit_rows)), g3)).
  { unfold generate_synthetic_augmentation, bindG. cbv zeta. by rewrite Hfit, Hunfit. }
  apply (mapG_Ok _ (λ row, generated row ∧ label_of row = true)) in Hfit
    as [Hall1 Hlen1]; [|intros x g4 y g5; by apply healthy_row_spec].
  apply (mapG_Ok _ (λ row, generated row ∧ label_of row = false)) in Hunfit
    as [Hall2 Hlen2]; [|intros x g4 y g5; by apply unhealthy_row_spec].
  apply Forall_and in Hall1 as [Gen1 Lab1]. apply Forall_and in Hall2 as [Gen2 Lab2].
  change (length (range 288)) with 288 in Hlen0.
  change (length (range (n_fit_of 500))) with 320 in Hlen1.
  change (length (range (500 - n_fit_of 500))) with 180 in Hlen2.
  assert (Hne12 : fit_rows ++ unfit_rows ≠ []) by (by destruct fit_rows).
  assert (Gen12 : Forall generated (fit_rows ++ unfit_rows)) by (by apply Forall_app).
  set (rows := foods ++ fit_rows ++ unfit_rows).
  assert (Hne : rows ≠ []) by (by destruct foods).
  assert (Hgen : Forall generated rows) by (by apply Forall_app).
  assert (Hlen : length rows = 788).
  { unfold rows. rewrite !length_app. lia. }
  (* labels and derived features *)
  set (labelled := setitem (DataFrame_of rows) "fit" (as_int (map label_of rows))).
  assert (Hwf : wf_frame labelled).
  { intros c l. unfold labelled. cbn [cols setitem nrows].
    destruct (decide (c = "fit")) as [->|Hc].
    - rewrite lookup_insert_eq. intros [= <-]. unfold as_int. by rewrite !length_map.
    - rewrite lookup_insert_ne by done. apply DataFrame_of_wf. }
  assert (Hnum : Forall (λ c, numeric_column labelled c = true)
                   [ "protein_g"; "fiber_g"; "calories"; "sugars_g"; "carbs_g" ]).
  { repeat constructor; unfold numeric_column, labelled; cbn [cols setitem];
      rewrite lookup_insert_ne by discriminate;
      rewrite (generated_column rows) by (done || decide_list);
      apply forallb_Forall, generated_numeric; (done || decide_list || discriminate). }
  destruct (compute_derived_features_numeric labelled Hwf Hnum)
    as (df & Hdf & Hwfdf & Hrows & Hsame & Hderived).
  exists df, g3. split.
  { unfold bindG at 1. rewrite Hbase. unfold bindG at 1. rewrite Hsynthetic.
    rewrite (pd_concat_generated foods (fit_rows ++ unfit_rows)) by done.
    fold rows. unfold bindG, liftG.
    rewrite (compute_labels_generated rows Hne Hgen). fold labelled. by rewrite Hdf. }
  split; [rewrite Hrows; exact Hlen|]. split; [exact Hwfdf|]. split.
  { rewrite Hsame by discriminate. unfold labelled. cbn [cols setitem].
    rewrite lookup_insert_eq. f_equal. unfold rows. rewrite !map_app.
    rewrite (map_constant label_of false foods Lab0),
            (map_constant label_of true fit_rows Lab1),
            (map_constant label_of false unfit_rows Lab2), Hlen0, Hlen1, Hlen2.
    by vm_compute. }
  assert (Hrow : 0 < nrows labelled) by (unfold labelled; simpl; lia).
  destruct (Hderived 0 Hrow) as (p & f & k & s & b & _ & _ & _ & _ & _ & Hnd & Hsr & _).
  unfold cell_at in Hnd, Hsr. split.
  - by destruct (cols df !! "nutrient_density").
  - by destruct (cols df !! "sugar_to_carb_ratio").
Qed.

End DatasetContract.

Lemma turn_position_range df (g : nat) :
  nrows df ≠ 0 → ∃ position, (turn_position df g).1 = Ok position ∧ position < nrows df.
Proof.
  intros Hne. unfold turn_position. apply Nat.eqb_neq in Hne as Hneb. rewrite Hneb.
  eexists. split; [reflexivity|]. by apply Nat.mod_upper_bound.
Qed.

Lemma labelled_dataset_is_320_fit_of_788_witness :
  ∃ df g',
    labelled_dataset nat turn_uniform turn_random turn_choice turn_position None 0
    = (Ok df, g') ∧
    nrows df = 788 ∧
    wf_frame df ∧
    cols df !! "fit"
    = Some (replicate 288 (CNum (Finite 0)) ++ replicate 320 (CNum (Finite 1)) ++
            replicate 180 (CNum (Finite 0))) ∧
    is_Some (cols df !! "nutrient_density") ∧
    is_Some (cols df !! "sugar_to_carb_ratio").
Proof.
  apply (labelled_dataset_is_320_fit_of_788 nat turn_uniform turn_random turn_choice
           turn_position turn_uniform_range turn_position_range 0).
Defined.

(** X24.  The response echoes the request.  In every run, a ranked
    response on standard output carries the request's query, the empty
    string when the request has none; the number of catalog items the
    constraint filter let through for the request's profile, which is
    positive and not above the size of the catalog; the model version
    "1.0"; and the profile's goal, "General Health" when the profile has
    none. *)
Theorem response_echoes_the_request
    (argsort : list Q → list nat) (w : World) (user_input : json) (food_db : DataFrame) :
  outcome read_request w = Ok user_input →
  outcome load_food_database w = Ok food_db →
  wf_frame food_db →
  ∀ recs query total_eligible model_version user_goal,
    Ranked recs query total_eligible model_version user_goal
    ∈ stdout_of (trace (main argsort) w) →
    dict_get user_input "query" (JStr "") = Ok query ∧
    model_version = "1.0" ∧
    (0 < total_eligible ≤ nrows food_db)%nat ∧
    ∃ user_profile eligible_foods,
      dict_get user_input "userProfile" (JObj []) = Ok user_profile ∧
      filter_by_user_constraints food_db user_profile = Ok eligible_foods ∧
      total_eligible = nrows eligible_foods ∧
      dict_get user_profile "primaryGoal" (JStr "General Health") = Ok user_goal.
Proof.
  intros Hreq Hdb Hwf recs query total_eligible model_version user_goal Hout.
  apply main_stdout in Hout as (ui & top_k & Hreq' & _ & Hpred).
  rewrite Hreq in Hreq'. injection Hreq' as <-.
  apply predict_top_meals_Ok in Hpred
    as (food_db' & profile & query' & eligible & Hdb' & Hprofile & Hquery & Hfilter & Hcase).
  rewrite Hdb in Hdb'. injection Hdb' as <-.
  destruct Hcase as [[_ [message Hnone]]|(materialized & raw & probs & Hne & Hmat & _ & Hrank)].
  - discriminate Hnone.
  - apply rank_and_explain_Ok in Hrank as (top & goal & _ & _ & Hresponse & Hgoal).
    injection Hresponse as -> -> -> ->.
    apply materialize_features_Ok in Hmat as ([Hrows _] & _ & _).
    pose proof Hfilter as Hsplit. rewrite filter_by_user_constraints_split in Hsplit.
    apply bindR_Ok in Hsplit as (asked & _ & Happly).
    pose proof (selection_of_nrows _ _ Hwf (apply_constraints_selection _ _ _ Hwf Happly))
      as Hle.
    split; [done|]. split; [done|]. split; [lia|].
    exists profile, eligible. by rewrite Hrows.
Qed.

Lemma response_echoes_the_request_witness :
  wf_frame sample_catalog ∧
  ∀ recs query total_eligible model_version user_goal,
    Ranked recs query total_eligible model_version user_goal
    ∈ stdout_of (trace (main argsort_insertion) sample_world) →
    dict_get sample_request "query" (JStr "") = Ok query ∧
    model_version = "1.0" ∧
    (0 < total_eligible ≤ nrows sample_catalog)%nat ∧
    ∃ user_profile eligible_foods,
      dict_get sample_request "userProfile" (JObj []) = Ok user_profile ∧
      filter_by_user_constraints sample_catalog user_profile = Ok eligible_foods ∧
      total_eligible = nrows eligible_foods ∧
      dict_get user_profile "primaryGoal" (JStr "General Health") = Ok user_goal.
Proof.
  split; [exact sample_catalog_wf|].
  apply (response_echoes_the_request argsort_insertion sample_world sample_request
           sample_catalog).
  - reflexivity.
  - reflexivity.
  - exact sample_catalog_wf.
Defined.
